(** * Under-Delta-Tale-Rune-Fight-Sim: the content generators

    The repository's five scripts (scripts/generate_*.py) each hold a
    hard-coded table of enemies or bosses and write one JSON file per entry.
    This development embeds them in Rocq:

    - [Py]: the Python values the tables are made of (dict, list, str, int,
      float), and the str and dict operations the scripts call;
    - [Json]: [json.dump(obj, f, indent=4)] and [json.load], as CPython's
      json package behaves on such values;
    - [Os]: the calls the scripts make on the operating system
      ([os.makedirs], [open(p, 'w')], [print]), a small file system on which
      they are performed, and the monad in which the scripts run;
    - one module per script, with the table and the functions under their
      own names;
    - the properties of the generators. *)

From Stdlib Require Import ZArith Ascii String.
From stdpp Require Import base gmap strings pretty list.

(** ** Python values *)

Module Py.

(** A [str] is held as the UTF-8 bytes of its text.  A [float] is held as a
    decimal, [PFloat m e] standing for [m / 10^e]: every float literal of the
    scripts ([2.5], [3.5], ...) is such a short decimal, and [repr] of the
    double nearest to a decimal of at most 15 digits prints that decimal
    back.  A [dict] keeps its insertion order and has string keys. *)
#[local] Set Warnings "-register-all".
Inductive pyval : Type :=
| PNone
| PBool (b : bool)
| PInt (n : Z)
| PFloat (mant : Z) (frac : nat)
| PStr (s : string)
| PList (items : list pyval)
| PDict (items : list (string * pyval)).

#[local] Set Warnings "register-all".

Abbreviation pydict := (list (string * pyval)).

(** [k in d] *)
Fixpoint dict_contains (d : pydict) (k : string) : bool :=
  match d with
  | [] => false
  | (k', _) :: d' => if String.eqb k' k then true else dict_contains d' k
  end.

(** [d[k]], [None] standing for KeyError *)
Fixpoint dict_get (d : pydict) (k : string) : option pyval :=
  match d with
  | [] => None
  | (k', v) :: d' => if String.eqb k' k then Some v else dict_get d' k
  end.

(** [d[k] = v]: an existing key keeps its place, a new key goes last. *)
Fixpoint dict_set (d : pydict) (k : string) (v : pyval) : pydict :=
  match d with
  | [] => [(k, v)]
  | (k', v') :: d' =>
      if String.eqb k' k then (k', v) :: d' else (k', v') :: dict_set d' k v
  end.

(** The dict a literal [{k1: v1, k2: v2, ...}] builds. *)
Definition dict_of (kvs : pydict) : pydict :=
  fold_left (fun d kv => dict_set d kv.1 kv.2) kvs [].

Definition dict_keys (d : pydict) : list string := map fst d.

(** *** str *)

Definition LF : ascii := "010"%char.
Definition DQUOTE : ascii := "034"%char.
Definition BACKSLASH : ascii := "092"%char.

Definition ascii_lower (c : ascii) : ascii :=
  let n := N_of_ascii c in
  if (65 <=? n)%N && (n <=? 90)%N then ascii_of_N (n + 32) else c.

Definition ascii_upper (c : ascii) : ascii :=
  let n := N_of_ascii c in
  if (97 <=? n)%N && (n <=? 122)%N then ascii_of_N (n - 32) else c.

(** [s.lower()] and [s.upper()], on the ASCII letters (every string the
    scripts apply them to is ASCII). *)
Fixpoint lower (s : string) : string :=
  match s with
  | EmptyString => EmptyString
  | String c r => String (ascii_lower c) (lower r)
  end.

Fixpoint upper (s : string) : string :=
  match s with
  | EmptyString => EmptyString
  | String c r => String (ascii_upper c) (upper r)
  end.

(** [s.replace(old, new)] for a one-character [old], the only use the
    scripts make of it. *)
Fixpoint replace (old : ascii) (new : string) (s : string) : string :=
  match s with
  | EmptyString => EmptyString
  | String c r =>
      if Ascii.eqb c old then new +:+ replace old new r
      else String c (replace old new r)
  end.

(** *** Code points *)

Definition is_cont (c : ascii) : bool :=
  let n := N_of_ascii c in (128 <=? n)%N && (n <? 192)%N.

Definition cont (c : ascii) : N := (N_of_ascii c mod 64)%N.

(** The code points of a str.  A byte that does not start a well-formed
    sequence (none occurs in a str built from text) counts for itself. *)
Fixpoint utf8_decode (s : string) : list N :=
  match s with
  | EmptyString => []
  | String c0 r0 =>
      let b0 := N_of_ascii c0 in
      let single := b0 :: utf8_decode r0 in
      if (b0 <? 192)%N then single
      else
        match r0 with
        | String c1 r1 =>
            if negb (is_cont c1) then single
            else if (b0 <? 224)%N then
              ((b0 mod 32) * 64 + cont c1)%N :: utf8_decode r1
            else
              match r1 with
              | String c2 r2 =>
                  if negb (is_cont c2) then single
                  else if (b0 <? 240)%N then
                    ((b0 mod 16) * 4096 + cont c1 * 64 + cont c2)%N
                      :: utf8_decode r2
                  else
                    match r2 with
                    | String c3 r3 =>
                        if negb (is_cont c3) then single
                        else
                          ((b0 mod 8) * 262144 + cont c1 * 4096
                           + cont c2 * 64 + cont c3)%N :: utf8_decode r3
                    | EmptyString => single
                    end
              | EmptyString => single
              end
        | EmptyString => single
        end
  end.

Definition byte (n : N) : ascii := ascii_of_N n.

Definition utf8_encode1 (cp : N) : string :=
  if (cp <? 128)%N then String (byte cp) EmptyString
  else if (cp <? 2048)%N then
    String (byte (192 + cp / 64)) (String (byte (128 + cp mod 64)) EmptyString)
  else if (cp <? 65536)%N then
    String (byte (224 + cp / 4096))
      (String (byte (128 + (cp / 64) mod 64))
         (String (byte (128 + cp mod 64)) EmptyString))
  else
    String (byte (240 + cp / 262144))
      (String (byte (128 + (cp / 4096) mod 64))
         (String (byte (128 + (cp / 64) mod 64))
            (String (byte (128 + cp mod 64)) EmptyString))).

Fixpoint utf8_encode (cps : list N) : string :=
  match cps with
  | [] => EmptyString
  | cp :: r => utf8_encode1 cp +:+ utf8_encode r
  end.

Definition hex_digit (n : N) : ascii :=
  if (n <? 10)%N then ascii_of_N (48 + n) else ascii_of_N (87 + n).

Definition hex_value (c : ascii) : option N :=
  let n := N_of_ascii c in
  if (48 <=? n)%N && (n <=? 57)%N then Some (n - 48)%N
  else if (97 <=? n)%N && (n <=? 102)%N then Some (n - 87)%N
  else if (65 <=? n)%N && (n <=? 70)%N then Some (n - 55)%N
  else None.

(** *** Literals

    [lit] reads the text between the quotes of a Python string literal, so
    that the tables below are spelled as in the scripts: a backslash followed
    by [n] is a line feed, two backslashes are one, and [\uXXXX] is a code
    point. *)
Fixpoint lit (s : string) : string :=
  match s with
  | EmptyString => EmptyString
  | String c r =>
      if Ascii.eqb c BACKSLASH then
        match r with
        | String e r' =>
            if Ascii.eqb e "n" then String LF (lit r')
            else if Ascii.eqb e BACKSLASH then String BACKSLASH (lit r')
            else if Ascii.eqb e "'" then String "'" (lit r')
            else if Ascii.eqb e "u" then
              match r' with
              | String h1 (String h2 (String h3 (String h4 r''))) =>
                  match hex_value h1, hex_value h2, hex_value h3, hex_value h4 with
                  | Some a, Some b, Some c', Some d =>
                      utf8_encode1 (a * 4096 + b * 256 + c' * 16 + d)%N +:+ lit r''
                  | _, _, _, _ => String c (lit r)
                  end
              | _ => String c (lit r)
              end
            else String c (lit r)
        | EmptyString => String c EmptyString
        end
      else String c (lit r)
  end.

(** [str(n)] for an int. *)
Definition str_of_int (n : Z) : string := pretty n.

Fixpoint zeros (n : nat) : string :=
  match n with
  | O => EmptyString
  | S n' => String "0" (zeros n')
  end.

(** [repr(x)] for the float [m / 10^e]: the integer part, a point, and [e]
    fractional digits (one at least, as in [3.0]). *)
Definition float_repr (m : Z) (e : nat) : string :=
  let a := Z.abs m in
  let p := (10 ^ Z.of_nat e)%Z in
  let frac := pretty (a mod p)%Z in
  (if (m <? 0)%Z then "-" else "")
    +:+ pretty (a / p)%Z +:+ "."
    +:+ (if e is O then "0" else zeros (e - String.length frac) +:+ frac).

(** Decimal literals: [3.5] is read as [35 / 10^1]. *)
Record pyfloat : Set := Dec { mant : Z; frac : nat }.

Definition pyfloat_of_number (n : Number.number) : option pyfloat :=
  match n with
  | Number.Decimal (Decimal.Decimal (Decimal.Pos u) f) =>
      Some (Dec (Z.of_uint (Decimal.app u f)) (Decimal.nb_digits f))
  | Number.Decimal (Decimal.Decimal (Decimal.Neg u) f) =>
      Some (Dec (- Z.of_uint (Decimal.app u f)) (Decimal.nb_digits f))
  | _ => None
  end.

Definition number_of_pyfloat (x : pyfloat) : option Number.number := None.

Declare Scope pyfloat_scope.
Delimit Scope pyfloat_scope with pyfloat.
Number Notation pyfloat pyfloat_of_number number_of_pyfloat : pyfloat_scope.

(** The values the literals of the scripts denote. *)
Definition str (s : string) : pyval := PStr (lit s).
Definition int (n : Z) : pyval := PInt n.
Definition float (x : pyfloat) : pyval := PFloat (mant x) (frac x).
#[global] Arguments int n%_Z.
#[global] Arguments float x%_pyfloat.

End Py.
Export Py.

(** ** The json package *)

Module Json.

(** *** json.dump

    [json.dump(obj, f, indent=4)] writes the chunks of
    [json.encoder._make_iterencode]: with an indent the item separator is a
    comma followed by a line feed and the indentation, the key separator is a
    colon and a space, an empty container is written [[]] or [{}], and
    strings are escaped by [py_encode_basestring_ascii] ([ensure_ascii] is on
    by default). *)

Definition u_escape (n : N) : string :=
  String BACKSLASH (String "u"
    (String (hex_digit (n / 4096))
       (String (hex_digit ((n / 256) mod 16))
          (String (hex_digit ((n / 16) mod 16))
             (String (hex_digit (n mod 16)) EmptyString))))).

Definition escape_char (cp : N) : string :=
  if (cp =? 34)%N then String BACKSLASH (String DQUOTE EmptyString)
  else if (cp =? 92)%N then String BACKSLASH (String BACKSLASH EmptyString)
  else if (cp =? 10)%N then String BACKSLASH "n"
  else if (cp =? 13)%N then String BACKSLASH "r"
  else if (cp =? 9)%N then String BACKSLASH "t"
  else if (cp =? 12)%N then String BACKSLASH "f"
  else if (cp =? 8)%N then String BACKSLASH "b"
  else if (32 <=? cp)%N && (cp <=? 126)%N then String (ascii_of_N cp) EmptyString
  else if (cp <? 65536)%N then u_escape cp
  else
    let v := (cp - 65536)%N in
    u_escape (55296 + (v / 1024) mod 1024) +:+ u_escape (56320 + v mod 1024).

Fixpoint escape_all (cps : list N) : string :=
  match cps with
  | [] => EmptyString
  | cp :: r => escape_char cp +:+ escape_all r
  end.

Definition encode_basestring_ascii (s : string) : string :=
  String DQUOTE (escape_all (utf8_decode s) +:+ String DQUOTE EmptyString).

Fixpoint spaces (n : nat) : string :=
  match n with
  | O => EmptyString
  | S n' => String " " (spaces n')
  end.

Definition newline_indent (indent level : nat) : string :=
  String LF (spaces (indent * level)).

Fixpoint iterencode (indent level : nat) (o : pyval) : string :=
  match o with
  | PNone => "null"
  | PBool true => "true"
  | PBool false => "false"
  | PInt n => str_of_int n
  | PFloat m e => float_repr m e
  | PStr s => encode_basestring_ascii s
  | PList [] => "[]"
  | PList (x :: xs) =>
      let sep := newline_indent indent (S level) in
      "[" +:+ sep +:+ iterencode indent (S level) x
      +:+ (fix rest (l : list pyval) : string :=
             match l with
             | [] => EmptyString
             | y :: l' => "," +:+ sep +:+ iterencode indent (S level) y +:+ rest l'
             end) xs
      +:+ newline_indent indent level +:+ "]"
  | PDict [] => "{}"
  | PDict ((k, x) :: kvs) =>
      let sep := newline_indent indent (S level) in
      "{" +:+ sep +:+ encode_basestring_ascii k +:+ ": "
      +:+ iterencode indent (S level) x
      +:+ (fix rest (l : pydict) : string :=
             match l with
             | [] => EmptyString
             | (k', y) :: l' =>
                 "," +:+ sep +:+ encode_basestring_ascii k' +:+ ": "
                 +:+ iterencode indent (S level) y +:+ rest l'
             end) kvs
      +:+ newline_indent indent level +:+ "}"
  end.

(** The text [json.dump(obj, f, indent=indent)] writes to [f]. *)
Definition dumps (obj : pyval) (indent : nat) : string :=
  iterencode indent 0 obj.

(** *** json.load

    [json.decoder] and [json.scanner]: white space is skipped around values
    and separators, a number without fraction is an int, a repeated key keeps
    its first place and its last value, and nothing but white space may
    follow the value.  Numbers with an exponent, [NaN] and [Infinity], which
    [json.dump] does not write for the values above, are not read. *)

Definition is_ws (c : ascii) : bool :=
  Ascii.eqb c " " || Ascii.eqb c LF || Ascii.eqb c "013" || Ascii.eqb c "009".

Fixpoint skip_ws (s : string) : string :=
  match s with
  | String c r => if is_ws c then skip_ws r else s
  | EmptyString => s
  end.

Definition digit_value (c : ascii) : option Z :=
  let n := N_of_ascii c in
  if (48 <=? n)%N && (n <=? 57)%N then Some (Z.of_N n - 48)%Z else None.

(** The digits at the head of [s]: their value after [acc], their number,
    and the rest. *)
Fixpoint scan_digits (s : string) (acc : Z) (count : nat) : Z * nat * string :=
  match s with
  | String c r =>
      match digit_value c with
      | Some d => scan_digits r (acc * 10 + d)%Z (S count)
      | None => (acc, count, s)
      end
  | EmptyString => (acc, count, s)
  end.

(** A float read from [m / 10^e] is the one [repr] spells with the fewest
    digits. *)
Fixpoint strip_zeros (m : Z) (e : nat) : Z * nat :=
  match e with
  | S (S e' as e1) => if (m mod 10 =? 0)%Z then strip_zeros (m / 10)%Z e1 else (m, e)
  | _ => (m, e)
  end.

Definition scan_number (s : string) : option (pyval * string) :=
  let '(neg, s1) :=
    match s with
    | String "-" r => (true, r)
    | _ => (false, s)
    end in
  let int_part :=
    match s1 with
    | String "0" r => Some (0%Z, r)
    | _ => let '(n, k, r) := scan_digits s1 0 0 in
           if k is O then None else Some (n, r)
    end in
  match int_part with
  | None => None
  | Some (n, r) =>
      let sign (x : Z) := if neg : bool then (- x)%Z else x in
      let '(v, r1) :=
        match r with
        | String "." r' =>
            let '(m, k, r'') := scan_digits r' n 0 in
            if k is O then (PInt (sign n), r)
            else let '(m', k') := strip_zeros m k in (PFloat (sign m') k', r'')
        | _ => (PInt (sign n), r)
        end in
      match r1 with
      | String "e" _ | String "E" _ => None
      | _ => Some (v, r1)
      end
  end.

(** The body of a string after its opening quote: code units up to the
    closing quote, and the rest.  A raw control character is refused. *)
Fixpoint scan_units (s : string) : option (list N * string) :=
  match s with
  | EmptyString => None
  | String c r =>
      if Ascii.eqb c DQUOTE then Some ([], r)
      else if Ascii.eqb c BACKSLASH then
        match r with
        | String "u" (String h1 (String h2 (String h3 (String h4 r')))) =>
            match hex_value h1, hex_value h2, hex_value h3, hex_value h4 with
            | Some a, Some b, Some c', Some d =>
                '(us, rest) ← scan_units r';
                Some ((65536 + (a * 4096 + b * 256 + c' * 16 + d))%N :: us, rest)
            | _, _, _, _ => None
            end
        | String e r' =>
            u ← (if Ascii.eqb e DQUOTE then Some 34
                 else if Ascii.eqb e BACKSLASH then Some 92
                 else if Ascii.eqb e "/" then Some 47
                 else if Ascii.eqb e "b" then Some 8
                 else if Ascii.eqb e "f" then Some 12
                 else if Ascii.eqb e "n" then Some 10
                 else if Ascii.eqb e "r" then Some 13
                 else if Ascii.eqb e "t" then Some 9
                 else None)%N;
            '(us, rest) ← scan_units r';
            Some (u :: us, rest)
        | EmptyString => None
        end
      else if (N_of_ascii c <? 32)%N then None
      else '(us, rest) ← scan_units r; Some (N_of_ascii c :: us, rest)
  end.

(** [scan_units] marks an escaped code unit [u] as [65536 + u], to tell it
    from a raw byte; a high surrogate followed by a low one is one code
    point. *)
Fixpoint join_units (us : list N) : string :=
  match us with
  | [] => EmptyString
  | u :: r =>
      if (u <? 65536)%N then String (ascii_of_N u) (join_units r)
      else
        let hi := (u - 65536)%N in
        match r with
        | u2 :: r' =>
            let lo := (u2 - 65536)%N in
            if (55296 <=? hi)%N && (hi <=? 56319)%N && (65536 <=? u2)%N
               && (56320 <=? lo)%N && (lo <=? 57343)%N
            then utf8_encode1 (65536 + (hi - 55296) * 1024 + (lo - 56320))
                   +:+ join_units r'
            else utf8_encode1 hi +:+ join_units r
        | [] => utf8_encode1 hi
        end
  end.

Definition scanstring (s : string) : option (string * string) :=
  '(us, rest) ← scan_units s; Some (join_units us, rest).

Definition literal (word : string) (v : pyval) (s : string) : option (pyval * string) :=
  if String.prefix word s
  then Some (v, String.substring (String.length word) (String.length s - String.length word) s)
  else None.

Fixpoint scan_once (fuel : nat) (s : string) : option (pyval * string) :=
  match fuel with
  | O => None
  | S fuel' =>
      match s with
      | String c r =>
          if Ascii.eqb c DQUOTE then
            '(str, rest) ← scanstring r; Some (PStr str, rest)
          else if Ascii.eqb c "{" then
            match skip_ws r with
            | String "}" rest => Some (PDict [], rest)
            | r' => JSONObject fuel' [] r'
            end
          else if Ascii.eqb c "[" then
            match skip_ws r with
            | String "]" rest => Some (PList [], rest)
            | r' => JSONArray fuel' [] r'
            end
          else if Ascii.eqb c "n" then literal "null" PNone s
          else if Ascii.eqb c "t" then literal "true" (PBool true) s
          else if Ascii.eqb c "f" then literal "false" (PBool false) s
          else scan_number s
      | EmptyString => None
      end
  end

(** The members of an object from a key on; [pairs] are those read so far. *)
with JSONObject (fuel : nat) (pairs : pydict) (s : string) : option (pyval * string) :=
  match fuel with
  | O => None
  | S fuel' =>
      match s with
      | String c r =>
          if Ascii.eqb c DQUOTE then
            '(key, r1) ← scanstring r;
            match skip_ws r1 with
            | String ":" r2 =>
                '(value, r3) ← scan_once fuel' (skip_ws r2);
                let pairs' := pairs ++ [(key, value)] in
                match skip_ws r3 with
                | String "}" rest => Some (PDict (dict_of pairs'), rest)
                | String "," r4 => JSONObject fuel' pairs' (skip_ws r4)
                | _ => None
                end
            | _ => None
            end
          else None
      | EmptyString => None
      end
  end

(** The elements of an array from a value on. *)
with JSONArray (fuel : nat) (values : list pyval) (s : string) : option (pyval * string) :=
  match fuel with
  | O => None
  | S fuel' =>
      '(value, r1) ← scan_once fuel' s;
      let values' := values ++ [value] in
      match skip_ws r1 with
      | String "]" rest => Some (PList values', rest)
      | String "," r2 => JSONArray fuel' values' (skip_ws r2)
      | _ => None
      end
  end.

(** [json.loads(s)], [None] standing for JSONDecodeError.  Every call of the
    scanner consumes a character, so the length of [s] is fuel enough. *)
Definition loads (s : string) : option pyval :=
  '(obj, rest) ← scan_once (S (String.length s)) (skip_ws s);
  if skip_ws rest is EmptyString then Some obj else None.

End Json.

(** ** The operating system and the interpreter *)

Module Os.

(** Exceptions the scripts can let escape. *)
Inductive exn : Type :=
| NameError (name : string)
| KeyError (key : string)
| TypeError
| FileNotFoundError (path : string)
| FileExistsError (path : string)
| IsADirectoryError (path : string)
| NotADirectoryError (path : string).

(** The calls the scripts make on the outside world:
    [os.makedirs(path, exist_ok=True)];
    [with open(path, 'w') as f: json.dump(obj, f, indent=indent)];
    [print(line)]. *)
Inductive syscall : Type :=
| Makedirs (path : string)
| Dump (path : string) (obj : pyval) (indent : nat)
| Print (line : string).

(** *** os.path *)

(** [(p[:i], p[i:])] for [i = p.rfind('/') + 1] *)
Fixpoint rsplit (p : string) : string * string :=
  match p with
  | EmptyString => (EmptyString, EmptyString)
  | String c r =>
      let '(h, t) := rsplit r in
      if negb (String.eqb h "") then (String c h, t)
      else if Ascii.eqb c "/" then ("/", t)
      else ("", String c t)
  end.

(** [s.rstrip('/')] *)
Fixpoint rstrip_slash (s : string) : string :=
  match s with
  | EmptyString => EmptyString
  | String c r =>
      match rstrip_slash r with
      | EmptyString => if Ascii.eqb c "/" then EmptyString else String c EmptyString
      | r' => String c r'
      end
  end.

(** [posixpath.split]: the head loses its trailing slashes unless it is made
    of slashes only. *)
Definition split (p : string) : string * string :=
  let '(head, tail) := rsplit p in
  (if rstrip_slash head is EmptyString then head else rstrip_slash head, tail).

Definition dirname (p : string) : string := (split p).1.

Definition ends_with_slash (p : string) : bool :=
  match last (list_ascii_of_string p) with
  | Some c => Ascii.eqb c "/"
  | None => false
  end.

(** [posixpath.join(a, b)] *)
Definition join (a b : string) : string :=
  if String.prefix "/" b then b
  else if String.eqb a "" || ends_with_slash a then a +:+ b
  else a +:+ "/" +:+ b.

(** The chain [os.makedirs(p)] walks: every proper ancestor of [p] that
    names a directory to make (neither the current directory nor the root),
    then [p] itself. *)
Fixpoint ancestors (seen : string) (p : string) : list string :=
  match p with
  | EmptyString => []
  | String c r =>
      (if Ascii.eqb c "/" && negb (String.eqb (rstrip_slash seen) "")
          && negb (ends_with_slash seen)
       then [seen] else [])
      ++ ancestors (seen +:+ String c EmptyString) r
  end.

Definition chain (p : string) : list string := ancestors "" p ++ [p].

(** *** A file system

    Directories and regular files are known by their path as the scripts
    spell it; the current directory (the empty path) and the root always
    exist.  [stdout] is what was printed, one entry per [print]. *)
Record machine : Type := Machine {
  dirs : gset string;
  files : gmap string string;
  stdout : list string
}.

Definition isdir (m : machine) (p : string) : bool :=
  String.eqb p "" || String.eqb p "/" || bool_decide (p ∈ dirs m).

Definition isfile (m : machine) (p : string) : bool :=
  bool_decide (is_Some (files m !! p)).

(** [os.makedirs(name, exist_ok=True)]: the missing directories of the chain
    are made from the top down.  A regular file in the way stops it: at
    [name] itself, mkdir finds the path taken (FileExistsError); above it,
    the mkdir of the next path finds that its parent is no directory. *)
Fixpoint mkdir_chain (ps : list string) (m : machine) : exn + machine :=
  match ps with
  | [] => inr m
  | p :: ps' =>
      if isdir m p then mkdir_chain ps' m
      else if isfile m p then
        inl (match ps' with
             | [] => FileExistsError p
             | q :: _ => NotADirectoryError q
             end)
      else mkdir_chain ps' (Machine ({[p]} ∪ dirs m) (files m) (stdout m))
  end.

Definition makedirs (name : string) (m : machine) : exn + machine :=
  mkdir_chain (chain name) m.

(** [open(path, 'w')], the writes and the close: the file is created or
    replaced, provided its directory exists and the path is no directory. *)
Definition write_file (path content : string) (m : machine) : exn + machine :=
  if isdir m path then inl (IsADirectoryError path)
  else if isfile m (dirname path) then inl (NotADirectoryError path)
  else if negb (isdir m (dirname path)) then inl (FileNotFoundError path)
  else inr (Machine (dirs m) (<[path := content]> (files m)) (stdout m)).

Definition print_line (line : string) (m : machine) : exn + machine :=
  inr (Machine (dirs m) (files m) (stdout m ++ [line])).

Definition perform (c : syscall) (m : machine) : exn + machine :=
  match c with
  | Makedirs p => makedirs p m
  | Dump p obj indent => write_file p (Json.dumps obj indent) m
  | Print l => print_line l m
  end.

(** The calls are performed in order until one raises; the machine is then
    left as the calls before it made it. *)
Fixpoint exec (cs : list syscall) (m : machine) : exn * machine + machine :=
  match cs with
  | [] => inr m
  | c :: cs' =>
      match perform c m with
      | inr m' => exec cs' m'
      | inl e => inl (e, m)
      end
  end.

(** *** The interpreter

    No script reads anything back from the operating system, and none
    catches an exception: what a script computes depends on its own tables
    only.  The interpreter therefore runs on the module globals (the objects
    the tables are bound to) and on the sequence of calls issued so far. *)
Record state : Type := State { globals : pydict; calls : list syscall }.

Inductive result (A : Type) : Type :=
| Done (a : A) (st : state)
| Raised (e : exn) (st : state).
#[global] Arguments Done {A} a st.
#[global] Arguments Raised {A} e st.

Definition M (A : Type) : Type := state → result A.

Definition ret {A} (a : A) : M A := λ st, Done a st.

Definition bind {A B} (m : M A) (k : A → M B) : M B := λ st,
  match m st with
  | Done a st' => k a st'
  | Raised e st' => Raised e st'
  end.

#[export] Instance M_ret : MRet M := λ A, ret.
#[export] Instance M_bind : MBind M := λ A B k m, bind m k.

Definition raise {A} (e : exn) : M A := λ st, Raised e st.

Definition call (c : syscall) : M unit := λ st,
  Done () (State (globals st) (calls st ++ [c])).

(** Reading and binding a module global. *)
Definition load_global (name : string) : M pyval := λ st,
  match dict_get (globals st) name with
  | Some v => Done v st
  | None => Raised (NameError name) st
  end.

Definition store_global (name : string) (v : pyval) : M unit := λ st,
  Done () (State (dict_set (globals st) name v) (calls st)).

Fixpoint for_each {A} (l : list A) (body : A → M unit) : M unit :=
  match l with
  | [] => ret ()
  | x :: l' => body x ;; for_each l' body
  end.

(** *** Built-ins *)

Definition makedirs_ (path : string) : M unit := call (Makedirs path).
Definition dump_to (path : string) (obj : pyval) (indent : nat) : M unit :=
  call (Dump path obj indent).
Definition print (line : string) : M unit := call (Print line).

(** [o[k]] for a str key. *)
Definition getitem (o : pyval) (k : string) : M pyval :=
  match o with
  | PDict d =>
      match dict_get d k with
      | Some v => ret v
      | None => raise (KeyError k)
      end
  | _ => raise TypeError
  end.

(** A value used where a str is needed (a str method, a path). *)
Definition as_str (o : pyval) : M string :=
  match o with
  | PStr s => ret s
  | _ => raise TypeError
  end.

(** [{o}] in an f-string, for the scalars the scripts format. *)
Definition format (o : pyval) : M string :=
  match o with
  | PStr s => ret s
  | PInt n => ret (str_of_int n)
  | PFloat m e => ret (float_repr m e)
  | PBool true => ret "True"
  | PBool false => ret "False"
  | PNone => ret "None"
  | _ => raise TypeError
  end.

Definition len (o : pyval) : M Z :=
  match o with
  | PDict d => ret (Z.of_nat (length d))
  | PList l => ret (Z.of_nat (length l))
  | PStr s => ret (Z.of_nat (length (utf8_decode s)))
  | _ => raise TypeError
  end.

(** [for x in o] over a list. *)
Definition iter (o : pyval) : M (list pyval) :=
  match o with
  | PList l => ret l
  | _ => raise TypeError
  end.

(** [for k, v in o.items()] over a dict. *)
Definition items (o : pyval) : M pydict :=
  match o with
  | PDict d => ret d
  | _ => raise TypeError
  end.

(** Python passes objects by reference.  Where a function only reads its
    argument, the value read at the call stands for it; where it assigns
    into its argument, the argument is a reference [Ref table key] to the
    dict [globals[table][key]], so that the assignment is seen through the
    table. *)
Record ref : Type := Ref { ref_table : string; ref_key : string }.

Definition deref (r : ref) : M pyval :=
  table ← load_global (ref_table r);
  getitem table (ref_key r).

(** [k in r] *)
Definition contains (r : ref) (k : string) : M bool :=
  o ← deref r;
  match o with
  | PDict d => ret (dict_contains d k)
  | _ => raise TypeError
  end.

(** [r[k] = v] *)
Definition setitem (r : ref) (k : string) (v : pyval) : M unit :=
  table ← load_global (ref_table r);
  o ← getitem table (ref_key r);
  match table, o with
  | PDict t, PDict d =>
      store_global (ref_table r) (PDict (dict_set t (ref_key r) (PDict (dict_set d k v))))
  | _, _ => raise TypeError
  end.

(** *** Runs

    A run starts a fresh interpreter on the script and performs the calls it
    issues.  It finishes, leaving the final globals and machine, or crashes
    with the first exception raised: by a call, or by the interpreter once
    the calls issued before have been performed. *)
Inductive outcome : Type :=
| Finished (g : pydict) (m : machine)
| Crashed (e : exn) (m : machine).

Definition run (body : M unit) (m : machine) : outcome :=
  match body (State [] []) with
  | Done _ st =>
      match exec (calls st) m with
      | inr m' => Finished (globals st) m'
      | inl (e, m') => Crashed e m'
      end
  | Raised e st =>
      match exec (calls st) m with
      | inr m' => Crashed e m'
      | inl (e', m') => Crashed e' m'
      end
  end.

End Os.
Export Os.

(** ** scripts/generate_bosses_old.py *)

Module generate_bosses_old.

Definition OUTPUT_DIR : string :=
  "/workspaces/Under-Delta-Tale-Rune-Fight-Sim/data/enemies/bosses".

Definition BOSSES : pyval :=
  PDict [
    ("toriel", PDict [
      ("name", str "Toriel");
      ("hp", int 440);
      ("attack", int 6);
      ("defense", int 1);
      ("gold", int 0);
      ("exp", int 0);
      ("spareThreshold", int 0);
      ("dialogue", PList [
        str "* Toriel prepares a magical attack.";
        str "* Toriel is acting aloof.";
        str "* Toriel is looking through you.";
        str "* Smells like butterscotch pie."
      ]);
      ("checkText", str "ATK 6 DEF 1\n* Knows best for you.");
      ("sprites", PDict [
        ("idle", PList [
          str "Battle/Characters/Toriel/spr_toriel_talk_0.png"
        ])
      ]);
      ("acts", PList [
        PDict [("name", str "Check"); ("effect", str "check")];
        PDict [("name", str "Talk"); ("effect", str "talk"); ("text", str "* You talk to Toriel.\n* She doesn't want to listen."); ("mercyIncrease", int 10)];
        PDict [("name", str "Spare"); ("effect", str "spare"); ("text", str "* You spared Toriel."); ("mercyIncrease", int 5)]
      ]);
      ("attackPatterns", PList [
        PDict [
          ("name", str "Fire Magic");
          ("duration", int 5000);
          ("waves", PList [
            PDict [("time", int 0); ("type", str "projectiles"); ("count", int 8); ("speed", int 2); ("size", int 20); ("side", str "top")];
            PDict [("time", int 1000); ("type", str "projectiles"); ("count", int 8); ("speed", int 2); ("size", int 20); ("side", str "bottom")];
            PDict [("time", int 2000); ("type", str "projectiles"); ("count", int 8); ("speed", int 2); ("size", int 20); ("side", str "left")];
            PDict [("time", int 3000); ("type", str "projectiles"); ("count", int 8); ("speed", int 2); ("size", int 20); ("side", str "right")]
          ])
        ]
      ])
    ]);
    ("papyrus", PDict [
      ("name", str "Papyrus");
      ("hp", int 680);
      ("attack", int 8);
      ("defense", int 2);
      ("gold", int 0);
      ("exp", int 0);
      ("spareThreshold", int 0);
      ("dialogue", PList [
        str "* Papyrus is preparing a\n  non-bone attack.";
        str "* Papyrus is rattling his bones.";
        str "* Papyrus is cooking.";
        str "* Smells like bones."
      ]);
      ("checkText", str "ATK 8 DEF 2\n* Likes to say 'Nyeh Heh Heh!'");
      ("sprites", PDict [
        ("idle", PList [str "Battle/Characters/Papyrus/spr_papyrus_0.png"])
      ]);
      ("acts", PList [
        PDict [("name", str "Check"); ("effect", str "check")];
        PDict [("name", str "Compliment"); ("effect", str "compliment"); ("text", str "* You tell Papyrus he's cool.\n* NYEH HEH HEH!!!"); ("mercyIncrease", int 20)];
        PDict [("name", str "Flirt"); ("effect", str "flirt"); ("text", str "* You flirt with Papyrus.\n* His attack dropped!"); ("mercyIncrease", int 30)]
      ]);
      ("attackPatterns", PList [
        PDict [
          ("name", str "Bone Attack");
          ("duration", int 4500);
          ("waves", PList [
            PDict [("time", int 0); ("type", str "bones"); ("count", int 3); ("speed", int 3); ("orientation", str "horizontal")];
            PDict [("time", int 1000); ("type", str "bones"); ("count", int 3); ("speed", int 3); ("orientation", str "vertical")];
            PDict [("time", int 2000); ("type", str "bones"); ("count", int 4); ("speed", float 3.5); ("orientation", str "horizontal")];
            PDict [("time", int 3000); ("type", str "bones"); ("count", int 4); ("speed", float 3.5); ("orientation", str "vertical")]
          ])
        ]
      ])
    ]);
    ("undyne", PDict [
      ("name", str "Undyne");
      ("hp", int 1500);
      ("attack", int 10);
      ("defense", int 0);
      ("gold", int 0);
      ("exp", int 0);
      ("spareThreshold", int 0);
      ("dialogue", PList [
        str "* Undyne attacks!";
        str "* Undyne is smiling.";
        str "* Undyne points heroically\n  at you.";
        str "* Smells like anime."
      ]);
      ("checkText", str "ATK 10 DEF 0\n* The heroine that NEVER gives up.");
      ("sprites", PDict [
        ("idle", PList [str "Battle/Characters/Undyne/spr_undynebattle_0.png"])
      ]);
      ("acts", PList [
        PDict [("name", str "Check"); ("effect", str "check")];
        PDict [("name", str "Challenge"); ("effect", str "challenge"); ("text", str "* You tell Undyne you'll fight her."); ("mercyIncrease", int 0)];
        PDict [("name", str "Plead"); ("effect", str "plead"); ("text", str "* You plead with Undyne."); ("mercyIncrease", int 10)]
      ]);
      ("attackPatterns", PList [
        PDict [
          ("name", str "Spear Rain");
          ("duration", int 5000);
          ("waves", PList [
            PDict [("time", int 0); ("type", str "projectiles"); ("count", int 10); ("speed", int 3); ("size", int 15); ("side", str "top")];
            PDict [("time", int 1500); ("type", str "projectiles"); ("count", int 10); ("speed", int 3); ("size", int 15); ("side", str "top")];
            PDict [("time", int 3000); ("type", str "projectiles"); ("count", int 12); ("speed", float 3.5); ("size", int 15); ("side", str "top")]
          ])
        ]
      ])
    ]);
    ("mettaton", PDict [
      ("name", str "Mettaton EX");
      ("hp", int 1000);
      ("attack", int 10);
      ("defense", int 255);
      ("gold", int 0);
      ("exp", int 0);
      ("spareThreshold", int 0);
      ("dialogue", PList [
        str "* Mettaton poses dramatically!";
        str "* Mettaton is checking his\n  ratings.";
        str "* Mettaton adjusts his hair.";
        str "* Smells like a television studio."
      ]);
      ("checkText", str "ATK 10 DEF 255\n* Lights! Camera! Action!");
      ("sprites", PDict [
        ("idle", PList [str "Battle/Characters/Mettaton EX/spr_mettatonbattle_pose_0.png"])
      ]);
      ("acts", PList [
        PDict [("name", str "Check"); ("effect", str "check")];
        PDict [("name", str "Pose"); ("effect", str "pose"); ("text", str "* You strike a pose!\n* The ratings went up!"); ("mercyIncrease", int 20)];
        PDict [("name", str "Boast"); ("effect", str "boast"); ("text", str "* You boast about your abilities!\n* The ratings went up!"); ("mercyIncrease", int 20)];
        PDict [("name", str "Yellow"); ("effect", str "yellow"); ("text", str "* You turn the switch to yellow!"); ("mercyIncrease", int 100)]
      ]);
      ("attackPatterns", PList [
        PDict [
          ("name", str "Leg Attack");
          ("duration", int 5000);
          ("waves", PList [
            PDict [("time", int 0); ("type", str "projectiles"); ("count", int 8); ("speed", int 3); ("size", int 20); ("side", str "left")];
            PDict [("time", int 2000); ("type", str "projectiles"); ("count", int 8); ("speed", int 3); ("size", int 20); ("side", str "right")]
          ])
        ]
      ])
    ]);
    ("asgore", PDict [
      ("name", str "Asgore");
      ("hp", int 3500);
      ("attack", int 10);
      ("defense", int 1);
      ("gold", int 0);
      ("exp", int 0);
      ("spareThreshold", int 0);
      ("dialogue", PList [
        str "* Asgore prepares a magic attack.";
        str "* Asgore is filled with regret.";
        str "* Asgore gazes at you.";
        str "* Smells like golden flowers."
      ]);
      ("checkText", str "ATK 10 DEF 1\n* The king of the monsters.");
      ("sprites", PDict [
        ("idle", PList [str "Battle/Characters/Asgore/Head/spr_asgore_head_0.png"])
      ]);
      ("acts", PList [
        PDict [("name", str "Check"); ("effect", str "check")];
        PDict [("name", str "Talk"); ("effect", str "talk"); ("text", str "* You talk to Asgore.\n* He looks away."); ("mercyIncrease", int 0)];
        PDict [("name", str "Mercy"); ("effect", str "mercy"); ("text", str "* You beg for mercy."); ("mercyIncrease", int 0)]
      ]);
      ("attackPatterns", PList [
        PDict [
          ("name", str "Trident Swipe");
          ("duration", int 6000);
          ("waves", PList [
            PDict [("time", int 0); ("type", str "projectiles"); ("count", int 12); ("speed", int 3); ("size", int 25); ("side", str "top")];
            PDict [("time", int 2000); ("type", str "projectiles"); ("count", int 12); ("speed", int 3); ("size", int 25); ("side", str "bottom")];
            PDict [("time", int 4000); ("type", str "projectiles"); ("count", int 15); ("speed", float 3.5); ("size", int 25); ("side", str "top")]
          ])
        ]
      ])
    ]);
    ("sans", PDict [
      ("name", str "Sans");
      ("hp", int 1);
      ("attack", int 1);
      ("defense", int 1);
      ("gold", int 0);
      ("exp", int 0);
      ("spareThreshold", int 0);
      ("dialogue", PList [
        str "* sans is judging your sins.";
        str "* sans is winking.";
        str "* ...  ";
        str "* Smells like  bad times."
      ]);
      ("checkText", str "ATK 1 DEF 1\n* The easiest enemy.\n* Can only deal 1 damage.");
      ("sprites", PDict [
        ("idle", PList [str "Battle/Characters/Sans/spr_sansbattle_0.png"])
      ]);
      ("acts", PList [
        PDict [("name", str "Check"); ("effect", str "check")];
        PDict [("name", str "Spare"); ("effect", str "spare"); ("text", str "* Sans spares you..."); ("mercyIncrease", int 0)]
      ]);
      ("attackPatterns", PList [
        PDict [
          ("name", str "Gaster Blaster");
          ("duration", int 5000);
          ("waves", PList [
            PDict [("time", int 0); ("type", str "bones"); ("count", int 5); ("speed", int 4); ("orientation", str "horizontal")];
            PDict [("time", int 1000); ("type", str "bones"); ("count", int 5); ("speed", int 4); ("orientation", str "vertical")];
            PDict [("time", int 2000); ("type", str "bones"); ("count", int 6); ("speed", int 5); ("orientation", str "horizontal")];
            PDict [("time", int 3000); ("type", str "bones"); ("count", int 6); ("speed", int 5); ("orientation", str "vertical")]
          ])
        ]
      ])
    ]);
    ("flowey", PDict [
      ("name", str "Flowey");
      ("hp", int 1000);
      ("attack", int 8);
      ("defense", int 10);
      ("gold", int 0);
      ("exp", int 0);
      ("spareThreshold", int 0);
      ("dialogue", PList [
        str "* Flowey laughs maniacally.";
        str "* Flowey is thinking about\n  killing everyone.";
        str "* Flowey winks at you.";
        str "* Smells like flowers."
      ]);
      ("checkText", str "ATK 8 DEF 10\n* Truly evil.");
      ("sprites", PDict [
        ("idle", PList [str "Battle/Characters/Flowey/General/spr_floweyboss_scared.png"])
      ]);
      ("acts", PList [
        PDict [("name", str "Check"); ("effect", str "check")];
        PDict [("name", str "Struggle"); ("effect", str "struggle"); ("text", str "* You struggle..."); ("mercyIncrease", int 0)]
      ]);
      ("attackPatterns", PList [
        PDict [
          ("name", str "Friendliness Pellets");
          ("duration", int 4500);
          ("waves", PList [
            PDict [("time", int 0); ("type", str "circle"); ("startRadius", int 10); ("endRadius", int 100); ("duration", int 80)];
            PDict [("time", int 1500); ("type", str "circle"); ("startRadius", int 10); ("endRadius", int 100); ("duration", int 80)];
            PDict [("time", int 3000); ("type", str "circle"); ("startRadius", int 10); ("endRadius", int 100); ("duration", int 80)]
          ])
        ]
      ])
    ]);
    ("asriel", PDict [
      ("name", str "Asriel Dreemurr");
      ("hp", int 9999);
      ("attack", int 10);
      ("defense", int 9999);
      ("gold", int 0);
      ("exp", int 0);
      ("spareThreshold", int 0);
      ("dialogue", PList [
        str "* Asriel prepares to use his\n  full power.";
        str "* Asriel is smiling.";
        str "* Asriel readies CHAOS SABER.";
        str "* Smells like... hopes and dreams."
      ]);
      ("checkText", str "ATK ∞ DEF ∞\n* The absolute GOD of Hyperdeath!");
      ("sprites", PDict [
        ("idle", PList [str "Battle/Characters/Asriel Dreemurr/God of Hyperdeath/spr_godhyperdeath_form_0.png"])
      ]);
      ("acts", PList [
        PDict [("name", str "Check"); ("effect", str "check")];
        PDict [("name", str "Dream"); ("effect", str "dream"); ("text", str "* You think of your dreams."); ("mercyIncrease", int 10)];
        PDict [("name", str "Hope"); ("effect", str "hope"); ("text", str "* You think of hope."); ("mercyIncrease", int 10)];
        PDict [("name", str "Save"); ("effect", str "save"); ("text", str "* You saved Asriel."); ("mercyIncrease", int 50)]
      ]);
      ("attackPatterns", PList [
        PDict [
          ("name", str "Chaos Saber");
          ("duration", int 6000);
          ("waves", PList [
            PDict [("time", int 0); ("type", str "projectiles"); ("count", int 15); ("speed", int 4); ("size", int 30); ("side", str "top")];
            PDict [("time", int 1500); ("type", str "projectiles"); ("count", int 15); ("speed", int 4); ("size", int 30); ("side", str "bottom")];
            PDict [("time", int 3000); ("type", str "projectiles"); ("count", int 15); ("speed", int 4); ("size", int 30); ("side", str "left")];
            PDict [("time", int 4500); ("type", str "projectiles"); ("count", int 15); ("speed", int 4); ("size", int 30); ("side", str "right")]
          ])
        ]
      ])
    ])
  ].

Definition create_boss_json (boss_id : string) (boss_data : pyval) : M unit :=
  let filename := join OUTPUT_DIR (boss_id +:+ ".json") in
  dump_to filename boss_data 4 ;;
  print ("Created " +:+ filename).

Definition main : M unit :=
  table ← load_global "BOSSES";
  n ← len table;
  print ("Generating " +:+ str_of_int n +:+ " boss files...") ;;
  table ← load_global "BOSSES";
  entries ← items table;
  for_each entries (λ '(boss_id, boss_data), create_boss_json boss_id boss_data) ;;
  table ← load_global "BOSSES";
  n ← len table;
  print (lit "\nComplete! Generated " +:+ str_of_int n +:+ " boss files in " +:+ OUTPUT_DIR).

(** The module run as a script: its top-level statements, then [main()]. *)
Definition script : M unit :=
  makedirs_ OUTPUT_DIR ;;
  store_global "BOSSES" BOSSES ;;
  main.
End generate_bosses_old.

(** ** scripts/generate_deltarune_bosses.py *)

Module generate_deltarune_bosses.

Definition bosses : pyval :=
  PList [
    PDict [
      ("name", str "Jevil");
      ("chapter", str "Ch1");
      ("folder", str "Jevil/Body");
      ("hp", int 3500);
      ("attack", int 12);
      ("defense", int 10);
      ("dialogue", PList [
        str "* CHAOS, CHAOS!";
        str "* I CAN DO ANYTHING!";
        str "* Jevil laughs maniacally.";
        str "* Smells like chaos."
      ]);
      ("checkText", str "ATK 12 DEF 10\\n* The Joker Card. Can do anything.");
      ("acts", PList [
        PDict [("name", str "Check"); ("effect", str "check")];
        PDict [("name", str "Pirouette"); ("effect", str "pirouette"); ("text", str "* You pirouette. Jevil is amused!"); ("mercyIncrease", int 10)];
        PDict [("name", str "Hypnosis"); ("effect", str "hypnosis"); ("text", str "* You hypnotize Jevil..."); ("mercyIncrease", int 15)]
      ]);
      ("attackPatterns", PList [
        PDict [
          ("name", str "Chaos Carousel");
          ("duration", int 6000);
          ("waves", PList [
            PDict [("time", int 0); ("type", str "carousel"); ("count", int 8); ("speed", int 3); ("pattern", str "circular")];
            PDict [("time", int 2000); ("type", str "carousel"); ("count", int 12); ("speed", float 3.5); ("pattern", str "spiral")];
            PDict [("time", int 4000); ("type", str "devilsknife"); ("count", int 4); ("speed", int 4)]
          ])
        ]
      ])
    ];
    PDict [
      ("name", str "King");
      ("chapter", str "Ch1");
      ("folder", str "King/Ch1");
      ("hp", int 4000);
      ("attack", int 13);
      ("defense", int 8);
      ("dialogue", PList [
        str "* The King of Spades attacks!";
        str "* King laughs wickedly.";
        str "* King readies his weapon.";
        str "* Smells like tyranny."
      ]);
      ("checkText", str "ATK 13 DEF 8\\n* The King of the Card Kingdom.");
      ("acts", PList [
        PDict [("name", str "Check"); ("effect", str "check")];
        PDict [("name", str "Pacify"); ("effect", str "pacify"); ("text", str "* You try to calm King down..."); ("mercyIncrease", int 0)]
      ]);
      ("attackPatterns", PList [
        PDict [
          ("name", str "Spade Attack");
          ("duration", int 5500);
          ("waves", PList [
            PDict [("time", int 0); ("type", str "spades"); ("count", int 8); ("speed", int 3); ("side", str "top")];
            PDict [("time", int 1500); ("type", str "spades"); ("count", int 10); ("speed", float 3.5); ("side", str "all")];
            PDict [("time", int 3500); ("type", str "spades"); ("count", int 15); ("speed", int 4); ("side", str "all")]
          ])
        ]
      ])
    ];
    PDict [
      ("name", str "Spamton NEO");
      ("chapter", str "Ch2");
      ("folder", str "Spamton NEO/Parts");
      ("hp", int 5000);
      ("attack", int 14);
      ("defense", int 10);
      ("dialogue", PList [
        str "* NOW'S YOUR CHANCE TO BE A [Big Shot]!";
        str "* SPAMTON NEO attacks!";
        str "* You hear ringing phones.";
        str "* Smells like hyperlink blocked."
      ]);
      ("checkText", str "ATK 14 DEF 10\\n* NOW'S YOUR CHANCE TO BE A [Big Shot]");
      ("acts", PList [
        PDict [("name", str "Check"); ("effect", str "check")];
        PDict [("name", str "[Call]"); ("effect", str "call"); ("text", str "* You try to call someone..."); ("mercyIncrease", int 5)];
        PDict [("name", str "[Cut Cable]"); ("effect", str "cut"); ("text", str "* You cut a cable."); ("mercyIncrease", int 20)]
      ]);
      ("attackPatterns", PList [
        PDict [
          ("name", str "Pipis Attack");
          ("duration", int 6000);
          ("waves", PList [
            PDict [("time", int 0); ("type", str "pipis"); ("count", int 5); ("speed", float 2.5)];
            PDict [("time", int 2000); ("type", str "big_shot"); ("count", int 3); ("speed", int 4)];
            PDict [("time", int 4000); ("type", str "pipis"); ("count", int 8); ("speed", int 3)]
          ])
        ]
      ])
    ];
    PDict [
      ("name", str "Queen");
      ("chapter", str "Ch2");
      ("folder", str "Queen/Portraits");
      ("hp", int 4500);
      ("attack", int 13);
      ("defense", int 9);
      ("dialogue", PList [
        str "* Queen Attacks Lmao";
        str "* Queen adjusts her glass.";
        str "* Queen is typing.";
        str "* Smells like battery acid."
      ]);
      ("checkText", str "ATK 13 DEF 9\\n* The Queen of the Cyber World.");
      ("acts", PList [
        PDict [("name", str "Check"); ("effect", str "check")];
        PDict [("name", str "Compliment"); ("effect", str "compliment"); ("text", str "* You compliment Queen's management style."); ("mercyIncrease", int 15)]
      ]);
      ("attackPatterns", PList [
        PDict [
          ("name", str "Acid Attack");
          ("duration", int 5500);
          ("waves", PList [
            PDict [("time", int 0); ("type", str "acid"); ("count", int 6); ("speed", int 3); ("side", str "top")];
            PDict [("time", int 2000); ("type", str "acid"); ("count", int 8); ("speed", float 3.5); ("side", str "all")];
            PDict [("time", int 4000); ("type", str "acid"); ("count", int 10); ("speed", int 4); ("side", str "all")]
          ])
        ]
      ])
    ];
    PDict [
      ("name", str "Tasque Manager");
      ("chapter", str "Ch2");
      ("folder", str "Tasque Manager/Ch2");
      ("hp", int 3800);
      ("attack", int 12);
      ("defense", int 8);
      ("dialogue", PList [
        str "* Tasque Manager cracks her whip!";
        str "* Tasque Manager gives orders.";
        str "* Everything is orderly.";
        str "* Smells like order."
      ]);
      ("checkText", str "ATK 12 DEF 8\\n* Manages all the Tasques.");
      ("acts", PList [
        PDict [("name", str "Check"); ("effect", str "check")];
        PDict [("name", str "Pet"); ("effect", str "pet"); ("text", str "* You try to pet Tasque Manager..."); ("mercyIncrease", int 10)];
        PDict [("name", str "Compliment"); ("effect", str "compliment"); ("text", str "* You compliment her management."); ("mercyIncrease", int 20)]
      ]);
      ("attackPatterns", PList [
        PDict [
          ("name", str "Tasque Swarm");
          ("duration", int 5000);
          ("waves", PList [
            PDict [("time", int 0); ("type", str "tasques"); ("count", int 4); ("speed", int 3)];
            PDict [("time", int 1500); ("type", str "whip"); ("count", int 6); ("speed", int 4)];
            PDict [("time", int 3000); ("type", str "tasques"); ("count", int 6); ("speed", float 3.5)]
          ])
        ]
      ])
    ];
    PDict [
      ("name", str "Sweet Cap'n Cakes");
      ("chapter", str "Ch2");
      ("folder", str "Sweet Cap_n Cakes/Sweet");
      ("hp", int 3600);
      ("attack", int 11);
      ("defense", int 7);
      ("dialogue", PList [
        str "* Sweet, Cap'n, and K_K attack in harmony!";
        str "* They're making music.";
        str "* The beat drops.";
        str "* Smells like batteries and sugar."
      ]);
      ("checkText", str "ATK 11 DEF 7\\n* Three musical entrepreneurs.");
      ("acts", PList [
        PDict [("name", str "Check"); ("effect", str "check")];
        PDict [("name", str "Dance"); ("effect", str "dance"); ("text", str "* You dance to the music!"); ("mercyIncrease", int 30)];
        PDict [("name", str "Applaud"); ("effect", str "applaud"); ("text", str "* You applaud their performance."); ("mercyIncrease", int 25)]
      ]);
      ("attackPatterns", PList [
        PDict [
          ("name", str "Musical Notes");
          ("duration", int 5500);
          ("waves", PList [
            PDict [("time", int 0); ("type", str "notes"); ("count", int 8); ("speed", int 3); ("pattern", str "musical")];
            PDict [("time", int 2000); ("type", str "notes"); ("count", int 12); ("speed", float 3.5); ("pattern", str "musical")];
            PDict [("time", int 4000); ("type", str "notes"); ("count", int 10); ("speed", int 4); ("pattern", str "musical")]
          ])
        ]
      ])
    ]
  ].

Definition generate_boss_json (boss : pyval) (output_dir : string) : M unit :=
  name ← getitem boss "name";
  name ← as_str name;
  let name_clean := replace "-" "_" (replace "'" "" (replace " " "_" (lower name))) in
  let filename := name_clean +:+ ".json" in
  let filepath := join output_dir filename in
  chapter ← getitem boss "chapter";
  chapter ← format chapter;
  folder ← getitem boss "folder";
  folder ← format folder;
  let sprite_base :=
    "Deltarune Sprites/Characters/Bosses/" +:+ chapter +:+ "/" +:+ folder +:+ "/" in
  name ← getitem boss "name";
  hp ← getitem boss "hp";
  attack ← getitem boss "attack";
  defense ← getitem boss "defense";
  dialogue ← getitem boss "dialogue";
  checkText ← getitem boss "checkText";
  acts ← getitem boss "acts";
  attackPatterns ← getitem boss "attackPatterns";
  let data := PDict [
    ("name", name);
    ("hp", hp);
    ("attack", attack);
    ("defense", defense);
    ("gold", int 0);
    ("exp", int 0);
    ("spareThreshold", int 0);
    ("dialogue", dialogue);
    ("checkText", checkText);
    ("sprites", PDict [
      ("idle", PStr (sprite_base +:+ "idle_0.png"))
    ]);
    ("acts", acts);
    ("attackPatterns", attackPatterns)
  ] in
  dump_to filepath data 4 ;;
  print ("Generated: " +:+ filepath).

Definition main : M unit :=
  let output_dir := "data/enemies/deltarune/bosses" in
  makedirs_ output_dir ;;
  print "Generating Deltarune bosses..." ;;
  table ← load_global "bosses";
  entries ← iter table;
  for_each entries (λ boss, generate_boss_json boss output_dir) ;;
  table ← load_global "bosses";
  n ← len table;
  print (lit "\nGenerated " +:+ str_of_int n +:+ " Deltarune bosses!").

Definition script : M unit :=
  store_global "bosses" bosses ;;
  main.
End generate_deltarune_bosses.

(** ** scripts/generate_deltarune_enemies.py *)

Module generate_deltarune_enemies.

Definition ch1_enemies : pyval :=
  PList [
    PDict [
      ("name", str "Rudinn");
      ("hp", int 200);
      ("attack", int 6);
      ("defense", int 0);
      ("folder", str "Rudinn + Rudinn Ranger");
      ("dialogue", PList [str "* Rudinn blocks the way!"; str "* Rudinn is posing dramatically."; str "* Smells like bubblegum."]);
      ("acts", PList [
        PDict [("name", str "Check"); ("effect", str "check")];
        PDict [("name", str "Compliment"); ("effect", str "compliment"); ("text", str "* You compliment Rudinn."); ("mercyIncrease", int 20)]
      ])
    ];
    PDict [
      ("name", str "Hathy");
      ("hp", int 180);
      ("attack", int 5);
      ("defense", int 0);
      ("folder", str "Hathy + Head Hathy");
      ("dialogue", PList [str "* Hathy blocks the way!"; str "* Hathy adjusts its crown."; str "* Smells like royalty."]);
      ("acts", PList [
        PDict [("name", str "Check"); ("effect", str "check")];
        PDict [("name", str "Bow"); ("effect", str "bow"); ("text", str "* You bow to Hathy."); ("mercyIncrease", int 30)]
      ])
    ];
    PDict [
      ("name", str "Jigsawry");
      ("hp", int 220);
      ("attack", int 7);
      ("defense", int 1);
      ("folder", str "Jigsawry");
      ("dialogue", PList [str "* Jigsawry attacks!"; str "* Jigsawry is fitting together."; str "* Smells like cardboard."]);
      ("acts", PList [
        PDict [("name", str "Check"); ("effect", str "check")];
        PDict [("name", str "Compliment"); ("effect", str "compliment"); ("text", str "* You compliment Jigsawry's puzzle."); ("mercyIncrease", int 25)]
      ])
    ];
    PDict [
      ("name", str "Ponman");
      ("hp", int 240);
      ("attack", int 8);
      ("defense", int 2);
      ("folder", str "Ponman");
      ("dialogue", PList [str "* Ponman trots forward!"; str "* Ponman neighs proudly."; str "* Smells like hay."]);
      ("acts", PList [
        PDict [("name", str "Check"); ("effect", str "check")];
        PDict [("name", str "Pet"); ("effect", str "pet"); ("text", str "* You pet Ponman."); ("mercyIncrease", int 30)]
      ])
    ];
    PDict [
      ("name", str "Bloxer");
      ("hp", int 280);
      ("attack", int 9);
      ("defense", int 2);
      ("folder", str "Bloxer");
      ("dialogue", PList [str "* Bloxer blocks your path!"; str "* Bloxer is training."; str "* Smells like a gym."]);
      ("acts", PList [
        PDict [("name", str "Check"); ("effect", str "check")];
        PDict [("name", str "Spar"); ("effect", str "spar"); ("text", str "* You spar with Bloxer."); ("mercyIncrease", int 30)]
      ])
    ];
    PDict [
      ("name", str "Starwalker");
      ("hp", int 300);
      ("attack", int 10);
      ("defense", int 3);
      ("folder", str "Starwalker");
      ("dialogue", PList [str "* These birds are pissing me off..."; str "* I'm the original                  Starwalker."; str "* Smells like stardust."]);
      ("acts", PList [
        PDict [("name", str "Check"); ("effect", str "check")];
        PDict [("name", str "Original"); ("effect", str "original"); ("text", str "* You acknowledge the original        Starwalker."); ("mercyIncrease", int 50)]
      ])
    ]
  ].

Definition ch2_enemies : pyval :=
  PList [
    PDict [
      ("name", str "Virovirokun");
      ("hp", int 250);
      ("attack", int 8);
      ("defense", int 1);
      ("folder", str "Virovirokun");
      ("dialogue", PList [str "* Virovirokun is loading..."; str "* Virovirokun downloaded something."; str "* Smells like malware."]);
      ("acts", PList [
        PDict [("name", str "Check"); ("effect", str "check")];
        PDict [("name", str "Clean"); ("effect", str "clean"); ("text", str "* You clean Virovirokun."); ("mercyIncrease", int 30)]
      ])
    ];
    PDict [
      ("name", str "Ambyu-Lance");
      ("hp", int 270);
      ("attack", int 9);
      ("defense", int 2);
      ("folder", str "Ambyu Lance");
      ("dialogue", PList [str "* Ambyu-Lance speeds forward!"; str "* Ambyu-Lance sirens loudly."; str "* Smells like antiseptic."]);
      ("acts", PList [
        PDict [("name", str "Check"); ("effect", str "check")];
        PDict [("name", str "Call"); ("effect", str "call"); ("text", str "* You call for help. Ambyu-Lance is pleased."); ("mercyIncrease", int 40)]
      ])
    ];
    PDict [
      ("name", str "Werewire");
      ("hp", int 300);
      ("attack", int 10);
      ("defense", int 2);
      ("folder", str "Werewire");
      ("dialogue", PList [str "* Werewire prowls closer!"; str "* Werewire howls at the moon."; str "* Smells like copper."]);
      ("acts", PList [
        PDict [("name", str "Check"); ("effect", str "check")];
        PDict [("name", str "Pet"); ("effect", str "pet"); ("text", str "* You pet Werewire."); ("mercyIncrease", int 30)]
      ])
    ];
    PDict [
      ("name", str "Tasque");
      ("hp", int 230);
      ("attack", int 8);
      ("defense", int 1);
      ("folder", str "Tasque");
      ("dialogue", PList [str "* Tasque obeys orders!"; str "* Tasque meows electronically."; str "* Smells like cat food."]);
      ("acts", PList [
        PDict [("name", str "Check"); ("effect", str "check")];
        PDict [("name", str "Pet"); ("effect", str "pet"); ("text", str "* You pet Tasque. It purrs."); ("mercyIncrease", int 35)]
      ])
    ];
    PDict [
      ("name", str "Maus");
      ("hp", int 200);
      ("attack", int 7);
      ("defense", int 0);
      ("folder", str "Maus");
      ("dialogue", PList [str "* Maus clicks around!"; str "* Maus is squeaking."; str "* Smells like circuits."]);
      ("acts", PList [
        PDict [("name", str "Check"); ("effect", str "check")];
        PDict [("name", str "Click"); ("effect", str "click"); ("text", str "* You click on Maus."); ("mercyIncrease", int 25)]
      ])
    ];
    PDict [
      ("name", str "Swatchling");
      ("hp", int 350);
      ("attack", int 11);
      ("defense", int 3);
      ("folder", str "Swatchling");
      ("dialogue", PList [str "* Swatchling appears!"; str "* Swatchling adjusts their palette."; str "* Smells like paint."]);
      ("acts", PList [
        PDict [("name", str "Check"); ("effect", str "check")];
        PDict [("name", str "Compliment"); ("effect", str "compliment"); ("text", str "* You compliment Swatchling's colors."); ("mercyIncrease", int 40)]
      ])
    ]
  ].

Definition generate_enemy_json (enemy : pyval) (chapter : string) (output_dir : string)
  : M unit :=
  name ← getitem enemy "name";
  name ← as_str name;
  let filename := replace "-" "_" (replace " " "_" (lower name)) +:+ ".json" in
  let filepath := join output_dir filename in
  folder ← getitem enemy "folder";
  folder ← format folder;
  let sprite_base :=
    if String.eqb chapter "ch1"
    then "Deltarune Sprites/Characters/Enemies/Ch1/" +:+ folder +:+ "/"
    else "Deltarune Sprites/Characters/Enemies/Ch2/" +:+ folder +:+ "/" in
  name ← getitem enemy "name";
  hp ← getitem enemy "hp";
  attack ← getitem enemy "attack";
  defense ← getitem enemy "defense";
  dialogue ← getitem enemy "dialogue";
  atk ← getitem enemy "attack";
  atk ← format atk;
  def ← getitem enemy "defense";
  def ← format def;
  acts ← getitem enemy "acts";
  let data := PDict [
    ("name", name);
    ("hp", hp);
    ("attack", attack);
    ("defense", defense);
    ("gold", int 10);
    ("exp", int 15);
    ("spareThreshold", int 100);
    ("dialogue", dialogue);
    ("checkText", PStr ("ATK " +:+ atk +:+ " DEF " +:+ def
                        +:+ lit "\\n* A Darkner from " +:+ upper chapter +:+ "."));
    ("sprites", PDict [
      ("idle", PStr (sprite_base +:+ "idle_0.png"))
    ]);
    ("acts", acts);
    ("attackPatterns", PList [
      PDict [
        ("name", str "Default Attack");
        ("duration", int 4000);
        ("waves", PList [
          PDict [
            ("time", int 0);
            ("type", str "projectiles");
            ("count", int 5);
            ("speed", float 2.5);
            ("size", int 15);
            ("side", str "top")
          ];
          PDict [
            ("time", int 1500);
            ("type", str "projectiles");
            ("count", int 4);
            ("speed", int 3);
            ("size", int 15);
            ("side", str "left")
          ]
        ])
      ]
    ])
  ] in
  dump_to filepath data 4 ;;
  print ("Generated: " +:+ filepath).

Definition main : M unit :=
  let output_dir := "data/enemies/deltarune" in
  makedirs_ output_dir ;;
  print "Generating Deltarune enemies..." ;;
  table ← load_global "ch1_enemies";
  entries ← iter table;
  for_each entries (λ enemy, generate_enemy_json enemy "ch1" output_dir) ;;
  table ← load_global "ch2_enemies";
  entries ← iter table;
  for_each entries (λ enemy, generate_enemy_json enemy "ch2" output_dir) ;;
  table1 ← load_global "ch1_enemies";
  n1 ← len table1;
  table2 ← load_global "ch2_enemies";
  n2 ← len table2;
  print (lit "\nGenerated " +:+ str_of_int (n1 + n2) +:+ " Deltarune enemies!").

Definition script : M unit :=
  store_global "ch1_enemies" ch1_enemies ;;
  store_global "ch2_enemies" ch2_enemies ;;
  main.
End generate_deltarune_enemies.

(** ** scripts/generate_enemies.py *)

Module generate_enemies.

Definition OUTPUT_DIR : string :=
  "/workspaces/Under-Delta-Tale-Rune-Fight-Sim/data/enemies".

Definition ENEMIES : pyval :=
  PDict [
    ("froggit", PDict [
      ("name", str "Froggit");
      ("hp", int 30);
      ("attack", int 5);
      ("defense", int 0);
      ("gold", int 2);
      ("exp", int 3);
      ("spareThreshold", int 0);
      ("dialogue", PList [
        str "* Froggit hops closer.";
        str "* Froggit makes a frog noise.";
        str "* The battlefield is filled with\n  the smell of mustard seed.";
        str "* Froggit doesn't seem to know\n  why it's here."
      ]);
      ("checkText", str "ATK 4 DEF 1\n* Life is difficult for this enemy.");
      ("sprites", PDict [
        ("idle", PList [
          str "Battle/Enemies/01 - Ruins/Froggit/spr_froggit_0.png";
          str "Battle/Enemies/01 - Ruins/Froggit/spr_froggit_1.png";
          str "Battle/Enemies/01 - Ruins/Froggit/spr_froggit_2.png";
          str "Battle/Enemies/01 - Ruins/Froggit/spr_froggit_3.png"
        ])
      ]);
      ("acts", PList [
        PDict [("name", str "Check"); ("effect", str "check")];
        PDict [("name", str "Compliment"); ("effect", str "compliment"); ("text", str "* You compliment Froggit.\n* It doesn't seem to understand..."); ("mercyIncrease", int 30)];
        PDict [("name", str "Threaten"); ("effect", str "threaten"); ("text", str "* You threaten Froggit.\n* It starts to hop away."); ("mercyIncrease", int 10)]
      ])
    ]);
    ("whimsun", PDict [
      ("name", str "Whimsun");
      ("hp", int 10);
      ("attack", int 5);
      ("defense", int 0);
      ("gold", int 2);
      ("exp", int 2);
      ("spareThreshold", int 0);
      ("dialogue", PList [
        str "* Whimsun approached meekly!";
        str "* Whimsun continues to mutter\n  apologies.";
        str "* Whimsun is hyperventilating.";
        str "* Whimsun is thinking about\n  its friend."
      ]);
      ("checkText", str "ATK 5 DEF 0\n* This monster is too sensitive\n  to fight...");
      ("sprites", PDict [
        ("idle", PList [str "Battle/Enemies/01 - Ruins/Whimsun/spr_whimsun_0.png"])
      ]);
      ("acts", PList [
        PDict [("name", str "Check"); ("effect", str "check")];
        PDict [("name", str "Console"); ("effect", str "console"); ("text", str "* You console Whimsun.\n* Its eyes glimmer with tears..."); ("mercyIncrease", int 100)];
        PDict [("name", str "Terrorize"); ("effect", str "terrorize"); ("text", str "* You wiggle your arms at Whimsun.\n* Whimsun freaks out!"); ("mercyIncrease", int 100)]
      ])
    ]);
    ("moldsmal", PDict [
      ("name", str "Moldsmal");
      ("hp", int 50);
      ("attack", int 6);
      ("defense", int 0);
      ("gold", int 3);
      ("exp", int 3);
      ("spareThreshold", int 0);
      ("dialogue", PList [
        str "* Moldsmal wavers around.";
        str "* Moldsmal burbles quietly.";
        str "* Moldsmal is pondering something.";
        str "* Smells like sweet lemons."
      ]);
      ("checkText", str "ATK 6 DEF 0\n* Stereotypical: Curvaceously\n  attractive, but no brains...");
      ("sprites", PDict [
        ("idle", PList [
          str "Battle/Enemies/01 - Ruins/Moldsmal/spr_moldsmal_0.png";
          str "Battle/Enemies/01 - Ruins/Moldsmal/spr_moldsmal_1.png"
        ])
      ]);
      ("acts", PList [
        PDict [("name", str "Check"); ("effect", str "check")];
        PDict [("name", str "Imitate"); ("effect", str "imitate"); ("text", str "* You lie on the ground and wiggle.\n* Moldsmal is flattered."); ("mercyIncrease", int 30)];
        PDict [("name", str "Flirt"); ("effect", str "flirt"); ("text", str "* You wiggle your hips.\n* Moldsmal wiggles back."); ("mercyIncrease", int 50)]
      ])
    ]);
    ("loox", PDict [
      ("name", str "Loox");
      ("hp", int 50);
      ("attack", int 6);
      ("defense", int 6);
      ("gold", int 5);
      ("exp", int 5);
      ("spareThreshold", int 0);
      ("dialogue", PList [
        str "* Loox draws near!";
        str "* Loox stares at you.";
        str "* Loox is suspicious of you.";
        str "* Loox gnashes its teeth."
      ]);
      ("checkText", str "ATK 6 DEF 6\n* Don't pick on.\n* Family name: Eyewalker.");
      ("sprites", PDict [
        ("idle", PList [str "Battle/Enemies/01 - Ruins/Loox/spr_loox_0.png"])
      ]);
      ("acts", PList [
        PDict [("name", str "Check"); ("effect", str "check")];
        PDict [("name", str "Pick On"); ("effect", str "pickon"); ("text", str "* You pick on Loox.\n* Its defense dropped!"); ("mercyIncrease", int 30)];
        PDict [("name", str "Don't Pick On"); ("effect", str "dontpickon"); ("text", str "* You don't pick on Loox.\n* Loox appreciates your restraint."); ("mercyIncrease", int 50)]
      ])
    ]);
    ("vegetoid", PDict [
      ("name", str "Vegetoid");
      ("hp", int 72);
      ("attack", int 6);
      ("defense", int 2);
      ("gold", int 4);
      ("exp", int 5);
      ("spareThreshold", int 0);
      ("dialogue", PList [
        str "* Vegetoid came out of the earth!";
        str "* Vegetoid settles down.";
        str "* Vegetoid offers you a healthy meal.";
        str "* Smells like apple juice."
      ]);
      ("checkText", str "ATK 6 DEF 2\n* Serving Size: 1 Monster.\n  Not monitored by the USDA.");
      ("sprites", PDict [
        ("idle", PList [str "Battle/Enemies/01 - Ruins/Vegetoid/spr_vegetoid_0.png"])
      ]);
      ("acts", PList [
        PDict [("name", str "Check"); ("effect", str "check")];
        PDict [("name", str "Dinner"); ("effect", str "dinner"); ("text", str "* You ask Vegetoid for dinner.\n* It offers you a healthy meal!"); ("mercyIncrease", int 50)];
        PDict [("name", str "Devour"); ("effect", str "devour"); ("text", str "* You eat Vegetoid's vegetables.\n* Your HP was maxed out!"); ("mercyIncrease", int 100)]
      ])
    ]);
    ("migosp", PDict [
      ("name", str "Migosp");
      ("hp", int 40);
      ("attack", int 7);
      ("defense", int 0);
      ("gold", int 3);
      ("exp", int 5);
      ("spareThreshold", int 0);
      ("dialogue", PList [
        str "* Migosp comes near!";
        str "* Migosp is thinking about\n  its friends.";
        str "* Migosp dances around.";
        str "* Smells like a combination of  \n  plums, clams, and bleach."
      ]);
      ("checkText", str "ATK 7 DEF 0\n* Seems evil, but it's just\n  with the wrong crowd...");
      ("sprites", PDict [
        ("idle", PList [str "Battle/Enemies/01 - Ruins/Migosp/spr_migosp_0.png"])
      ]);
      ("acts", PList [
        PDict [("name", str "Check"); ("effect", str "check")];
        PDict [("name", str "Talk"); ("effect", str "talk"); ("text", str "* You talk to Migosp.\n* Seems comfortable here."); ("mercyIncrease", int 0)]
      ])
    ]);
    ("napstablook", PDict [
      ("name", str "Napstablook");
      ("hp", int 88);
      ("attack", int 10);
      ("defense", int 255);
      ("gold", int 0);
      ("exp", int 0);
      ("spareThreshold", int 0);
      ("dialogue", PList [
        str "* napstablook...";
        str "* i'm sorry...";
        str "* i'm just really...\n  ...tired...";
        str "* oh no..."
      ]);
      ("checkText", str "ATK 10 DEF -40\n* This monster is really feeling\n  'it'... whatever 'it' is.");
      ("sprites", PDict [
        ("idle", PList [
          str "Battle/Enemies/01 - Ruins/Napstablook/spr_napstabattle_0.png";
          str "Battle/Enemies/01 - Ruins/Napstablook/spr_napstabattle_1.png"
        ])
      ]);
      ("acts", PList [
        PDict [("name", str "Check"); ("effect", str "check")];
        PDict [("name", str "Cheer"); ("effect", str "cheer"); ("text", str "* You console Napstablook.\n* Its ATTACK dropped!"); ("mercyIncrease", int 20)];
        PDict [("name", str "Flirt"); ("effect", str "flirt"); ("text", str "* You flirt with Napstablook.\n  uh... no thanks..."); ("mercyIncrease", int 10)]
      ])
    ]);
    ("dummy", PDict [
      ("name", str "Dummy");
      ("hp", int 15);
      ("attack", int 0);
      ("defense", int 0);
      ("gold", int 0);
      ("exp", int 0);
      ("spareThreshold", int 0);
      ("dialogue", PList [
        str "* The dummy stands there motionless.";
        str "* Cotton is spilling out of the dummy.";
        str "* The dummy is giving you a blank stare."
      ]);
      ("checkText", str "ATK 0 DEF 0\n* A cotton heart and a button eye.\n  You are the apple of its eye.");
      ("sprites", PDict [
        ("idle", PList [str "Battle/Enemies/01 - Ruins/Dummy/spr_dummyfight_glad_0.png"])
      ]);
      ("acts", PList [
        PDict [("name", str "Check"); ("effect", str "check")];
        PDict [("name", str "Talk"); ("effect", str "talk"); ("text", str "* You talk to the dummy.\n* It seems happy."); ("mercyIncrease", int 100)];
        PDict [("name", str "Hug"); ("effect", str "hug"); ("text", str "* You hug the dummy.\n* It's soft and fluffy..."); ("mercyIncrease", int 100)]
      ])
    ]);
    ("snowdrake", PDict [
      ("name", str "Snowdrake");
      ("hp", int 74);
      ("attack", int 7);
      ("defense", int 0);
      ("gold", int 6);
      ("exp", int 6);
      ("spareThreshold", int 0);
      ("dialogue", PList [
        str "* Snowdrake comes flying in!";
        str "* Snowdrake is checking you out.";
        str "* Snowdrake has frozen over.";
        str "* Smells like... snow."
      ]);
      ("checkText", str "ATK 7 DEF 0\n* This teen comedian fights to\n  keep a captive audience.");
      ("sprites", PDict [
        ("idle", PList [str "Battle/Enemies/02 - Snowdin/Snowdrake/spr_icecap_0.png"])
      ]);
      ("acts", PList [
        PDict [("name", str "Check"); ("effect", str "check")];
        PDict [("name", str "Joke"); ("effect", str "joke"); ("text", str "* You make a joke.\n* Snowdrake laughs!"); ("mercyIncrease", int 30)];
        PDict [("name", str "Heckle"); ("effect", str "heckle"); ("text", str "* You heckle Snowdrake.\n* Its confidence wavers..."); ("mercyIncrease", int 30)]
      ])
    ]);
    ("icecap", PDict [
      ("name", str "Ice Cap");
      ("hp", int 48);
      ("attack", int 6);
      ("defense", int 3);
      ("gold", int 5);
      ("exp", int 4);
      ("spareThreshold", int 0);
      ("dialogue", PList [
        str "* Ice Cap appears!";
        str "* Ice Cap is thinking about\n  its hat.";
        str "* Ice Cap is freezing.";
        str "* Smells like icicles."
      ]);
      ("checkText", str "ATK 6 DEF 3\n* This teen wonders why it isn't\n  named 'Ice Hat'.");
      ("sprites", PDict [
        ("idle", PList [str "Battle/Enemies/02 - Snowdin/Icecap/spr_icecap_0.png"])
      ]);
      ("acts", PList [
        PDict [("name", str "Check"); ("effect", str "check")];
        PDict [("name", str "Steal Hat"); ("effect", str "steal"); ("text", str "* You stole Ice Cap's hat.\n* Ice Cap is bare!"); ("mercyIncrease", int 100)];
        PDict [("name", str "Ignore"); ("effect", str "ignore"); ("text", str "* You ignore Ice Cap."); ("mercyIncrease", int 10)]
      ])
    ]);
    ("gyftrot", PDict [
      ("name", str "Gyftrot");
      ("hp", int 108);
      ("attack", int 7);
      ("defense", int 3);
      ("gold", int 15);
      ("exp", int 8);
      ("spareThreshold", int 0);
      ("dialogue", PList [
        str "* Gyftrot appears!";
        str "* Gyftrot is sighing.";
        str "* Gyftrot is annoyed.";
        str "* Smells like pine trees."
      ]);
      ("checkText", str "ATK 7 DEF 3\n* Wonders why people are so\n  horrible to each other.");
      ("sprites", PDict [
        ("idle", PList [str "Battle/Enemies/02 - Snowdin/Gyftrot/spr_gyftrot_0.png"])
      ]);
      ("acts", PList [
        PDict [("name", str "Check"); ("effect", str "check")];
        PDict [("name", str "Undecorate"); ("effect", str "undecorate"); ("text", str "* You remove the decorations.\n* Gyftrot feels much better!"); ("mercyIncrease", int 50)];
        PDict [("name", str "Decorate"); ("effect", str "decorate"); ("text", str "* You add more decorations.\n* Gyftrot sighs even louder..."); ("mercyIncrease", int 0)]
      ])
    ]);
    ("jerry", PDict [
      ("name", str "Jerry");
      ("hp", int 100);
      ("attack", int 7);
      ("defense", int 1);
      ("gold", int 1);
      ("exp", int 1);
      ("spareThreshold", int 0);
      ("dialogue", PList [
        str "* Jerry clings to you!";
        str "* Jerry eats powdery food\n  and licks its hands proudly.";
        str "* Jerry ditches its friend to\n  talk to you.";
        str "* Smells like... Jerry."
      ]);
      ("checkText", str "ATK 7 DEF 1\n* Everybody knows Jerry.\n* Attack when it's not looking.");
      ("sprites", PDict [
        ("idle", PList [str "Battle/Enemies/02 - Snowdin/Jerry/spr_jerry_0.png"])
      ]);
      ("acts", PList [
        PDict [("name", str "Check"); ("effect", str "check")];
        PDict [("name", str "Ditch"); ("effect", str "ditch"); ("text", str "* You ditch Jerry.\n* Everyone is relieved!"); ("mercyIncrease", int 100)]
      ])
    ]);
    ("aaron", PDict [
      ("name", str "Aaron");
      ("hp", int 98);
      ("attack", int 8);
      ("defense", int 0);
      ("gold", int 10);
      ("exp", int 7);
      ("spareThreshold", int 0);
      ("dialogue", PList [
        str "* Aaron appears!";
        str "* Aaron is flexing.";
        str "* Aaron is admiring himself.";
        str "* Smells like musk."
      ]);
      ("checkText", str "ATK 8 DEF 0\n* This seahorse has a lot of\n  HP. Don't just hack away...");
      ("sprites", PDict [
        ("idle", PList [str "Battle/Enemies/03 - Waterfall/Aaron/spr_aaron_0.png"])
      ]);
      ("acts", PList [
        PDict [("name", str "Check"); ("effect", str "check")];
        PDict [("name", str "Flex"); ("effect", str "flex"); ("text", str "* You flex your muscles.\n* Aaron is impressed!"); ("mercyIncrease", int 40)];
        PDict [("name", str "Flirt"); ("effect", str "flirt"); ("text", str "* You flirt with Aaron.\n  Aaron's face gets redder..."); ("mercyIncrease", int 40)]
      ])
    ]);
    ("woshua", PDict [
      ("name", str "Woshua");
      ("hp", int 70);
      ("attack", int 7);
      ("defense", int 1);
      ("gold", int 8);
      ("exp", int 5);
      ("spareThreshold", int 0);
      ("dialogue", PList [
        str "* Woshua appears!";
        str "* Woshua is judging your\n  cleanliness.";
        str "* Woshua is scrubbing furiously.";
        str "* Smells like disinfectant."
      ]);
      ("checkText", str "ATK 7 DEF 1\n* This humble germaphobe seeks\n  to cleanse the whole world.");
      ("sprites", PDict [
        ("idle", PList [str "Battle/Enemies/03 - Waterfall/Woshua/spr_woshua_0.png"])
      ]);
      ("acts", PList [
        PDict [("name", str "Check"); ("effect", str "check")];
        PDict [("name", str "Clean"); ("effect", str "clean"); ("text", str "* You let Woshua clean you.\n* Woshua is satisfied!"); ("mercyIncrease", int 100)];
        PDict [("name", str "Joke"); ("effect", str "joke"); ("text", str "* You make a dirty joke.\n* Woshua is disgusted!"); ("mercyIncrease", int 0)]
      ])
    ]);
    ("moldbygg", PDict [
      ("name", str "Moldbygg");
      ("hp", int 80);
      ("attack", int 8);
      ("defense", int 0);
      ("gold", int 10);
      ("exp", int 8);
      ("spareThreshold", int 0);
      ("dialogue", PList [
        str "* Moldbygg wavers forward.";
        str "* Moldbygg is oozing.";
        str "* Moldbygg burbles.";
        str "* Smells like vanilla."
      ]);
      ("checkText", str "ATK 8 DEF 0\n* Huge, hulking, unscary.\n* Looking for love.");
      ("sprites", PDict [
        ("idle", PList [str "Battle/Enemies/03 - Waterfall/Moldbygg/spr_moldbygg_0.png"])
      ]);
      ("acts", PList [
        PDict [("name", str "Check"); ("effect", str "check")];
        PDict [("name", str "Lie Down"); ("effect", str "lie"); ("text", str "* You lie on the ground.\n* Moldbygg lies on top of you!"); ("mercyIncrease", int 50)];
        PDict [("name", str "Unhug"); ("effect", str "unhug"); ("text", str "* You push Moldbygg off.\n* Moldbygg gets the hint."); ("mercyIncrease", int 50)]
      ])
    ]);
    ("shyren", PDict [
      ("name", str "Shyren");
      ("hp", int 66);
      ("attack", int 7);
      ("defense", int 0);
      ("gold", int 9);
      ("exp", int 4);
      ("spareThreshold", int 0);
      ("dialogue", PList [
        str "* Shyren hums a melody.";
        str "* Shyren trebles with fear.";
        str "* Shyren is humming.";
        str "* Smells like music."
      ]);
      ("checkText", str "ATK 7 DEF 0\n* A talented musician\n  but she's too shy to sing.");
      ("sprites", PDict [
        ("idle", PList [str "Battle/Enemies/03 - Waterfall/Shyren/spr_shyren_0.png"])
      ]);
      ("acts", PList [
        PDict [("name", str "Check"); ("effect", str "check")];
        PDict [("name", str "Hum"); ("effect", str "hum"); ("text", str "* You hum along with Shyren.\n* Shyren grows confident!"); ("mercyIncrease", int 30)];
        PDict [("name", str "Sing"); ("effect", str "sing"); ("text", str "* You sing to Shyren.\n* Shyren is happy!"); ("mercyIncrease", int 50)]
      ])
    ]);
    ("vulkin", PDict [
      ("name", str "Vulkin");
      ("hp", int 66);
      ("attack", int 9);
      ("defense", int 0);
      ("gold", int 10);
      ("exp", int 6);
      ("spareThreshold", int 0);
      ("dialogue", PList [
        str "* Vulkin erupts!";
        str "* Vulkin is warming up.";
        str "* Vulkin wants to be popular.";
        str "* Smells like hot springs."
      ]);
      ("checkText", str "ATK 9 DEF 0\n* Hotheaded. Tries to calm\n  people down with hugs.");
      ("sprites", PDict [
        ("idle", PList [str "Battle/Enemies/04 - Hotland/Vulkin/spr_vulkin_0.png"])
      ]);
      ("acts", PList [
        PDict [("name", str "Check"); ("effect", str "check")];
        PDict [("name", str "Encourage"); ("effect", str "encourage"); ("text", str "* You encourage Vulkin.\n* Vulkin is pumped up!"); ("mercyIncrease", int 30)];
        PDict [("name", str "Hug"); ("effect", str "hug"); ("text", str "* You hug Vulkin.\n* Vulkin is cooled down!"); ("mercyIncrease", int 50)]
      ])
    ]);
    ("tsunderplane", PDict [
      ("name", str "Tsunderplane");
      ("hp", int 95);
      ("attack", int 9);
      ("defense", int 4);
      ("gold", int 10);
      ("exp", int 7);
      ("spareThreshold", int 0);
      ("dialogue", PList [
        str "* Tsunderplane flies in!";
        str "* Tsunderplane is tsun-tsun.";
        str "* Tsunderplane is wavering.";
        str "* Smells like airplane food."
      ]);
      ("checkText", str "ATK 9 DEF 4\n* Seems mean, but does it secretly\n  like you?");
      ("sprites", PDict [
        ("idle", PList [str "Battle/Enemies/04 - Hotland/Tsunderplane/spr_tsunderplane_0.png"])
      ]);
      ("acts", PList [
        PDict [("name", str "Check"); ("effect", str "check")];
        PDict [("name", str "Approach"); ("effect", str "approach"); ("text", str "* You approach Tsunderplane.\n* I-it's not like I like you!"); ("mercyIncrease", int 30)];
        PDict [("name", str "Compliment"); ("effect", str "compliment"); ("text", str "* You compliment Tsunderplane.\n* B-baka...!"); ("mercyIncrease", int 50)]
      ])
    ]);
    ("pyrope", PDict [
      ("name", str "Pyrope");
      ("hp", int 110);
      ("attack", int 10);
      ("defense", int 0);
      ("gold", int 12);
      ("exp", int 10);
      ("spareThreshold", int 0);
      ("dialogue", PList [
        str "* Pyrope bursts in!";
        str "* Pyrope is jumping around.";
        str "* Pyrope is heating up.";
        str "* Smells like fireworks."
      ]);
      ("checkText", str "ATK 10 DEF 0\n* This hotheaded youngster\n  is itching for a fight.");
      ("sprites", PDict [
        ("idle", PList [str "Battle/Enemies/04 - Hotland/Pyrope/spr_pyrope_0.png"])
      ]);
      ("acts", PList [
        PDict [("name", str "Check"); ("effect", str "check")];
        PDict [("name", str "Heat Up"); ("effect", str "heat"); ("text", str "* You encourage Pyrope.\n* Pyrope burns brighter!"); ("mercyIncrease", int 30)];
        PDict [("name", str "Cool Down"); ("effect", str "cool"); ("text", str "* You cool Pyrope down.\n* Pyrope feels better!"); ("mercyIncrease", int 50)]
      ])
    ]);
    ("muffet", PDict [
      ("name", str "Muffet");
      ("hp", int 1250);
      ("attack", int 10);
      ("defense", int 0);
      ("gold", int 350);
      ("exp", int 100);
      ("spareThreshold", int 0);
      ("dialogue", PList [
        str "* Muffet traps you!";
        str "* Muffet giggles.";
        str "* Muffet is checking her\n  account balance.";
        str "* Smells like cobwebs and donuts."
      ]);
      ("checkText", str "ATK 10 DEF 0\n* If she invites you to her\n  parlor, excuse yourself.");
      ("sprites", PDict [
        ("idle", PList [str "Battle/Characters/Muffet/spr_muffet_0.png"])
      ]);
      ("acts", PList [
        PDict [("name", str "Check"); ("effect", str "check")];
        PDict [("name", str "Pay"); ("effect", str "pay"); ("text", str "* You pay Muffet.\n* Muffet lets you go!"); ("mercyIncrease", int 100)];
        PDict [("name", str "Struggle"); ("effect", str "struggle"); ("text", str "* You struggle in the web."); ("mercyIncrease", int 10)]
      ])
    ]);
    ("final_froggit", PDict [
      ("name", str "Final Froggit");
      ("hp", int 100);
      ("attack", int 10);
      ("defense", int 5);
      ("gold", int 15);
      ("exp", int 10);
      ("spareThreshold", int 0);
      ("dialogue", PList [
        str "* Final Froggit hops in!";
        str "* Final Froggit is pondering\n  the universe.";
        str "* Final Froggit ribbits wisely.";
        str "* Smells like ancient wisdom."
      ]);
      ("checkText", str "ATK 10 DEF 5\n* This frog has lived a long time\n  and has sage advice.");
      ("sprites", PDict [
        ("idle", PList [str "Battle/Enemies/05 - Core/Final Froggit/spr_finalfroggit_0.png"])
      ]);
      ("acts", PList [
        PDict [("name", str "Check"); ("effect", str "check")];
        PDict [("name", str "Compliment"); ("effect", str "compliment"); ("text", str "* You compliment Final Froggit.\n* It nods knowingly."); ("mercyIncrease", int 40)];
        PDict [("name", str "Mystify"); ("effect", str "mystify"); ("text", str "* You tell Final Froggit something\n  mystical. It's satisfied."); ("mercyIncrease", int 100)]
      ])
    ]);
    ("whimsalot", PDict [
      ("name", str "Whimsalot");
      ("hp", int 95);
      ("attack", int 10);
      ("defense", int 2);
      ("gold", int 12);
      ("exp", int 8);
      ("spareThreshold", int 0);
      ("dialogue", PList [
        str "* Whimsalot swoops in!";
        str "* Whimsalot is confident.";
        str "* Whimsalot is flying strong.";
        str "* Smells like confidence."
      ]);
      ("checkText", str "ATK 10 DEF 2\n* Upgraded. Optimistic.\n  Still scared of you.");
      ("sprites", PDict [
        ("idle", PList [str "Battle/Enemies/05 - Core/Whimsalot/spr_whimsalot_0.png"])
      ]);
      ("acts", PList [
        PDict [("name", str "Check"); ("effect", str "check")];
        PDict [("name", str "Console"); ("effect", str "console"); ("text", str "* You console Whimsalot.\n* Whimsalot calms down."); ("mercyIncrease", int 50)];
        PDict [("name", str "Terrorize"); ("effect", str "terrorize"); ("text", str "* You terrorize Whimsalot.\n* Whimsalot flies away!"); ("mercyIncrease", int 100)]
      ])
    ]);
    ("astigmatism", PDict [
      ("name", str "Astigmatism");
      ("hp", int 110);
      ("attack", int 10);
      ("defense", int 4);
      ("gold", int 15);
      ("exp", int 10);
      ("spareThreshold", int 0);
      ("dialogue", PList [
        str "* Astigmatism drew near!";
        str "* Astigmatism is staring.";
        str "* Astigmatism is judging you.";
        str "* Smells like eye drops."
      ]);
      ("checkText", str "ATK 10 DEF 4\n* Upgraded. Now has a more\n  sophisticated sense of fashion.");
      ("sprites", PDict [
        ("idle", PList [str "Battle/Enemies/05 - Core/Astigmatism/spr_astigmatism_0.png"])
      ]);
      ("acts", PList [
        PDict [("name", str "Check"); ("effect", str "check")];
        PDict [("name", str "Pick On"); ("effect", str "pickon"); ("text", str "* You pick on Astigmatism."); ("mercyIncrease", int 30)];
        PDict [("name", str "Don't Pick On"); ("effect", str "dontpickon"); ("text", str "* You don't pick on Astigmatism.\n* It respects you."); ("mercyIncrease", int 50)]
      ])
    ]);
    ("knight_knight", PDict [
      ("name", str "Knight Knight");
      ("hp", int 230);
      ("attack", int 10);
      ("defense", int 8);
      ("gold", int 30);
      ("exp", int 15);
      ("spareThreshold", int 0);
      ("dialogue", PList [
        str "* Knight Knight blocks the way!";
        str "* Knight Knight is guarding.";
        str "* Knight Knight stands firm.";
        str "* Smells like steel and roses."
      ]);
      ("checkText", str "ATK 10 DEF 8\n* This heavy knight fears nothing.\n  Loves its pet cat more than life.");
      ("sprites", PDict [
        ("idle", PList [str "Battle/Enemies/05 - Core/Knight Knight/spr_knightknight_0.png"])
      ]);
      ("acts", PList [
        PDict [("name", str "Check"); ("effect", str "check")];
        PDict [("name", str "Sing"); ("effect", str "sing"); ("text", str "* You sing a lullaby.\n* Knight Knight falls asleep!"); ("mercyIncrease", int 100)]
      ])
    ]);
    ("madjick", PDict [
      ("name", str "Madjick");
      ("hp", int 190);
      ("attack", int 10);
      ("defense", int 5);
      ("gold", int 25);
      ("exp", int 12);
      ("spareThreshold", int 0);
      ("dialogue", PList [
        str "* Madjick casts a spell!";
        str "* Madjick is concentrating.";
        str "* Madjick is muttering\n  incantations.";
        str "* Smells like magic dust."
      ]);
      ("checkText", str "ATK 10 DEF 5\n* This magical mercenary wields\n  strange powers.");
      ("sprites", PDict [
        ("idle", PList [str "Battle/Enemies/05 - Core/Madjick/spr_madjick_0.png"])
      ]);
      ("acts", PList [
        PDict [("name", str "Check"); ("effect", str "check")];
        PDict [("name", str "Clear Mind"); ("effect", str "clearmind"); ("text", str "* You clear your mind.\n* Madjick's magic is disturbed!"); ("mercyIncrease", int 50)]
      ])
    ])
  ].

(** [enemy_data] is the dict held in the table: the default patterns are
    assigned into the table's own record. *)
Definition create_enemy_json (enemy_id : string) (enemy_data : ref) : M unit :=
  has_patterns ← contains enemy_data "attackPatterns";
  (if negb has_patterns then
     setitem enemy_data "attackPatterns" (PList [
       PDict [
         ("name", str "Default Attack");
         ("duration", int 4000);
         ("waves", PList [
           PDict [
             ("time", int 0);
             ("type", str "projectiles");
             ("count", int 5);
             ("speed", int 2);
             ("size", int 15);
             ("side", str "top")
           ];
           PDict [
             ("time", int 1500);
             ("type", str "projectiles");
             ("count", int 4);
             ("speed", float 2.5);
             ("size", int 15);
             ("side", str "left")
           ];
           PDict [
             ("time", int 2500);
             ("type", str "projectiles");
             ("count", int 4);
             ("speed", float 2.5);
             ("size", int 15);
             ("side", str "right")
           ]
         ])
       ]
     ])
   else mret ()) ;;
  let filename := join OUTPUT_DIR (enemy_id +:+ ".json") in
  obj ← deref enemy_data;
  dump_to filename obj 4 ;;
  print ("Created " +:+ filename).

Definition main : M unit :=
  table ← load_global "ENEMIES";
  n ← len table;
  print ("Generating " +:+ str_of_int n +:+ " enemy files...") ;;
  table ← load_global "ENEMIES";
  entries ← items table;
  for_each (dict_keys entries)
    (λ enemy_id, create_enemy_json enemy_id (Ref "ENEMIES" enemy_id)) ;;
  table ← load_global "ENEMIES";
  n ← len table;
  print (lit "\nComplete! Generated " +:+ str_of_int n +:+ " enemy files in " +:+ OUTPUT_DIR).

Definition script : M unit :=
  store_global "ENEMIES" ENEMIES ;;
  main.
End generate_enemies.

(** ** scripts/generate_missing_undertale_enemies.py *)

Module generate_missing_undertale_enemies.

Definition ENEMIES : pyval :=
  PDict [
    ("chilldrake", PDict [
      ("name", str "Chilldrake");
      ("hp", int 44);
      ("attack", int 7);
      ("defense", int 0);
      ("gold", int 12);
      ("exp", int 6);
      ("spareThreshold", int 100);
      ("dialogue", PList [
        str "* Chilldrake saunters up!";
        str "* Chilldrake is trying to be  \n  cool.";
        str "* Chilldrake is thinking about  \n  its jokes.";
        str "* Smells like popsicles."
      ]);
      ("checkText", str "ATK 7 DEF 0\\n* Rebels against everything!!\\n  Looking for its friend Snowy.");
      ("sprites", PDict [("idle", PList [str "Battle/Enemies/02 - Snowdin/Ice Drake/spr_icedrakebattle_0.png"])]);
      ("acts", PList [
        PDict [("name", str "Check"); ("effect", str "check")];
        PDict [("name", str "Joke"); ("effect", str "joke"); ("text", str "* You tell a joke.\\n* Chilldrake laughs!"); ("mercyIncrease", int 40)];
        PDict [("name", str "Ignore"); ("effect", str "ignore"); ("text", str "* You ignore Chilldrake.\\n* It gets mad!"); ("mercyIncrease", int 0)]
      ]);
      ("attackPatterns", PList [
        PDict [
          ("name", str "Ice Attack");
          ("duration", int 4500);
          ("waves", PList [
            PDict [("time", int 0); ("type", str "projectiles"); ("count", int 4); ("speed", float 2.5); ("size", int 15); ("side", str "top")];
            PDict [("time", int 1500); ("type", str "projectiles"); ("count", int 5); ("speed", int 3); ("size", int 15); ("side", str "left")];
            PDict [("time", int 3000); ("type", str "projectiles"); ("count", int 4); ("speed", float 2.5); ("size", int 15); ("side", str "right")]
          ])
        ]
      ])
    ]);
    ("doggo", PDict [
      ("name", str "Doggo");
      ("hp", int 70);
      ("attack", int 8);
      ("defense", int 2);
      ("gold", int 30);
      ("exp", int 30);
      ("spareThreshold", int 100);
      ("dialogue", PList [
        str "* Doggo blocks the way!";
        str "* Doggo is fast asleep.";
        str "* Doggo is questioning your  \n  movements.";
        str "* Smells like wet dog."
      ]);
      ("checkText", str "ATK 8 DEF 2\\n* Easily excited by movement.\\n  Hopelessly near-sighted.");
      ("sprites", PDict [("idle", PList [str "Battle/Enemies/02 - Snowdin/Doggo/spr_doggo_0.png"])]);
      ("acts", PList [
        PDict [("name", str "Check"); ("effect", str "check")];
        PDict [("name", str "Pet"); ("effect", str "pet"); ("text", str "* You pet Doggo.\\n* He's so happy!"); ("mercyIncrease", int 100)]
      ]);
      ("attackPatterns", PList [
        PDict [
          ("name", str "Blue Sword Sweep");
          ("duration", int 4000);
          ("waves", PList [
            PDict [("time", int 500); ("type", str "blue_sweep"); ("speed", int 2); ("orientation", str "horizontal")]
          ])
        ]
      ])
    ]);
    ("dogamy_dogaressa", PDict [
      ("name", str "Dogamy & Dogaressa");
      ("hp", int 108);
      ("attack", int 8);
      ("defense", int 4);
      ("gold", int 60);
      ("exp", int 60);
      ("spareThreshold", int 100);
      ("dialogue", PList [
        str "* This couple cannot be split up!";
        str "* Dogamy and Dogaressa are  \n  thinking about dinner.";
        str "* The dogs are practicing  \n  their marriage.";
        str "* Smells like a sleepover."
      ]);
      ("checkText", str "ATK 8 DEF 4\\n* Husband & wife team!\\n  Synchronicity is key.");
      ("sprites", PDict [("idle", PList [str "Battle/Enemies/02 - Snowdin/Dogamy + Dogaressa/spr_marriedbattle_0.png"])]);
      ("acts", PList [
        PDict [("name", str "Check"); ("effect", str "check")];
        PDict [("name", str "Roll Around"); ("effect", str "roll"); ("text", str "* You roll around.\\n* The dogs are amused!"); ("mercyIncrease", int 30)];
        PDict [("name", str "Pet"); ("effect", str "pet"); ("text", str "* You pet the dogs.\\n* They wag their tails!"); ("mercyIncrease", int 70)]
      ]);
      ("attackPatterns", PList [
        PDict [
          ("name", str "Double Axes");
          ("duration", int 5000);
          ("waves", PList [
            PDict [("time", int 0); ("type", str "axes"); ("count", int 2); ("speed", int 3); ("pattern", str "heart")];
            PDict [("time", int 2000); ("type", str "heart_bullets"); ("count", int 8); ("speed", float 2.5); ("pattern", str "ring")];
            PDict [("time", int 3500); ("type", str "axes"); ("count", int 2); ("speed", float 3.5); ("pattern", str "heart")]
          ])
        ]
      ])
    ]);
    ("lesser_dog", PDict [
      ("name", str "Lesser Dog");
      ("hp", int 60);
      ("attack", int 8);
      ("defense", int 0);
      ("gold", int 25);
      ("exp", int 20);
      ("spareThreshold", int 100);
      ("dialogue", PList [
        str "* Lesser Dog appeared!";
        str "* Lesser Dog is barking  \n  excitedly.";
        str "* Lesser Dog wants to play.";
        str "* Smells like dog treats."
      ]);
      ("checkText", str "ATK 8 DEF 0\\n* Wields a deadly battle axe.\\n  Desperate for affection.");
      ("sprites", PDict [("idle", PList [str "Battle/Enemies/02 - Snowdin/Lesser Dog/spr_lesserdogbattle_0.png"])]);
      ("acts", PList [
        PDict [("name", str "Check"); ("effect", str "check")];
        PDict [("name", str "Pet"); ("effect", str "pet"); ("text", str "* You pet Lesser Dog.\\n* It gets more excited!"); ("mercyIncrease", int 25)]
      ]);
      ("attackPatterns", PList [
        PDict [
          ("name", str "Dog Bark");
          ("duration", int 4000);
          ("waves", PList [
            PDict [("time", int 1000); ("type", str "bark"); ("count", int 1); ("speed", int 4); ("orientation", str "vertical")]
          ])
        ]
      ])
    ]);
    ("greater_dog", PDict [
      ("name", str "Greater Dog");
      ("hp", int 105);
      ("attack", int 8);
      ("defense", int 4);
      ("gold", int 40);
      ("exp", int 80);
      ("spareThreshold", int 100);
      ("dialogue", PList [
        str "* Greater Dog shows up!";
        str "* Greater Dog is watching you  \n  intently.";
        str "* Greater Dog wants some pets.";
        str "* Smells like puppy breath."
      ]);
      ("checkText", str "ATK 8 DEF 4\\n* A very excitable dog.\\n  Unable to see enemies.");
      ("sprites", PDict [("idle", PList [str "Battle/Enemies/02 - Snowdin/Greater Dog/spr_greatdog_0.png"])]);
      ("acts", PList [
        PDict [("name", str "Check"); ("effect", str "check")];
        PDict [("name", str "Pet"); ("effect", str "pet"); ("text", str "* You pet Greater Dog.\\n* It's very happy!"); ("mercyIncrease", int 33)]
      ]);
      ("attackPatterns", PList [
        PDict [
          ("name", str "Dog Attacks");
          ("duration", int 5000);
          ("waves", PList [
            PDict [("time", int 0); ("type", str "dog_head"); ("speed", int 2); ("color", str "blue_white")];
            PDict [("time", int 2500); ("type", str "annoying_dog"); ("speed", int 3); ("trigger", str "movement")]
          ])
        ]
      ])
    ]);
    ("temmie", PDict [
      ("name", str "Temmie");
      ("hp", int 5);
      ("attack", int 20);
      ("defense", int (-20));
      ("gold", int 10);
      ("exp", int 0);
      ("spareThreshold", int 100);
      ("dialogue", PList [
        str "* hOI! i'm tEMMIE!";
        str "* Temmie vibrates intensely.";
        str "* Temmie is flexing.";
        str "* Smells like Temmie Flakes."
      ]);
      ("checkText", str "ATK 20 DEF -20\\n* The cutest thing ever!\\n  Also forgot enemy name...");
      ("sprites", PDict [("idle", PList [str "Battle/Enemies/03 - Waterfall/Temmie/spr_temmiebattle_0.png"])]);
      ("acts", PList [
        PDict [("name", str "Check"); ("effect", str "check")];
        PDict [("name", str "Talk"); ("effect", str "talk"); ("text", str "* You talk to Temmie.\\n* hOI!"); ("mercyIncrease", int 30)];
        PDict [("name", str "Flex"); ("effect", str "flex"); ("text", str "* You flex at Temmie.\\n* Temmie does not approve!"); ("mercyIncrease", int 0)]
      ]);
      ("attackPatterns", PList [
        PDict [
          ("name", str "Temmie Flakes");
          ("duration", int 4000);
          ("waves", PList [
            PDict [("time", int 0); ("type", str "projectiles"); ("count", int 6); ("speed", int 2); ("size", int 12); ("side", str "top")];
            PDict [("time", int 1500); ("type", str "projectiles"); ("count", int 5); ("speed", float 2.5); ("size", int 12); ("side", str "left")]
          ])
        ]
      ])
    ]);
    ("mad_dummy", PDict [
      ("name", str "Mad Dummy");
      ("hp", int 200);
      ("attack", int 8);
      ("defense", int 7);
      ("gold", int 0);
      ("exp", int 0);
      ("spareThreshold", int 0);
      ("dialogue", PList [
        str "* Mad Dummy is blocking the way!";
        str "* Mad Dummy is getting more mad.";
        str "* Mad Dummy is screaming.";
        str "* Smells like cotton and rage."
      ]);
      ("checkText", str "ATK 8 DEF 7\\n* Too resilient to give up.\\n  A possessed training dummy.");
      ("sprites", PDict [("idle", PList [str "Battle/Enemies/03 - Waterfall/Mad Dummy/spr_maddummy_body.png"])]);
      ("acts", PList [
        PDict [("name", str "Check"); ("effect", str "check")];
        PDict [("name", str "Cheer"); ("effect", str "cheer"); ("text", str "* You cheer.\\n* Mad Dummy is confused!"); ("mercyIncrease", int 33)]
      ]);
      ("attackPatterns", PList [
        PDict [
          ("name", str "Dummy Army");
          ("duration", int 6000);
          ("waves", PList [
            PDict [("time", int 0); ("type", str "dummy_swarm"); ("count", int 5); ("speed", int 2)];
            PDict [("time", int 2000); ("type", str "rockets"); ("count", int 3); ("speed", float 3.5)];
            PDict [("time", int 4000); ("type", str "knife"); ("count", int 1); ("speed", int 4)]
          ])
        ]
      ])
    ]);
    ("royal_guards", PDict [
      ("name", str "Royal Guards");
      ("hp", int 150);
      ("attack", int 9);
      ("defense", int 4);
      ("gold", int 100);
      ("exp", int 140);
      ("spareThreshold", int 100);
      ("dialogue", PList [
        str "* The Royal Guards appear!";
        str "* 01 and 02 are on duty.";
        str "* The guards stand proudly.";
        str "* Smells like armor polish."
      ]);
      ("checkText", str "ATK 9 DEF 4\\n* These two brothers work\\n  together as guards.");
      ("sprites", PDict [("idle", PList [str "Battle/Enemies/04 - Hotland/Royal Guards/spr_02battle_0.png"])]);
      ("acts", PList [
        PDict [("name", str "Check"); ("effect", str "check")];
        PDict [("name", str "Clean Armor"); ("effect", str "clean"); ("text", str "* You clean their armor.\\n* They appreciate it!"); ("mercyIncrease", int 50)]
      ]);
      ("attackPatterns", PList [
        PDict [
          ("name", str "Guard Combo");
          ("duration", int 5500);
          ("waves", PList [
            PDict [("time", int 0); ("type", str "projectiles"); ("count", int 6); ("speed", float 2.5); ("size", int 15); ("side", str "top")];
            PDict [("time", int 2000); ("type", str "star_bullets"); ("count", int 5); ("speed", int 3)];
            PDict [("time", int 3500); ("type", str "projectiles"); ("count", int 7); ("speed", int 3); ("size", int 15); ("side", str "bottom")]
          ])
        ]
      ])
    ]);
    ("so_sorry", PDict [
      ("name", str "So Sorry");
      ("hp", int 1100);
      ("attack", int 9);
      ("defense", int (-6));
      ("gold", int 300);
      ("exp", int 1);
      ("spareThreshold", int 100);
      ("dialogue", PList [
        str "* So Sorry appears!";
        str "* So Sorry is drawing something.";
        str "* So Sorry is apologizing.";
        str "* Smells like art supplies."
      ]);
      ("checkText", str "ATK 9 DEF -6\\n* This creature is definitely  \\n  'art' in motion.");
      ("sprites", PDict [("idle", PList [str "Battle/Enemies/04 - Hotland/So Sorry/spr_sosorry_normal_0.png"])]);
      ("acts", PList [
        PDict [("name", str "Check"); ("effect", str "check")];
        PDict [("name", str "Draw"); ("effect", str "draw"); ("text", str "* You draw something nice.\\n* So Sorry is happy!"); ("mercyIncrease", int 100)]
      ]);
      ("attackPatterns", PList [
        PDict [
          ("name", str "Art Attack");
          ("duration", int 7000);
          ("waves", PList [
            PDict [("time", int 0); ("type", str "tail_slash"); ("count", int 2); ("speed", int 3)];
            PDict [("time", int 2000); ("type", str "paper_balls"); ("count", int 8); ("speed", float 2.5)];
            PDict [("time", int 4500); ("type", str "doodle_arms"); ("count", int 4); ("speed", int 3)]
          ])
        ]
      ])
    ]);
    ("parsnik", PDict [
      ("name", str "Parsnik");
      ("hp", int 50);
      ("attack", int 8);
      ("defense", int 7);
      ("gold", int 5);
      ("exp", int 5);
      ("spareThreshold", int 100);
      ("dialogue", PList [
        str "* Parsnik shows up!";
        str "* Parsnik is posing dramatically.";
        str "* Parsnik is being rebellious.";
        str "* Smells like parsnips."
      ]);
      ("checkText", str "ATK 8 DEF 7\\n* Hard Mode only.\\n* A rebellious root vegetable.");
      ("sprites", PDict [("idle", PList [str "Battle/Enemies/01 - Ruins/Parsnik/spr_parsnikbattle_0.png"])]);
      ("acts", PList [
        PDict [("name", str "Check"); ("effect", str "check")];
        PDict [("name", str "Devour"); ("effect", str "devour"); ("text", str "* You devour Parsnik."); ("mercyIncrease", int 100)]
      ]);
      ("attackPatterns", PList [
        PDict [
          ("name", str "Root Attack");
          ("duration", int 4000);
          ("waves", PList [
            PDict [("time", int 0); ("type", str "projectiles"); ("count", int 5); ("speed", float 2.5); ("size", int 15); ("side", str "top")];
            PDict [("time", int 2000); ("type", str "projectiles"); ("count", int 6); ("speed", int 3); ("size", int 15); ("side", str "bottom")]
          ])
        ]
      ])
    ]);
    ("moldessa", PDict [
      ("name", str "Moldessa");
      ("hp", int 52);
      ("attack", int 8);
      ("defense", int 5);
      ("gold", int 12);
      ("exp", int 6);
      ("spareThreshold", int 100);
      ("dialogue", PList [
        str "* Moldessa oozes up!";
        str "* Moldessa is posing.";
        str "* Moldessa wiggles provocatively.";
        str "* Smells like a beauty salon."
      ]);
      ("checkText", str "ATK 8 DEF 5\\n* Hard Mode only.\\n* A slime in its prime.");
      ("sprites", PDict [("idle", PList [str "Battle/Enemies/01 - Ruins/Moldessa/spr_moldbyggbattle_hardmode_0.png"])]);
      ("acts", PList [
        PDict [("name", str "Check"); ("effect", str "check")];
        PDict [("name", str "Impress"); ("effect", str "impress"); ("text", str "* You pose. Moldessa is  \\n  impressed!"); ("mercyIncrease", int 100)]
      ]);
      ("attackPatterns", PList [
        PDict [
          ("name", str "Slime Attack");
          ("duration", int 4500);
          ("waves", PList [
            PDict [("time", int 0); ("type", str "projectiles"); ("count", int 6); ("speed", int 2); ("size", int 15); ("side", str "top")];
            PDict [("time", int 2000); ("type", str "exploding_slime"); ("count", int 3); ("speed", float 2.5)]
          ])
        ]
      ])
    ]);
    ("migospel", PDict [
      ("name", str "Migospel");
      ("hp", int 60);
      ("attack", int 8);
      ("defense", int 6);
      ("gold", int 8);
      ("exp", int 7);
      ("spareThreshold", int 100);
      ("dialogue", PList [
        str "* Migospel buzzed up!";
        str "* Migospel is preaching.";
        str "* Migospel is looking for  \\n  followers.";
        str "* Smells like incense."
      ]);
      ("checkText", str "ATK 8 DEF 6\\n* Hard Mode only.\\n* A missionary for monsters.");
      ("sprites", PDict [("idle", PList [str "Battle/Enemies/01 - Ruins/Migospel/spr_migospbattle_hardmode_0.png"])]);
      ("acts", PList [
        PDict [("name", str "Check"); ("effect", str "check")];
        PDict [("name", str "Pray"); ("effect", str "pray"); ("text", str "* You pray.\\n* Migospel is pleased!"); ("mercyIncrease", int 100)]
      ]);
      ("attackPatterns", PList [
        PDict [
          ("name", str "Gospel Attack");
          ("duration", int 4500);
          ("waves", PList [
            PDict [("time", int 0); ("type", str "projectiles"); ("count", int 5); ("speed", float 2.5); ("size", int 15); ("side", str "top")];
            PDict [("time", int 2000); ("type", str "projectiles"); ("count", int 6); ("speed", int 3); ("size", int 15); ("side", str "left")]
          ])
        ]
      ])
    ]);
    ("glyde", PDict [
      ("name", str "Glyde");
      ("hp", int 220);
      ("attack", int 9);
      ("defense", int 5);
      ("gold", int 120);
      ("exp", int 100);
      ("spareThreshold", int 100);
      ("dialogue", PList [
        str "* Glyde glides in!";
        str "* Glyde is selling wares.";
        str "* Glyde is looking smug.";
        str "* Smells like expensive cologne."
      ]);
      ("checkText", str "ATK 9 DEF 5\\n* A wealthy art dealer.\\n* Trades in rare artifacts.");
      ("sprites", PDict [("idle", PList [str "Battle/Enemies/02 - Snowdin/Glyde/spr_glydebattle_0.png"])]);
      ("acts", PList [
        PDict [("name", str "Check"); ("effect", str "check")];
        PDict [("name", str "Pay"); ("effect", str "pay"); ("text", str "* You pay Glyde.\\n* Glyde is satisfied!"); ("mercyIncrease", int 100)]
      ]);
      ("attackPatterns", PList [
        PDict [
          ("name", str "Glyde Attack");
          ("duration", int 5000);
          ("waves", PList [
            PDict [("time", int 0); ("type", str "projectiles"); ("count", int 6); ("speed", float 2.5); ("size", int 15); ("side", str "top")];
            PDict [("time", int 2000); ("type", str "projectiles"); ("count", int 7); ("speed", int 3); ("size", int 15); ("side", str "left")];
            PDict [("time", int 3500); ("type", str "projectiles"); ("count", int 6); ("speed", int 3); ("size", int 15); ("side", str "right")]
          ])
        ]
      ])
    ])
  ].

Definition create_enemy_json (enemy_id : string) (enemy_data : pyval) : M unit :=
  let filename := "data/enemies/" +:+ enemy_id +:+ ".json" in
  makedirs_ (dirname filename) ;;
  dump_to filename enemy_data 4 ;;
  print ("Created " +:+ filename).

Definition main : M unit :=
  print "Generating missing Undertale enemy files..." ;;
  table ← load_global "ENEMIES";
  n ← len table;
  print ("Total enemies to create: " +:+ str_of_int n) ;;
  table ← load_global "ENEMIES";
  entries ← items table;
  for_each entries (λ '(enemy_id, enemy_data), create_enemy_json enemy_id enemy_data) ;;
  table ← load_global "ENEMIES";
  n ← len table;
  print (lit "\nSuccessfully created " +:+ str_of_int n +:+ " enemy files!").

Definition script : M unit :=
  store_global "ENEMIES" ENEMIES ;;
  main.
End generate_missing_undertale_enemies.

(** ** The five generators *)

Inductive script_id : Type :=
| bosses_old
| deltarune_bosses
| deltarune_enemies
| enemies
| missing_undertale_enemies.

Definition scripts : list script_id :=
  [bosses_old; deltarune_bosses; deltarune_enemies; enemies; missing_undertale_enemies].

Definition body (s : script_id) : M unit :=
  match s with
  | bosses_old => generate_bosses_old.script
  | deltarune_bosses => generate_deltarune_bosses.script
  | deltarune_enemies => generate_deltarune_enemies.script
  | enemies => generate_enemies.script
  | missing_undertale_enemies => generate_missing_undertale_enemies.script
  end.

(** The tables of a script, as its top-level statements bind them. *)
Definition tables (s : script_id) : pydict :=
  match s with
  | bosses_old => [("BOSSES", generate_bosses_old.BOSSES)]
  | deltarune_bosses => [("bosses", generate_deltarune_bosses.bosses)]
  | deltarune_enemies =>
      [("ch1_enemies", generate_deltarune_enemies.ch1_enemies);
       ("ch2_enemies", generate_deltarune_enemies.ch2_enemies)]
  | enemies => [("ENEMIES", generate_enemies.ENEMIES)]
  | missing_undertale_enemies => [("ENEMIES", generate_missing_undertale_enemies.ENEMIES)]
  end.

(** The entities of a table, each with its key when the table is a dict. *)
Definition entities_of (table : pyval) : list (option string * pyval) :=
  match table with
  | PDict d => map (λ kv, (Some kv.1, kv.2)) d
  | PList l => map (λ r, (None, r)) l
  | _ => []
  end.

Definition entities (s : script_id) : list (option string * pyval) :=
  flat_map (λ kv, entities_of kv.2) (tables s).

Definition records (s : script_id) : list pyval := map snd (entities s).

(** What the interpreter makes of a script: the calls it issues and the
    globals it ends with. *)
Definition final_state (s : script_id) : state :=
  match body s (State [] []) with
  | Done _ st => st
  | Raised _ st => st
  end.

Definition issued (s : script_id) : list syscall := calls (final_state s).

Definition dumps_of (cs : list syscall) : list (string * pyval) :=
  flat_map (λ c, match c with Dump p obj _ => [(p, obj)] | _ => [] end) cs.

(** The objects a script dumps, each with the path it is dumped to. *)
Definition dumped (s : script_id) : list (string * pyval) := dumps_of (issued s).

(** The text of each file a sequence of calls writes. *)
Definition writes (cs : list syscall) : list (string * string) :=
  flat_map (λ c, match c with Dump p obj i => [(p, Json.dumps obj i)] | _ => [] end) cs.

Definition prints (cs : list syscall) : list string :=
  flat_map (λ c, match c with Print l => [l] | _ => [] end) cs.

Definition apply_writes (ws : list (string * string)) (fm : gmap string string)
  : gmap string string :=
  foldl (λ fm w, <[w.1 := w.2]> fm) fm ws.

(** [p] holds the JSON text of [obj]. *)
Definition holds (m : machine) (p : string) (obj : pyval) : Prop :=
  ∃ text, files m !! p = Some text ∧ Json.loads text = Some obj.

Definition empty_machine : machine := Machine ∅ ∅ [].

(** Field access on a value that may not be a dict. *)
Definition field (o : pyval) (k : string) : option pyval :=
  match o with
  | PDict d => dict_get d k
  | _ => None
  end.

Definition elements_of (o : pyval) : list pyval :=
  match o with
  | PList l => l
  | _ => []
  end.

(** *** Running again

    [later m m'] relates a machine to what calls make of it: directories
    and files stay, no directory is made where a file was, and no file is
    written where a directory was. *)
Record later (m m' : machine) : Prop := {
  later_dirs : ∀ p, isdir m p = true → isdir m' p = true;
  later_files : ∀ p, isfile m p = true → isfile m' p = true;
  later_new_dir : ∀ p, isdir m' p = true → isdir m p = false → isfile m p = false;
  later_new_file : ∀ p, isfile m' p = true → isfile m p = false → isdir m p = false
}.

(** ** Deciding properties of values *)

Fixpoint pyval_eqb (a b : pyval) : bool :=
  match a, b with
  | PNone, PNone => true
  | PBool x, PBool y => Bool.eqb x y
  | PInt x, PInt y => Z.eqb x y
  | PFloat m e, PFloat m' e' => Z.eqb m m' && Nat.eqb e e'
  | PStr s, PStr t => String.eqb s t
  | PList l, PList l' =>
      (fix go (l l' : list pyval) : bool :=
         match l, l' with
         | [], [] => true
         | x :: l, y :: l' => pyval_eqb x y && go l l'
         | _, _ => false
         end) l l'
  | PDict d, PDict d' =>
      (fix go (d d' : pydict) : bool :=
         match d, d' with
         | [], [] => true
         | (k, x) :: d, (k', y) :: d' => String.eqb k k' && pyval_eqb x y && go d d'
         | _, _ => false
         end) d d'
  | _, _ => false
  end.

(** The scripts other than generate_enemies.py finish on a machine that has
    no file and no directory yet; generate_enemies.py finishes where its
    output directory exists. *)
Definition enemies_machine : machine :=
  Machine {[generate_enemies.OUTPUT_DIR]} ∅ [].

Definition start (s : script_id) : machine :=
  match s with
  | enemies => enemies_machine
  | _ => empty_machine
  end.

Definition finish (s : script_id) : machine :=
  match exec (issued s) (start s) with
  | inr m' => m'
  | inl (_, m') => m'
  end.

(** ** The Toriel scenario *)

Definition toriel_path : string :=
  "/workspaces/Under-Delta-Tale-Rune-Fight-Sim/data/enemies/bosses/toriel.json".

(** What the scenario asks of the record read back from the file. *)
Definition toriel_expected (record : pyval) : Prop :=
  field record "hp" = Some (PInt 440)
  ∧ field record "attack" = Some (PInt 6)
  ∧ field record "defense" = Some (PInt 1)
  ∧ ∃ pattern waves,
      field record "attackPatterns" = Some (PList [pattern])
      ∧ field pattern "name" = Some (PStr "Fire Magic")
      ∧ field pattern "waves" = Some (PList waves)
      ∧ map (λ w, field w "time") waves
        = [Some (PInt 0); Some (PInt 1000); Some (PInt 2000); Some (PInt 3000)].

(** ** Conventions of the tables *)

(** The acts of [record] are a non-empty list whose first element is the
    action named "Check". *)
Definition starts_with_check (record : pyval) : Prop :=
  ∃ first rest,
    field record "acts" = Some (PList (first :: rest))
    ∧ field first "name" = Some (PStr "Check").

Definition starts_with_checkb (record : pyval) : bool :=
  match field record "acts" with
  | Some (PList (first :: _)) => pyval_eqb (default PNone (field first "name")) (PStr "Check")
  | _ => false
  end.

(** The mercyIncrease of [act], when it has one, is an int from 0 to 100. *)
Definition mercy_in_range (act : pyval) : Prop :=
  ∀ v, field act "mercyIncrease" = Some v → ∃ n, v = PInt n ∧ (0 ≤ n ≤ 100)%Z.

Definition acts_in_range (record : pyval) : Prop :=
  ∃ acts, field record "acts" = Some (PList acts) ∧ Forall mercy_in_range acts.

Definition mercy_in_rangeb (act : pyval) : bool :=
  match field act "mercyIncrease" with
  | Some (PInt n) => (0 <=? n)%Z && (n <=? 100)%Z
  | Some _ => false
  | None => true
  end.

Definition acts_in_rangeb (record : pyval) : bool :=
  match field record "acts" with
  | Some (PList acts) => forallb mercy_in_rangeb acts
  | _ => false
  end.

(** The number of acts of the tables that carry a mercyIncrease. *)
Definition with_mercy (s : script_id) : nat :=
  length (filter (λ act, is_Some (field act "mercyIncrease"))
            (flat_map (λ r, elements_of (default PNone (field r "acts"))) (records s))).

(** Every wave of the patterns of [obj] has a time from 0 to the duration of
    its pattern. *)
Definition wave_in_time (duration : Z) (wave : pyval) : Prop :=
  ∃ t, field wave "time" = Some (PInt t) ∧ (0 ≤ t ≤ duration)%Z.

Definition pattern_in_time (pattern : pyval) : Prop :=
  ∃ duration waves,
    field pattern "duration" = Some (PInt duration)
    ∧ field pattern "waves" = Some (PList waves)
    ∧ Forall (wave_in_time duration) waves.

Definition waves_in_time (obj : pyval) : Prop :=
  ∃ patterns, field obj "attackPatterns" = Some (PList patterns)
              ∧ Forall pattern_in_time patterns.

Definition wave_in_timeb (duration : Z) (wave : pyval) : bool :=
  match field wave "time" with
  | Some (PInt t) => (0 <=? t)%Z && (t <=? duration)%Z
  | _ => false
  end.

Definition pattern_in_timeb (pattern : pyval) : bool :=
  match field pattern "duration", field pattern "waves" with
  | Some (PInt duration), Some (PList waves) => forallb (wave_in_timeb duration) waves
  | _, _ => false
  end.

Definition waves_in_timeb (obj : pyval) : bool :=
  match field obj "attackPatterns" with
  | Some (PList patterns) => forallb pattern_in_timeb patterns
  | _ => false
  end.

(** The number of waves in the patterns of the dumped objects. *)
Definition wave_count (s : script_id) : nat :=
  length (flat_map (λ pattern, elements_of (default PNone (field pattern "waves")))
            (flat_map (λ o, elements_of (default PNone (field o "attackPatterns")))
               (dumped s).*2)).

(** ** The sprites field *)

(** The sprites of [obj] map each animation state to a list of strings. *)
Definition frames_listed (obj : pyval) : Prop :=
  ∃ sprites,
    field obj "sprites" = Some (PDict sprites)
    ∧ Forall (λ kv, ∃ paths, kv.2 = PList paths
                             ∧ Forall (λ v, ∃ path, v = PStr path) paths) sprites.

(** The sprites of [obj] map "idle" to one string. *)
Definition frame_single (obj : pyval) : Prop :=
  ∃ path, field obj "sprites" = Some (PDict [("idle", PStr path)]).

Definition is_strb (v : pyval) : bool :=
  match v with
  | PStr _ => true
  | _ => false
  end.

Definition frames_listedb (obj : pyval) : bool :=
  match field obj "sprites" with
  | Some (PDict sprites) =>
      forallb (λ kv, match kv.2 with
                     | PList paths => forallb is_strb paths
                     | _ => false
                     end) sprites
  | _ => false
  end.

Definition frame_singleb (obj : pyval) : bool :=
  match field obj "sprites" with
  | Some (PDict [(state, PStr _)]) => String.eqb state "idle"
  | _ => false
  end.

(** The claim as the specification states it. *)
Definition sprites_are_sequences : Prop :=
  ∀ s m g m', run (body s) m = Finished g m' →
    Forall (λ po, holds m' po.1 po.2 ∧ frames_listed po.2) (dumped s).

(** What each generator writes. *)
Definition sprites_shape (s : script_id) (obj : pyval) : Prop :=
  match s with
  | deltarune_bosses | deltarune_enemies => frame_single obj
  | bosses_old | enemies | missing_undertale_enemies => frames_listed obj
  end.

(** ** One file per record *)

(** The patterns generate_enemies.create_enemy_json gives a record that has
    none. *)
Definition default_attackPatterns : pyval :=
  PList [
    PDict [
      ("name", str "Default Attack");
      ("duration", int 4000);
      ("waves", PList [
        PDict [("time", int 0); ("type", str "projectiles"); ("count", int 5); ("speed", int 2); ("size", int 15); ("side", str "top")];
        PDict [("time", int 1500); ("type", str "projectiles"); ("count", int 4); ("speed", float 2.5); ("size", int 15); ("side", str "left")];
        PDict [("time", int 2500); ("type", str "projectiles"); ("count", int 4); ("speed", float 2.5); ("size", int 15); ("side", str "right")]
      ])
    ]
  ].

(** The field names of a descriptor, in the order the Deltarune generators
    write them. *)
Definition descriptor_fields : list string :=
  ["name"; "hp"; "attack"; "defense"; "gold"; "exp"; "spareThreshold";
   "dialogue"; "checkText"; "sprites"; "acts"; "attackPatterns"].

Definition keys_of (o : pyval) : list string :=
  match o with
  | PDict d => dict_keys d
  | _ => []
  end.

(** [obj] has the fields [keys] of [record], with their values. *)
Definition copied (keys : list string) (record obj : pyval) : Prop :=
  Forall (λ k, is_Some (field record k) ∧ field obj k = field record k) keys.

(** [obj] lacks the fields [keys] that [record] has. *)
Definition dropped (keys : list string) (record obj : pyval) : Prop :=
  Forall (λ k, is_Some (field record k) ∧ field obj k = None) keys.

(** How the object a script dumps for a record of its table relates to the
    record. *)
Definition describes (s : script_id) (record obj : pyval) : Prop :=
  match s with
  | bosses_old | missing_undertale_enemies => obj = record
  | enemies =>
      ∃ d, record = PDict d
           ∧ dict_contains d "attackPatterns" = false
           ∧ obj = PDict (d ++ [("attackPatterns", default_attackPatterns)])
  | deltarune_bosses =>
      keys_of obj = descriptor_fields
      ∧ copied ["name"; "hp"; "attack"; "defense"; "dialogue"; "checkText"; "acts";
                "attackPatterns"] record obj
      ∧ dropped ["chapter"; "folder"] record obj
  | deltarune_enemies =>
      keys_of obj = descriptor_fields
      ∧ copied ["name"; "hp"; "attack"; "defense"; "dialogue"; "acts"] record obj
      ∧ dropped ["folder"] record obj
  end.

Definition copiedb (keys : list string) (record obj : pyval) : bool :=
  forallb (λ k, match field record k, field obj k with
                | Some v, Some v' => pyval_eqb v' v
                | _, _ => false
                end) keys.

Definition droppedb (keys : list string) (record obj : pyval) : bool :=
  forallb (λ k, match field record k, field obj k with
                | Some _, None => true
                | _, _ => false
                end) keys.

Definition describesb (s : script_id) (record obj : pyval) : bool :=
  match s with
  | bosses_old | missing_undertale_enemies => pyval_eqb obj record
  | enemies =>
      match record with
      | PDict d =>
          negb (dict_contains d "attackPatterns")
          && pyval_eqb obj (PDict (d ++ [("attackPatterns", default_attackPatterns)]))
      | _ => false
      end
  | deltarune_bosses =>
      bool_decide (keys_of obj = descriptor_fields)
      && copiedb ["name"; "hp"; "attack"; "defense"; "dialogue"; "checkText"; "acts";
                  "attackPatterns"] record obj
      && droppedb ["chapter"; "folder"] record obj
  | deltarune_enemies =>
      bool_decide (keys_of obj = descriptor_fields)
      && copiedb ["name"; "hp"; "attack"; "defense"; "dialogue"; "acts"] record obj
      && droppedb ["folder"] record obj
  end.

Fixpoint forall2b {A B} (f : A → B → bool) (l : list A) (k : list B) : bool :=
  match l, k with
  | [], [] => true
  | a :: l', b :: k' => f a b && forall2b f l' k'
  | _, _ => false
  end.

(** The claim as the specification states it: each record of the table is
    the JSON of exactly one file. *)
Definition round_trip_identity : Prop :=
  ∀ s m g m', run (body s) m = Finished g m' →
    ∀ record, record ∈ records s →
      ∃ p, holds m' p record ∧ ∀ q, holds m' q record → q = p.

(** ** File names *)

(** A normalization rule: what stands for a space, for an apostrophe and for
    a hyphen (the empty string when the character is removed). *)
Record rule : Type := Rule {
  for_space : string;
  for_apostrophe : string;
  for_hyphen : string
}.

Fixpoint substitute (r : rule) (s : string) : string :=
  match s with
  | EmptyString => EmptyString
  | String c s' =>
      if Ascii.eqb c " " then for_space r +:+ substitute r s'
      else if Ascii.eqb c "'" then for_apostrophe r +:+ substitute r s'
      else if Ascii.eqb c "-" then for_hyphen r +:+ substitute r s'
      else String c (substitute r s')
  end.

(** The display name in lower case, its spaces, apostrophes and hyphens
    removed or replaced as the rule tells. *)
Definition normalize (r : rule) (name : string) : string := substitute r (lower name).

Definition basename (p : string) : string := (split p).2.

(** The claim as the specification states it: each script has a rule by
    which the name of every file it writes is the normalized display name
    of the entity. *)
Definition named_after_display_name : Prop :=
  ∀ s, ∃ r,
    Forall (λ po, ∃ name, field po.2 "name" = Some (PStr name)
                          ∧ basename po.1 = normalize r name +:+ ".json") (dumped s).

(** The rules of the Deltarune generators: both put an underscore for a
    space and for a hyphen; the boss generator removes apostrophes, the
    enemy generator keeps them. *)
Definition bosses_rule : rule := Rule "_" "" "_".
Definition enemies_rule : rule := Rule "_" "'" "_".

(** The path of the file a script writes for an entity of its table: named
    after the key of the entity in the Undertale generators, after its
    display name in the Deltarune generators. *)
Definition file_path (s : script_id) (e : option string * pyval) : option string :=
  match s, e with
  | bosses_old, (Some id, _) =>
      Some (join generate_bosses_old.OUTPUT_DIR (id +:+ ".json"))
  | enemies, (Some id, _) =>
      Some (join generate_enemies.OUTPUT_DIR (id +:+ ".json"))
  | missing_undertale_enemies, (Some id, _) =>
      Some (join "data/enemies" (id +:+ ".json"))
  | deltarune_bosses, (None, PDict d) =>
      match dict_get d "name" with
      | Some (PStr name) =>
          Some (join "data/enemies/deltarune/bosses" (normalize bosses_rule name +:+ ".json"))
      | _ => None
      end
  | deltarune_enemies, (None, PDict d) =>
      match dict_get d "name" with
      | Some (PStr name) =>
          Some (join "data/enemies/deltarune" (normalize enemies_rule name +:+ ".json"))
      | _ => None
      end
  | _, _ => None
  end.

(** ** Running twice *)

(** The line a script prints for the file it has written to [p]. *)
Definition created (s : script_id) (p : string) : string :=
  match s with
  | deltarune_bosses | deltarune_enemies => "Generated: " +:+ p
  | _ => "Created " +:+ p
  end.

(** The number of lines a script prints before its loop. *)
Definition header_lines (s : script_id) : nat :=
  match s with
  | missing_undertale_enemies => 2
  | _ => 1
  end.

(** The entity [e] of the table and the dump [po] made for it: the dump goes
    to the file of the entity and is of the object that describes it. *)
Definition dump_of_entity (s : script_id) (e : option string * pyval)
    (po : string * pyval) : Prop :=
  file_path s e = Some po.1 ∧ describes s e.2 po.2.

Definition dump_of_entityb (s : script_id) (e : option string * pyval)
    (po : string * pyval) : bool :=
  match file_path s e with
  | Some p => String.eqb p po.1
  | None => false
  end && describesb s e.2 po.2.

(** A machine that has been used: the output directory of
    generate_missing_undertale_enemies.py is there, one of the files of the
    script holds an old text, and there are a file and a line of another
    program. *)
Definition used_machine : machine :=
  Machine {["data"; "data/enemies"]}
          {["data/enemies/temmie.json" := "stale"; "notes.txt" := "kept"]}
          ["earlier"].

Definition used_finish : machine :=
  match exec (issued missing_undertale_enemies) used_machine with
  | inr m' => m'
  | inl (_, m') => m'
  end.

(** ** The tables after a run *)

(** The claim as the specification states it: the tables are, after the
    run, the literals they were built from. *)
Definition tables_untouched : Prop :=
  ∀ s m g m', run (body s) m = Finished g m' → g = tables s.

Definition add_default (record : pyval) : pyval :=
  match record with
  | PDict d => PDict (d ++ [("attackPatterns", default_attackPatterns)])
  | v => v
  end.

(** The tables as a run leaves them. *)
Definition tables_after (s : script_id) : pydict :=
  match s with
  | enemies =>
      match generate_enemies.ENEMIES with
      | PDict t => [("ENEMIES", PDict (map (λ kv, (kv.1, add_default kv.2)) t))]
      | _ => []
      end
  | _ => tables s
  end.

(** ** The output directory of generate_enemies.py *)

Definition froggit_path : string :=
  "/workspaces/Under-Delta-Tale-Rune-Fight-Sim/data/enemies/froggit.json".

(** ** generate_enemies.create_enemy_json on any table *)

(** The record as create_enemy_json leaves it. *)
Definition patched (d : pydict) : pydict :=
  if dict_contains d "attackPatterns" then d
  else d ++ [("attackPatterns", default_attackPatterns)].

Definition enemy_path (enemy_id : string) : string :=
  join generate_enemies.OUTPUT_DIR (enemy_id +:+ ".json").

Definition small_table : pydict :=
  [("froggit", PDict [("name", PStr "Froggit"); ("hp", PInt 30)]);
   ("whimsun", PDict [("name", PStr "Whimsun"); ("attackPatterns", PList [])])].

(** ** generate_enemies.main on any table *)




(** ** generate_bosses_old.main on any table *)










(** ** generate_deltarune_bosses.generate_boss_json on any record *)

(** The fields generate_boss_json reads. *)
Definition boss_required : list string :=
  ["name"; "chapter"; "folder"; "hp"; "attack"; "defense"; "dialogue"; "checkText";
   "acts"; "attackPatterns"].

(** The file name generate_boss_json derives from a display name. *)
Definition boss_file (name : string) : string :=
  replace "-" "_" (replace "'" "" (replace " " "_" (lower name))) +:+ ".json".

(** A value an f-string can format in the model: a scalar. *)
Definition scalar (v : pyval) : bool :=
  match v with
  | PList _ | PDict _ => false
  | _ => true
  end.

(** A scalar whose text in an f-string is the one [text_of] gives: a str,
    a bool, None, or an int within the default limit of the conversion of
    an int to a str (4300 digits). *)
Definition formats_exactly (v : pyval) : bool :=
  match v with
  | PStr _ | PBool _ | PNone => true
  | PInt n => (Z.abs n <? 10 ^ 4300)%Z
  | _ => false
  end.

(** A str of ASCII characters, on which [lower] and [upper] are the str
    methods. *)
Definition ascii_only (s : string) : Prop :=
  Forall (λ c, (N_of_ascii c < 128)%N) (list_ascii_of_string s).

Definition ascii_onlyb (s : string) : bool :=
  forallb (λ c, (N_of_ascii c <? 128)%N) (list_ascii_of_string s).

Definition text_of (v : pyval) : string :=
  match v with
  | PStr s => s
  | PInt n => str_of_int n
  | PFloat m e => float_repr m e
  | PBool true => "True"
  | PBool false => "False"
  | _ => "None"
  end.

Definition sample_boss : pydict :=
  [("name", PStr "Sweet Cap'n Cakes"); ("chapter", PStr "Ch2"); ("folder", PStr "Sweet");
   ("hp", PInt 1); ("attack", PInt 2); ("defense", PInt 3); ("gold", PInt 500);
   ("dialogue", PList []); ("checkText", PStr "x"); ("acts", PList []);
   ("attackPatterns", PList [])].

(** ** The file names of the Deltarune generators *)

(** [c] is no capital ASCII letter. *)
Definition not_capital (c : ascii) : Prop :=
  (N_of_ascii c < 65 ∨ 90 < N_of_ascii c)%N.

Definition not_capitalb (c : ascii) : bool :=
  (N_of_ascii c <? 65)%N || (90 <? N_of_ascii c)%N.

(** The name generate_enemy_json derives from a display name. *)
Definition enemy_file (name : string) : string :=
  replace "-" "_" (replace " " "_" (lower name)) +:+ ".json".

(** ** generate_deltarune_enemies.generate_enemy_json on any record *)

(** The fields generate_enemy_json reads. *)
Definition enemy_required : list string :=
  ["name"; "folder"; "hp"; "attack"; "defense"; "dialogue"; "acts"].

(** The patterns generate_enemy_json writes for every enemy. *)
Definition deltarune_default_patterns : pyval :=
  PList [
    PDict [
      ("name", str "Default Attack");
      ("duration", int 4000);
      ("waves", PList [
        PDict [("time", int 0); ("type", str "projectiles"); ("count", int 5); ("speed", float 2.5); ("size", int 15); ("side", str "top")];
        PDict [("time", int 1500); ("type", str "projectiles"); ("count", int 4); ("speed", int 3); ("size", int 15); ("side", str "left")]
      ])
    ]
  ].

(** The directory of sprites: Ch1 for the chapter "ch1", Ch2 for any other. *)
Definition enemy_sprite_base (chapter folder : string) : string :=
  if String.eqb chapter "ch1"
  then "Deltarune Sprites/Characters/Enemies/Ch1/" +:+ folder +:+ "/"
  else "Deltarune Sprites/Characters/Enemies/Ch2/" +:+ folder +:+ "/".

Definition sample_enemy : pydict :=
  [("name", PStr "Ambyu-Lance"); ("hp", PInt 270); ("attack", PInt 9); ("defense", PInt 2);
   ("folder", PStr "Ambyu Lance"); ("dialogue", PList []); ("acts", PList []);
   ("checkText", PStr "its own text"); ("attackPatterns", PList [])].

(** ** generate_missing_undertale_enemies.create_enemy_json on any machine *)




(** ** Two display names, one file *)

(** A display name with its letters in lower case and its hyphens read as
    spaces. *)
Definition fold_name (name : string) : string := lower (replace "-" " " name).

Definition sample_boss_hyphen : pydict :=
  [("name", PStr "tasque-manager"); ("chapter", PStr "Ch2"); ("folder", PStr "T");
   ("hp", PInt 1); ("attack", PInt 1); ("defense", PInt 1); ("dialogue", PList []);
   ("checkText", PStr "x"); ("acts", PList []); ("attackPatterns", PList [])].

Definition sample_boss_spaced : pydict :=
  [("name", PStr "Tasque Manager"); ("chapter", PStr "Ch2"); ("folder", PStr "T");
   ("hp", PInt 2); ("attack", PInt 2); ("defense", PInt 2); ("dialogue", PList []);
   ("checkText", PStr "y"); ("acts", PList []); ("attackPatterns", PList [])].

Definition state_after (r : result unit) : state :=
  match r with Done _ st => st | Raised _ st => st end.

(** * Proofs *)

Implicit Types (m : machine) (cs : list syscall) (p : string).

(** ** Performing calls *)

Lemma mkdir_chain_files ps m m' :
  mkdir_chain ps m = inr m' → files m' = files m ∧ stdout m' = stdout m.
Proof.
  revert m. induction ps as [|p ps IH]; intros m H; simpl in H.
  - by inversion H.
  - destruct (isdir m p); [by apply IH|].
    destruct (isfile m p); [done|].
    by apply IH in H.
Qed.

Lemma perform_files c m m' :
  perform c m = inr m' →
  files m' = apply_writes (writes [c]) (files m).
Proof.
  destruct c as [p|p obj i|l]; simpl; intros H.
  - by apply mkdir_chain_files in H as [-> _].
  - unfold write_file in H. repeat case_match; try done. by inversion H.
  - by inversion H.
Qed.

Lemma perform_stdout c m m' :
  perform c m = inr m' → stdout m' = stdout m ++ prints [c].
Proof.
  destruct c as [p|p obj i|l]; simpl; intros H.
  - apply mkdir_chain_files in H as [_ ->]. by rewrite app_nil_r.
  - unfold write_file in H. repeat case_match; try done.
    inversion H; simpl. by rewrite app_nil_r.
  - by inversion H.
Qed.

Lemma writes_cons c cs : writes (c :: cs) = writes [c] ++ writes cs.
Proof. unfold writes; simpl. by rewrite app_nil_r. Qed.

Lemma prints_cons c cs : prints (c :: cs) = prints [c] ++ prints cs.
Proof. unfold prints; simpl. by rewrite app_nil_r. Qed.

Lemma apply_writes_app ws1 ws2 fm :
  apply_writes (ws1 ++ ws2) fm = apply_writes ws2 (apply_writes ws1 fm).
Proof. apply foldl_app. Qed.

(** A run that does not raise leaves the files the calls write, over the
    files there were, and has printed the lines the calls print. *)
Lemma exec_files cs m m' :
  exec cs m = inr m' → files m' = apply_writes (writes cs) (files m).
Proof.
  revert m. induction cs as [|c cs IH]; intros m H; simpl in H.
  - by inversion H.
  - destruct (perform c m) as [e|m1] eqn:Hc; [done|].
    apply IH in H. apply perform_files in Hc.
    by rewrite writes_cons, apply_writes_app, <- Hc.
Qed.

Lemma exec_stdout cs m m' :
  exec cs m = inr m' → stdout m' = stdout m ++ prints cs.
Proof.
  revert m. induction cs as [|c cs IH]; intros m H; simpl in H.
  - inversion H. by rewrite app_nil_r.
  - destruct (perform c m) as [e|m1] eqn:Hc; [done|].
    apply IH in H. apply perform_stdout in Hc.
    by rewrite prints_cons, H, Hc, app_assoc.
Qed.

Lemma apply_writes_notin ws fm p :
  p ∉ ws.*1 → apply_writes ws fm !! p = fm !! p.
Proof.
  revert fm. induction ws as [|[q c] ws IH]; intros fm Hp; [done|].
  simpl in *. apply not_elem_of_cons in Hp as [Hne Hp].
  rewrite IH by done. by rewrite lookup_insert_ne.
Qed.

(** Among writes to distinct paths, each decides the text of its path. *)
Lemma apply_writes_lookup ws fm p c :
  NoDup ws.*1 → (p, c) ∈ ws → apply_writes ws fm !! p = Some c.
Proof.
  revert fm. induction ws as [|[q c'] ws IH]; intros fm Hnd Hin.
  - by apply elem_of_nil in Hin.
  - simpl in *. apply NoDup_cons in Hnd as [Hq Hnd].
    apply elem_of_cons in Hin as [Heq|Hin].
    + inversion Heq; subst. rewrite apply_writes_notin by done.
      apply lookup_insert_eq.
    + by apply IH.
Qed.

(** A text found after the writes was written by one, or was there. *)
Lemma apply_writes_inv ws fm p c :
  apply_writes ws fm !! p = Some c → (p, c) ∈ ws ∨ fm !! p = Some c.
Proof.
  revert fm. induction ws as [|[q c'] ws IH]; intros fm H; [by right|].
  simpl in H. apply IH in H as [H|H].
  - left. by apply elem_of_cons; right.
  - destruct (decide (q = p)) as [->|Hne].
    + rewrite lookup_insert_eq in H. inversion H. left. apply elem_of_cons. by left.
    + rewrite lookup_insert_ne in H by done. by right.
Qed.

(** Writing the same texts again changes nothing. *)
Lemma apply_writes_twice ws fm :
  apply_writes ws (apply_writes ws fm) = apply_writes ws fm.
Proof.
  apply map_eq. intros p.
  assert (Hgen : ∀ ws' fm1 fm2,
    (∀ q, q ∉ ws'.*1 → fm1 !! q = fm2 !! q) →
    ∀ q, apply_writes ws' fm1 !! q = apply_writes ws' fm2 !! q).
  { induction ws' as [|[q c] ws' IH]; intros fm1 fm2 H q'; simpl.
    - apply H. apply not_elem_of_nil.
    - apply IH. intros r Hr. destruct (decide (q = r)) as [->|Hne].
      + by rewrite !lookup_insert_eq.
      + rewrite !lookup_insert_ne by done. apply H.
        simpl. apply not_elem_of_cons. by split. }
  apply Hgen. intros q Hq. by apply apply_writes_notin.
Qed.

Lemma later_refl m : later m m.
Proof. split; intros p; congruence. Qed.

Lemma later_same m m' : dirs m' = dirs m → files m' = files m → later m m'.
Proof.
  intros Hd Hf. split; intros p; unfold isdir, isfile; rewrite ?Hd, ?Hf; congruence.
Qed.

Lemma later_trans m1 m2 m3 : later m1 m2 → later m2 m3 → later m1 m3.
Proof.
  intros [d1 f1 nd1 nf1] [d2 f2 nd2 nf2]. split; intros p.
  - auto.
  - auto.
  - intros H3 H1. destruct (isdir m2 p) eqn:H2; [by apply nd1|].
    specialize (nd2 p H3 H2). destruct (isfile m1 p) eqn:Hf; [|done].
    apply f1 in Hf. congruence.
  - intros H3 H1. destruct (isfile m2 p) eqn:H2; [by apply nf1|].
    specialize (nf2 p H3 H2). destruct (isdir m1 p) eqn:Hd; [|done].
    apply d1 in Hd. congruence.
Qed.

Lemma isdir_add m q p :
  isdir (Machine ({[q]} ∪ dirs m) (files m) (stdout m)) p
  = bool_decide (p = q) || isdir m p.
Proof.
  unfold isdir; simpl.
  destruct (String.eqb p ""), (String.eqb p "/"); simpl;
    try by rewrite orb_true_r.
  apply eq_true_iff_eq.
  rewrite orb_true_iff, !bool_decide_eq_true. set_solver.
Qed.

Lemma isfile_write m q c p :
  isfile (Machine (dirs m) (<[q := c]> (files m)) (stdout m)) p
  = bool_decide (p = q) || isfile m p.
Proof.
  unfold isfile; simpl. apply eq_true_iff_eq.
  rewrite orb_true_iff, !bool_decide_eq_true.
  destruct (decide (p = q)) as [->|Hne].
  - rewrite lookup_insert_eq. split; [by left|by eauto].
  - rewrite lookup_insert_ne by done. split; [by right|by intros [?|?]].
Qed.

Lemma mkdir_chain_later ps m m' :
  mkdir_chain ps m = inr m' →
  later m m' ∧ ∀ p, p ∈ ps → isdir m' p = true.
Proof.
  revert m. induction ps as [|q ps IH]; intros m H; simpl in H.
  - inversion H; subst. split; [apply later_refl|]. by intros p ?%elem_of_nil.
  - destruct (isdir m q) eqn:Hd.
    { apply IH in H as [Hl Hps]. split; [done|].
      intros p [->|Hp]%elem_of_cons; [|by apply Hps].
      by apply Hl. }
    destruct (isfile m q) eqn:Hf; [done|].
    apply IH in H as [Hl Hps].
    assert (Hstep : later m (Machine ({[q]} ∪ dirs m) (files m) (stdout m))).
    { split; intros p.
      - rewrite isdir_add. intros ->. apply orb_true_r.
      - done.
      - rewrite isdir_add. intros [->%bool_decide_eq_true|H1]%orb_true_iff;
          [done|congruence].
      - unfold isfile; simpl. congruence. }
    split; [by eapply later_trans|].
    intros p [->|Hp]%elem_of_cons; [|by apply Hps].
    apply Hl. rewrite isdir_add. by rewrite bool_decide_eq_true_2.
Qed.

Lemma write_file_later p c m m' :
  write_file p c m = inr m' →
  later m m' ∧ isfile m' p = true ∧ isdir m' p = false
  ∧ isdir m' (dirname p) = true ∧ isfile m' (dirname p) = false.
Proof.
  unfold write_file. intros H.
  destruct (isdir m p) eqn:Hd; [done|].
  destruct (isfile m (dirname p)) eqn:Hpf; [done|].
  destruct (isdir m (dirname p)) eqn:Hpd; [|done].
  inversion H; subst; clear H. split_and!; try done.
  - split; intros q.
    + done.
    + rewrite isfile_write. intros ->. apply orb_true_r.
    + unfold isdir; simpl. congruence.
    + rewrite isfile_write. intros [->%bool_decide_eq_true|H1]%orb_true_iff;
        [done|congruence].
  - rewrite isfile_write. by rewrite bool_decide_eq_true_2.
  - rewrite isfile_write, Hpf, orb_false_r. apply bool_decide_eq_false.
    intros Heq. rewrite Heq in Hpd. congruence.
Qed.

Lemma perform_later c m m' : perform c m = inr m' → later m m'.
Proof.
  destruct c as [p|p obj i|l]; simpl; intros H.
  - by apply mkdir_chain_later in H as [? _].
  - by apply write_file_later in H as [? _].
  - inversion H. by apply later_same.
Qed.

Lemma exec_later cs m m' : exec cs m = inr m' → later m m'.
Proof.
  revert m. induction cs as [|c cs IH]; intros m H; simpl in H.
  - inversion H. apply later_refl.
  - destruct (perform c m) as [e|m1] eqn:Hc; [done|].
    eapply later_trans; [by eapply perform_later|by apply IH].
Qed.

Lemma mkdir_chain_present ps m :
  (∀ p, p ∈ ps → isdir m p = true) → mkdir_chain ps m = inr m.
Proof.
  induction ps as [|q ps IH]; intros H; [done|]. simpl.
  rewrite H by (apply elem_of_cons; by left).
  apply IH. intros p Hp. apply H. apply elem_of_cons. by right.
Qed.

Lemma later_same_r m m1 m2 :
  later m m1 → dirs m2 = dirs m1 → files m2 = files m1 → later m m2.
Proof.
  intros Hl Hd Hf. eapply later_trans; [done|]. by apply later_same.
Qed.

(** A machine that is later than [m] stays so when a file that [m] has is
    written again. *)
Lemma later_rewrite m m2 p c :
  later m m2 → isfile m p = true →
  later m (Machine (dirs m2) (<[p := c]> (files m2)) (stdout m2)).
Proof.
  intros [d f nd nf] Hp. split; intros q.
  - apply d.
  - intros Hq. rewrite isfile_write, (f _ Hq). apply orb_true_r.
  - unfold isdir at 1; simpl. apply nd.
  - rewrite isfile_write.
    intros [->%bool_decide_eq_true|H1]%orb_true_iff; [congruence|by apply nf].
Qed.

(** A call that went through on [m] goes through on any machine [m2] that
    is later than what the call made of [m].  It makes no directory there,
    and writes no file that a machine between the two does not have. *)
Lemma perform_again c m m1 m2 :
  perform c m = inr m1 → later m1 m2 →
  ∃ m3, perform c m2 = inr m3 ∧ dirs m3 = dirs m2
        ∧ files m3 = apply_writes (writes [c]) (files m2)
        ∧ ∀ m', later m1 m' → later m' m2 → later m' m3.
Proof.
  destruct c as [p|p obj i|l]; simpl; intros H Hl.
  - apply mkdir_chain_later in H as [_ Hps].
    exists m2. split_and!; try done.
    apply mkdir_chain_present. intros q Hq. by apply Hl, Hps.
  - apply write_file_later in H as (Hl1 & Hf & Hd & Hpd & Hpf).
    unfold write_file.
    assert (isdir m2 p = false) as ->.
    { destruct (isdir m2 p) eqn:H2; [|done].
      pose proof (later_new_dir _ _ Hl p H2 Hd). congruence. }
    assert (isfile m2 (dirname p) = false) as ->.
    { destruct (isfile m2 (dirname p)) eqn:H2; [|done].
      pose proof (later_new_file _ _ Hl _ H2 Hpf). congruence. }
    rewrite (later_dirs _ _ Hl _ Hpd). simpl.
    eexists. split_and!; try done.
    intros m' H1 H2. apply later_rewrite; [done|].
    by apply (later_files _ _ H1).
  - clear H. eexists. split_and!; try done.
    intros m' _ H2. by eapply later_same_r.
Qed.

(** A sequence of calls that went through can be performed again on any
    machine later than the one it left: it goes through, makes no
    directory, and writes its files. *)
Lemma exec_again cs m m' m2 :
  exec cs m = inr m' → later m' m2 →
  ∃ m3, exec cs m2 = inr m3 ∧ dirs m3 = dirs m2
        ∧ files m3 = apply_writes (writes cs) (files m2).
Proof.
  revert m m2. induction cs as [|c cs IH]; intros m m2 H Hl; simpl in H.
  - exists m2. by inversion H.
  - destruct (perform c m) as [e|m1] eqn:Hc; [done|].
    pose proof (exec_later _ _ _ H) as Hl1.
    destruct (perform_again c m m1 m2 Hc (later_trans _ _ _ Hl1 Hl))
      as (m3 & Hc3 & Hd3 & Hf3 & Hl3).
    destruct (IH m1 m3 H (Hl3 _ Hl1 Hl)) as (m4 & He & Hd4 & Hf4).
    exists m4. split_and!.
    + simpl. by rewrite Hc3.
    + congruence.
    + by rewrite writes_cons, apply_writes_app, <- Hf3.
Qed.

Lemma pyval_eqb_eq : ∀ a b, pyval_eqb a b = true → a = b.
Proof.
  fix IH 1. intros [| x | x | m e | s | l | d] [| y | y | m' e' | t | l' | d'];
    simpl; try discriminate; intros H.
  - done.
  - by apply Bool.eqb_prop in H as ->.
  - by apply Z.eqb_eq in H as ->.
  - apply andb_true_iff in H as [->%Z.eqb_eq ->%Nat.eqb_eq]. done.
  - by apply String.eqb_eq in H as ->.
  - f_equal. revert l' H. induction l as [|x l IHl]; intros [|y l'] H; try done.
    apply andb_true_iff in H as [Hx Hl]. f_equal; [by apply IH|by apply IHl].
  - f_equal. revert d' H.
    induction d as [|[k x] d IHd]; intros [|[k' y] d'] H; try done.
    apply andb_true_iff in H as [[->%String.eqb_eq Hx]%andb_true_iff Hd].
    f_equal; [f_equal; by apply IH|by apply IHd].
Qed.

Lemma forallb_Forall {A} (f : A → bool) (P : A → Prop) (l : list A) :
  (∀ x, f x = true → P x) → forallb f l = true → Forall P l.
Proof.
  intros Hf. induction l as [|x l IH]; simpl; [constructor|].
  intros [Hx Hl]%andb_true_iff. constructor; auto.
Qed.

(** ** What the interpreter makes of the scripts *)

(** No script raises an exception of its own. *)
Lemma body_done s : body s (State [] []) = Done () (final_state s).
Proof. destruct s; vm_compute; reflexivity. Qed.

Lemma run_exec s m :
  run (body s) m =
  match exec (issued s) m with
  | inr m' => Finished (globals (final_state s)) m'
  | inl (e, m') => Crashed e m'
  end.
Proof. unfold run. by rewrite body_done. Qed.

Lemma run_finished s m g m' :
  run (body s) m = Finished g m' →
  g = globals (final_state s) ∧ exec (issued s) m = inr m'.
Proof.
  rewrite run_exec. destruct (exec (issued s) m) as [[e m1]|m1]; [done|].
  intros H. by inversion H.
Qed.

(** Every dump is made with [indent=4]. *)
Lemma writes_dumped s :
  writes (issued s) = map (λ po, (po.1, Json.dumps po.2 4)) (dumped s).
Proof.
  unfold writes, dumped, dumps_of.
  assert (H : forallb (λ c, match c with Dump _ _ i => Nat.eqb i 4 | _ => true end)
                (issued s) = true) by (destruct s; vm_compute; reflexivity).
  induction (issued s) as [|c cs IH]; [done|].
  simpl in H. apply andb_true_iff in H as [Hc Hcs]. simpl.
  rewrite map_app, <- IH by done.
  destruct c; simpl; try done. by apply Nat.eqb_eq in Hc as ->.
Qed.

(** No two dumps of a script go to the same path. *)
Lemma dumped_NoDup s : NoDup (dumped s).*1.
Proof. destruct s; apply (bool_decide_unpack (NoDup _)); vm_compute; exact I. Qed.

(** Each dumped object is read back from its text. *)
Lemma dumped_round_trip s :
  Forall (λ po, Json.loads (Json.dumps po.2 4) = Some po.2) (dumped s).
Proof.
  apply (forallb_Forall
    (λ po, match Json.loads (Json.dumps po.2 4) with
           | Some o => pyval_eqb o po.2
           | None => false
           end)).
  - intros [p obj]; simpl. destruct (Json.loads _) as [o|]; [|done].
    by intros ->%pyval_eqb_eq.
  - destruct s; vm_compute; reflexivity.
Qed.

(** After a run that finishes, each path a script dumps to holds the object
    dumped, and every other path holds what it held. *)
Lemma run_holds s m g m' p obj :
  run (body s) m = Finished g m' → (p, obj) ∈ dumped s → holds m' p obj.
Proof.
  intros [_ He]%run_finished Hin. exists (Json.dumps obj 4). split.
  - rewrite (exec_files _ _ _ He), writes_dumped.
    apply apply_writes_lookup.
    + rewrite <- list_fmap_compose. apply dumped_NoDup.
    + by apply (list_elem_of_fmap_2 (λ po, (po.1, Json.dumps po.2 4)) _ (p, obj)).
  - by apply (proj1 (Forall_forall _ _) (dumped_round_trip s) (p, obj)).
Qed.

Lemma run_frame s m g m' p :
  run (body s) m = Finished g m' → p ∉ (dumped s).*1 → files m' !! p = files m !! p.
Proof.
  intros [_ He]%run_finished Hp.
  rewrite (exec_files _ _ _ He), writes_dumped.
  apply apply_writes_notin. by rewrite <- list_fmap_compose.
Qed.

Lemma run_holds_inv s m g m' p obj :
  run (body s) m = Finished g m' → holds m' p obj →
  (p, obj) ∈ dumped s ∨ holds m p obj.
Proof.
  intros [_ He]%run_finished (text & Hp & Hl).
  rewrite (exec_files _ _ _ He), writes_dumped in Hp.
  apply apply_writes_inv in Hp as [Hin|Hp]; [left|right; by exists text].
  apply list_elem_of_fmap in Hin as ([q o] & Heq & Hin). simpl in Heq.
  inversion Heq; subst.
  pose proof (proj1 (Forall_forall _ _) (dumped_round_trip s) _ Hin) as Hrt.
  simpl in Hrt. rewrite Hrt in Hl. by inversion Hl; subst.
Qed.

Lemma run_start s : run (body s) (start s) = Finished (globals (final_state s)) (finish s).
Proof.
  rewrite run_exec. unfold finish.
  assert (H : match exec (issued s) (start s) with inr _ => true | inl _ => false end = true)
    by (destruct s; vm_compute; reflexivity).
  by destruct (exec (issued s) (start s)) as [[e m1]|m1].
Qed.

(** C3: a run of the Undertale boss generator that finishes leaves a
    "toriel" file whose JSON has hp 440, attack 6, defense 1, and an
    attackPatterns array of one entry, named "Fire Magic", whose waves are
    four, at times 0, 1000, 2000, 3000 in that order. *)
Theorem toriel_scenario m g m' :
  run (body bosses_old) m = Finished g m' →
  ∃ record, holds m' toriel_path record ∧ toriel_expected record.
Proof.
  intros Hrun.
  assert (∃ record, dumped bosses_old !! 0%nat = Some (toriel_path, record)
                    ∧ toriel_expected record) as (record & Hin & Hexp).
  { eexists. split; [lazy; reflexivity|].
    repeat split. eexists _, _. repeat split. }
  exists record. split; [|done].
  eapply run_holds; [done|]. by eapply list_elem_of_lookup_2.
Qed.

Lemma toriel_scenario_witness :
  run (body bosses_old) empty_machine
  = Finished (globals (final_state bosses_old)) (finish bosses_old)
  ∧ ∃ record, holds (finish bosses_old) toriel_path record ∧ toriel_expected record.
Proof.
  assert (H : run (body bosses_old) empty_machine
              = Finished (globals (final_state bosses_old)) (finish bosses_old))
    by exact (run_start bosses_old).
  split; [exact H|exact (toriel_scenario _ _ _ H)].
Defined.

Lemma starts_with_checkb_sound record :
  starts_with_checkb record = true → starts_with_check record.
Proof.
  unfold starts_with_checkb, starts_with_check.
  destruct (field record "acts") as [[| | | | |[|first rest]|]|]; try done.
  destruct (field first "name") as [v|] eqn:Hn; [|done]. simpl.
  intros ->%pyval_eqb_eq. by exists first, rest.
Qed.

(** C6: in every entity record of every script's table, the acts list is
    non-empty and its first element is the action named "Check". *)
Theorem acts_start_with_check s : Forall starts_with_check (records s).
Proof.
  apply (forallb_Forall _ _ _ starts_with_checkb_sound).
  destruct s; vm_compute; reflexivity.
Qed.

Lemma acts_in_rangeb_sound record :
  acts_in_rangeb record = true → acts_in_range record.
Proof.
  unfold acts_in_rangeb, acts_in_range.
  destruct (field record "acts") as [[| | | | |acts|]|]; try done.
  intros H. exists acts. split; [done|].
  revert H. apply forallb_Forall. clear. intros act H v Hv.
  unfold mercy_in_rangeb in H. rewrite Hv in H.
  destruct v; try done. apply andb_true_iff in H as [?%Z.leb_le ?%Z.leb_le].
  by eexists.
Qed.

Example acts_with_mercy : map with_mercy scripts = [16; 10; 12; 46; 16]%nat.
Proof. vm_compute. reflexivity. Qed.

(** C10: in every act of every table that carries a mercyIncrease, its value
    is an integer between 0 and 100 inclusive. *)
Theorem mercy_increase_in_range s : Forall acts_in_range (records s).
Proof.
  apply (forallb_Forall _ _ _ acts_in_rangeb_sound).
  destruct s; vm_compute; reflexivity.
Qed.

Lemma waves_in_timeb_sound obj : waves_in_timeb obj = true → waves_in_time obj.
Proof.
  unfold waves_in_timeb, waves_in_time.
  destruct (field obj "attackPatterns") as [[| | | | |patterns|]|]; try done.
  intros H. exists patterns. split; [done|].
  revert H. apply forallb_Forall. clear. intros pattern.
  unfold pattern_in_timeb, pattern_in_time.
  destruct (field pattern "duration") as [[| |duration| | | |]|]; try done.
  destruct (field pattern "waves") as [[| | | | |waves|]|]; try done.
  intros H. exists duration, waves. split_and!; try done.
  revert H. apply forallb_Forall. clear. intros wave.
  unfold wave_in_timeb, wave_in_time.
  destruct (field wave "time") as [[| |t| | | |]|]; try done.
  intros [?%Z.leb_le ?%Z.leb_le]%andb_true_iff. by exists t.
Qed.

Example waves_dumped : map wave_count scripts = [27; 18; 24; 75; 30]%nat.
Proof. vm_compute. reflexivity. Qed.

(** C7: in every attack pattern of every record a script produces, the
    default patterns of the generators included, the time of every wave is
    non-negative and does not exceed the duration of its pattern. *)
Theorem wave_times_within_duration s :
  length (dumped s) = length (records s) ∧ Forall waves_in_time (dumped s).*2.
Proof.
  split; [destruct s; vm_compute; reflexivity|].
  apply (forallb_Forall _ _ _ waves_in_timeb_sound).
  destruct s; vm_compute; reflexivity.
Qed.

Lemma frames_listedb_sound obj : frames_listedb obj = true → frames_listed obj.
Proof.
  unfold frames_listedb, frames_listed.
  destruct (field obj "sprites") as [[| | | | | |sprites]|]; try done.
  intros H. exists sprites. split; [done|].
  revert H. apply forallb_Forall. clear. intros [state v]; simpl.
  destruct v as [| | | | |paths|]; try done.
  intros H. exists paths. split; [done|].
  revert H. apply forallb_Forall. clear. intros [| | | |path| |]; try done.
  by exists path.
Qed.

Lemma frame_singleb_sound obj : frame_singleb obj = true → frame_single obj.
Proof.
  unfold frame_singleb, frame_single.
  destruct (field obj "sprites") as [[| | | | | |[|[state [| | | |path| |]] []]]|];
    try done.
  intros ->%String.eqb_eq. by exists path.
Qed.

Lemma frame_single_not_listed obj : frame_single obj → ¬ frames_listed obj.
Proof.
  intros [path Hp] (sprites & Hs & Hall). rewrite Hp in Hs. inversion Hs; subst.
  apply Forall_cons in Hall as [(paths & Heq & _) _]. done.
Qed.

Lemma dumped_frames_listed s :
  forallb (λ po, frames_listedb po.2) (dumped s) = true →
  Forall (λ po, frames_listed po.2) (dumped s).
Proof. apply forallb_Forall. intros []. apply frames_listedb_sound. Qed.

Lemma dumped_frame_single s :
  forallb (λ po, frame_singleb po.2) (dumped s) = true →
  Forall (λ po, frame_single po.2) (dumped s).
Proof. apply forallb_Forall. intros []. apply frame_singleb_sound. Qed.

Lemma dumped_sprites s : Forall (λ po, sprites_shape s po.2) (dumped s).
Proof.
  destruct s; unfold sprites_shape.
  - apply dumped_frames_listed. vm_compute. reflexivity.
  - apply dumped_frame_single. vm_compute. reflexivity.
  - apply dumped_frame_single. vm_compute. reflexivity.
  - apply dumped_frames_listed. vm_compute. reflexivity.
  - apply dumped_frames_listed. vm_compute. reflexivity.
Qed.

(** C8, as amended: in every descriptor the Undertale generators write, the
    sprites field maps each animation-state name to a JSON array of
    image-path strings; in every descriptor the Deltarune generators write,
    it maps the one state "idle" to a single image-path string. *)
Theorem sprites_by_generator s m g m' :
  run (body s) m = Finished g m' →
  Forall (λ po, holds m' po.1 po.2 ∧ sprites_shape s po.2) (dumped s).
Proof.
  intros Hrun. apply Forall_forall. intros [p obj] Hin. split.
  - by eapply run_holds.
  - by apply (proj1 (Forall_forall _ _) (dumped_sprites s) (p, obj)).
Qed.

Lemma sprites_by_generator_witness :
  run (body deltarune_enemies) empty_machine
  = Finished (globals (final_state deltarune_enemies)) (finish deltarune_enemies)
  ∧ Forall (λ po, holds (finish deltarune_enemies) po.1 po.2
                  ∧ sprites_shape deltarune_enemies po.2)
      (dumped deltarune_enemies).
Proof.
  split; [|apply (sprites_by_generator deltarune_enemies empty_machine
                    (globals (final_state deltarune_enemies)))];
    exact (run_start deltarune_enemies).
Defined.

(** The claim fails on the Deltarune enemy generator: the "rudinn" file
    holds a sprites field whose "idle" is a string. *)
Lemma sprites_are_sequences_fails : ¬ sprites_are_sequences.
Proof.
  intros H.
  specialize (H deltarune_enemies _ _ _ (run_start deltarune_enemies)).
  pose proof (dumped_sprites deltarune_enemies) as H'.
  assert (Hne : dumped deltarune_enemies ≠ []).
  { intros Hd. apply (f_equal length) in Hd. vm_compute in Hd. discriminate. }
  destruct (dumped deltarune_enemies) as [|po l]; [contradiction|].
  apply Forall_cons in H as [[_ H] _]. apply Forall_cons in H' as [H' _].
  exact (frame_single_not_listed _ H' H).
Qed.

Lemma copiedb_sound keys record obj :
  copiedb keys record obj = true → copied keys record obj.
Proof.
  apply forallb_Forall. intros k.
  destruct (field record k) as [v|]; [|done].
  destruct (field obj k) as [v'|]; [|done].
  intros ->%pyval_eqb_eq. by split.
Qed.

Lemma droppedb_sound keys record obj :
  droppedb keys record obj = true → dropped keys record obj.
Proof.
  apply forallb_Forall. intros k.
  destruct (field record k) as [v|]; [|done].
  destruct (field obj k) as [v'|]; [done|]. by split.
Qed.

Lemma describesb_sound s record obj :
  describesb s record obj = true → describes s record obj.
Proof.
  destruct s; unfold describesb, describes.
  - apply pyval_eqb_eq.
  - intros [[Hk%bool_decide_eq_true Hc]%andb_true_iff Hd]%andb_true_iff.
    split_and!; [done|by apply copiedb_sound|by apply droppedb_sound].
  - intros [[Hk%bool_decide_eq_true Hc]%andb_true_iff Hd]%andb_true_iff.
    split_and!; [done|by apply copiedb_sound|by apply droppedb_sound].
  - destruct record as [| | | | | |d]; try done.
    intros [Hn%negb_true_iff ->%pyval_eqb_eq]%andb_true_iff. by exists d.
  - apply pyval_eqb_eq.
Qed.

Lemma forall2b_Forall2 {A B} (f : A → B → bool) (P : A → B → Prop) l k :
  (∀ a b, f a b = true → P a b) → forall2b f l k = true → Forall2 P l k.
Proof.
  intros Hf. revert k. induction l as [|a l IH]; intros [|b k]; simpl;
    try discriminate; [constructor|].
  intros [Ha Hl]%andb_true_iff. constructor; auto.
Qed.

(** The objects dumped are, record by record of the tables and in their
    order, the ones [describes] tells. *)
Lemma dumped_describes s : Forall2 (describes s) (records s) (dumped s).*2.
Proof.
  apply (forall2b_Forall2 _ _ _ _ (describesb_sound s)).
  destruct s; vm_compute; reflexivity.
Qed.

(** C1, as amended: a run that finishes has written one file per record of
    the table, no two records sharing a file, and left every other path as
    it was; the JSON decoded from a record's file is equal to the object
    the generator dumped for it.  That object is the record itself for
    generate_bosses_old.py and generate_missing_undertale_enemies.py; the
    record with the default attackPatterns added, as the table then holds
    it, for generate_enemies.py; and for the Deltarune generators a
    descriptor built from the record: its name, hp, attack, defense,
    dialogue and acts (and checkText and attackPatterns for bosses) under
    the documented field names, without the record's chapter and folder. *)
Theorem one_file_per_record s m g m' :
  run (body s) m = Finished g m' →
  Forall2 (describes s) (records s) (dumped s).*2
  ∧ NoDup (dumped s).*1
  ∧ Forall (λ po, holds m' po.1 po.2) (dumped s)
  ∧ ∀ p, p ∉ (dumped s).*1 → files m' !! p = files m !! p.
Proof.
  intros Hrun. split_and!.
  - apply dumped_describes.
  - apply dumped_NoDup.
  - apply Forall_forall. intros [p obj] Hin. by eapply run_holds.
  - intros p Hp. by eapply run_frame.
Qed.

Lemma one_file_per_record_witness :
  run (body deltarune_bosses) empty_machine
  = Finished (globals (final_state deltarune_bosses)) (finish deltarune_bosses)
  ∧ (Forall2 (describes deltarune_bosses) (records deltarune_bosses)
       (dumped deltarune_bosses).*2
     ∧ NoDup (dumped deltarune_bosses).*1
     ∧ Forall (λ po, holds (finish deltarune_bosses) po.1 po.2) (dumped deltarune_bosses)
     ∧ ∀ p, p ∉ (dumped deltarune_bosses).*1 →
            files (finish deltarune_bosses) !! p = files empty_machine !! p).
Proof.
  split; [|apply (one_file_per_record deltarune_bosses empty_machine
                    (globals (final_state deltarune_bosses)))];
    exact (run_start deltarune_bosses).
Defined.

(** No object the Deltarune boss generator dumps has the chapter field that
    every record of its table has. *)
Lemma chapter_dropped record obj :
  describes deltarune_bosses record obj →
  is_Some (field record "chapter") ∧ field obj "chapter" = None.
Proof.
  intros (_ & _ & Hd). by apply Forall_cons in Hd as [Hd _].
Qed.

(** The claim fails on the Deltarune boss generator: after a run from the
    empty machine no file holds the record of Jevil. *)
Lemma round_trip_identity_fails : ¬ round_trip_identity.
Proof.
  intros H.
  pose proof (run_start deltarune_bosses) as Hrun.
  pose proof (dumped_describes deltarune_bosses) as Hdesc.
  destruct (records deltarune_bosses) as [|jevil rest] eqn:Hrec.
  { apply (f_equal length) in Hrec. vm_compute in Hrec. discriminate. }
  destruct (H deltarune_bosses _ _ _ Hrun jevil) as (p & Hp & _).
  { rewrite Hrec. apply elem_of_cons. by left. }
  apply (run_holds_inv _ _ _ _ _ _ Hrun) in Hp as [Hin|(text & Hf & _)].
  - (* a dumped object equal to the record would lack the chapter it has *)
    assert (Hnone : field jevil "chapter" = None).
    { apply (list_elem_of_fmap_2 snd) in Hin. simpl in Hin.
      apply list_elem_of_lookup in Hin as [i Hi].
      destruct (Forall2_lookup_r _ _ _ _ _ Hdesc Hi) as (record & _ & Hd).
      by apply chapter_dropped in Hd as [_ ?]. }
    apply Forall2_cons_inv_l in Hdesc as (obj & objs & Hd & _ & _).
    apply chapter_dropped in Hd as [[v Hv] _]. congruence.
  - change (files (start deltarune_bosses)) with (∅ : gmap string string) in Hf.
    by rewrite lookup_empty in Hf.
Qed.

(** The three replacements of generate_deltarune_bosses.generate_boss_json,
    one after the other, are the rule applied in one pass; so are the two of
    generate_deltarune_enemies.generate_enemy_json. *)
Ltac replace_step :=
  cbn [replace substitute Ascii.eqb Bool.eqb];
  lazy beta iota fix delta [String.append for_space for_apostrophe for_hyphen
                            bosses_rule enemies_rule].

Lemma replace_bosses_rule name :
  replace "-" "_" (replace "'" "" (replace " " "_" name)) = substitute bosses_rule name.
Proof.
  induction name as [|c name IH]; [done|].
  replace_step.
  destruct (Ascii.eqb_spec c " ") as [->|Hs]; [do 3 replace_step; by rewrite IH|].
  replace_step.
  destruct (Ascii.eqb_spec c "'") as [->|Ha]; [do 3 replace_step; by rewrite IH|].
  replace_step.
  destruct (Ascii.eqb_spec c "-") as [->|Hh]; do 3 replace_step; by rewrite IH.
Qed.

Lemma replace_enemies_rule name :
  replace "-" "_" (replace " " "_" name) = substitute enemies_rule name.
Proof.
  induction name as [|c name IH]; [done|].
  replace_step.
  destruct (Ascii.eqb_spec c " ") as [->|Hs]; [do 3 replace_step; by rewrite IH|].
  replace_step.
  destruct (Ascii.eqb_spec c "'") as [->|Ha]; [do 3 replace_step; by rewrite IH|].
  destruct (Ascii.eqb_spec c "-") as [->|Hh]; do 3 replace_step; by rewrite IH.
Qed.

Lemma length_append (s t : string) :
  String.length (s +:+ t) = (String.length s + String.length t)%nat.
Proof. induction s as [|c s IH]; simpl; [done|by rewrite IH]. Qed.

Lemma dumped_paths s : map (file_path s) (entities s) = map Some (dumped s).*1.
Proof. destruct s; vm_compute; reflexivity. Qed.

(** C4, as amended: the name of each written file is a deterministic
    function of the entity.  In the Deltarune generators it is the display
    name in lower case with spaces and hyphens replaced by underscores (and
    apostrophes removed, for bosses) followed by ".json"; in the Undertale
    generators it is the key of the entity in the table followed by ".json",
    whatever the display name. *)
Theorem file_named_by_generator s m g m' :
  run (body s) m = Finished g m' →
  map (file_path s) (entities s) = map Some (dumped s).*1
  ∧ Forall (λ p, is_Some (files m' !! p)) (dumped s).*1.
Proof.
  intros Hrun. split; [apply dumped_paths|].
  apply Forall_forall. intros p [[q obj] [-> Hin]]%list_elem_of_fmap.
  destruct (run_holds _ _ _ _ _ _ Hrun Hin) as (text & Ht & _). by exists text.
Qed.

Lemma file_named_by_generator_witness :
  run (body bosses_old) empty_machine
  = Finished (globals (final_state bosses_old)) (finish bosses_old)
  ∧ (map (file_path bosses_old) (entities bosses_old) = map Some (dumped bosses_old).*1
     ∧ Forall (λ p, is_Some (files (finish bosses_old) !! p)) (dumped bosses_old).*1).
Proof.
  split; [|apply (file_named_by_generator bosses_old empty_machine
                    (globals (final_state bosses_old)))];
    exact (run_start bosses_old).
Defined.

(** The claim fails on the Undertale boss generator: the boss whose display
    name is "Mettaton EX" is written to "mettaton.json", and no rule makes
    "mettaton" of "mettaton ex". *)
Lemma named_after_display_name_fails : ¬ named_after_display_name.
Proof.
  intros H. destruct (H bosses_old) as [r Hr].
  assert (Hm : ∃ obj, dumped bosses_old !! 3%nat
                      = Some (join generate_bosses_old.OUTPUT_DIR "mettaton.json", obj)
                      ∧ field obj "name" = Some (PStr "Mettaton EX")).
  { eexists. split; lazy; reflexivity. }
  destruct Hm as (obj & Hd & Hn).
  apply list_elem_of_lookup_2 in Hd.
  destruct (proj1 (Forall_forall _ _) Hr _ Hd) as (name & Hname & Hb).
  simpl in Hname. rewrite Hn in Hname. inversion Hname; subst name; clear Hname.
  change (basename _) with "mettaton.json" in Hb.
  change (normalize r "Mettaton EX")
    with ("mettaton" +:+ (for_space r +:+ "ex")) in Hb.
  apply (f_equal String.length) in Hb.
  rewrite !length_append in Hb. simpl in Hb. lia.
Qed.

Lemma dump_of_entityb_sound s e po :
  dump_of_entityb s e po = true → dump_of_entity s e po.
Proof.
  unfold dump_of_entityb, dump_of_entity.
  intros [Hp Hd]%andb_true_iff. split; [|by apply describesb_sound].
  destruct (file_path s e) as [p|]; [|done]. by apply String.eqb_eq in Hp as ->.
Qed.

(** The dumps are made entity by entity, in the order of the tables. *)
Lemma dumps_follow_entities s : Forall2 (dump_of_entity s) (entities s) (dumped s).
Proof.
  apply (forall2b_Forall2 _ _ _ _ (dump_of_entityb_sound s)).
  destruct s; vm_compute; reflexivity.
Qed.

(** The lines of the loop name the files in the order they are written. *)
Lemma lines_follow_dumps s :
  take (length (dumped s)) (drop (header_lines s) (prints (issued s)))
  = map (created s) (dumped s).*1.
Proof.
  assert (H : forall2b String.eqb
                (take (length (dumped s)) (drop (header_lines s) (prints (issued s))))
                (map (created s) (dumped s).*1) = true)
    by (destruct s; vm_compute; reflexivity).
  apply list_eq_Forall2.
  apply (forall2b_Forall2 String.eqb eq); [|done].
  intros a b. apply String.eqb_eq.
Qed.

Lemma Forall2_and_r {A B} (P : A → B → Prop) (Q : B → Prop) l k :
  Forall2 P l k → Forall Q k → Forall2 (λ a b, P a b ∧ Q b) l k.
Proof.
  induction 1 as [|a b l k Hab _ IH]; [constructor|].
  intros [Hb Hk]%Forall_cons. constructor; auto.
Qed.

(** A finished run leaves each dumped path with the text of its object. *)
Lemma run_text s m g m' :
  run (body s) m = Finished g m' →
  Forall (λ po, files m' !! po.1 = Some (Json.dumps po.2 4)) (dumped s).
Proof.
  intros [_ He]%run_finished. apply Forall_forall. intros [p obj] Hin.
  rewrite (exec_files _ _ _ He), writes_dumped.
  apply apply_writes_lookup.
  - rewrite <- list_fmap_compose. apply dumped_NoDup.
  - by apply (list_elem_of_fmap_2 (λ po, (po.1, Json.dumps po.2 4)) _ (p, obj)).
Qed.

Lemma run_used :
  run (body missing_undertale_enemies) used_machine
  = Finished (globals (final_state missing_undertale_enemies)) used_finish.
Proof.
  rewrite run_exec. unfold used_finish.
  assert (H : match exec (issued missing_undertale_enemies) used_machine with
              | inr _ => true
              | inl _ => false
              end = true) by (vm_compute; reflexivity).
  by destruct (exec (issued missing_undertale_enemies) used_machine) as [[e m1]|m1].
Qed.

(** C5: every script is deterministic.  The calls a script issues are fixed
    by its tables alone, and nothing is read back: whatever the two machines
    the runs start on, and whatever these held at the paths of the script,
    two runs that finish have gone through the entities in the order of the
    tables, each entity dumped to its own file, no two to the same, as the
    object that describes it, and both runs leave that file with the same
    bytes, the JSON text of the object; they print the same lines, one per
    entity in the order of the tables between header and footer, and leave
    the same globals; every path that is not the file of an entity is as
    each run found it; and running the script again on the machine a run has
    left finishes and changes no file and no directory. *)
Theorem runs_agree s m1 m2 g1 g2 m1' m2' :
  run (body s) m1 = Finished g1 m1' →
  run (body s) m2 = Finished g2 m2' →
  Forall2 (λ e po, dump_of_entity s e po
                   ∧ files m1' !! po.1 = Some (Json.dumps po.2 4)
                   ∧ files m2' !! po.1 = Some (Json.dumps po.2 4))
          (entities s) (dumped s)
  ∧ NoDup (dumped s).*1
  ∧ (∀ p, p ∉ (dumped s).*1 →
          files m1' !! p = files m1 !! p ∧ files m2' !! p = files m2 !! p)
  ∧ take (length (dumped s)) (drop (header_lines s) (prints (issued s)))
    = map (created s) (dumped s).*1
  ∧ stdout m1' = stdout m1 ++ prints (issued s)
  ∧ stdout m2' = stdout m2 ++ prints (issued s)
  ∧ g1 = g2
  ∧ ∃ g m1'', run (body s) m1' = Finished g m1''
              ∧ files m1'' = files m1' ∧ dirs m1'' = dirs m1'.
Proof.
  intros H1 H2.
  pose proof (run_text _ _ _ _ H1) as Ht1.
  pose proof (run_text _ _ _ _ H2) as Ht2.
  pose proof (run_finished _ _ _ _ H1) as [Hg1 He1].
  pose proof (run_finished _ _ _ _ H2) as [Hg2 He2].
  split_and!.
  - apply Forall2_and_r; [apply dumps_follow_entities|].
    apply Forall_forall. intros po Hin. split.
    + by apply (proj1 (Forall_forall _ _) Ht1).
    + by apply (proj1 (Forall_forall _ _) Ht2).
  - apply dumped_NoDup.
  - intros p Hp. split; by eapply run_frame.
  - apply lines_follow_dumps.
  - by apply exec_stdout.
  - by apply exec_stdout.
  - congruence.
  - destruct (exec_again _ _ _ m1' He1 (later_refl m1')) as (m3 & He3 & Hd3 & Hf3).
    exists (globals (final_state s)), m3. split_and!.
    + by rewrite run_exec, He3.
    + by rewrite Hf3, (exec_files _ _ _ He1), apply_writes_twice.
    + done.
Qed.

Lemma runs_agree_witness :
  let s := missing_undertale_enemies in
  (run (body s) empty_machine = Finished (globals (final_state s)) (finish s)
   ∧ run (body s) used_machine = Finished (globals (final_state s)) used_finish
   ∧ files empty_machine !! "data/enemies/temmie.json" = None
   ∧ files used_machine !! "data/enemies/temmie.json" = Some "stale")
  ∧ (Forall2 (λ e po, dump_of_entity s e po
                      ∧ files (finish s) !! po.1 = Some (Json.dumps po.2 4)
                      ∧ files used_finish !! po.1 = Some (Json.dumps po.2 4))
             (entities s) (dumped s)
     ∧ NoDup (dumped s).*1
     ∧ (∀ p, p ∉ (dumped s).*1 →
             files (finish s) !! p = files empty_machine !! p
             ∧ files used_finish !! p = files used_machine !! p)
     ∧ take (length (dumped s)) (drop (header_lines s) (prints (issued s)))
       = map (created s) (dumped s).*1
     ∧ stdout (finish s) = stdout empty_machine ++ prints (issued s)
     ∧ stdout used_finish = stdout used_machine ++ prints (issued s)
     ∧ globals (final_state s) = globals (final_state s)
     ∧ ∃ g m1'', run (body s) (finish s) = Finished g m1''
                 ∧ files m1'' = files (finish s) ∧ dirs m1'' = dirs (finish s)).
Proof.
  intros s. split.
  - split; [exact (run_start missing_undertale_enemies)|].
    split; [exact run_used|]. split; reflexivity.
  - apply (runs_agree missing_undertale_enemies empty_machine used_machine
             (globals (final_state missing_undertale_enemies))
             (globals (final_state missing_undertale_enemies))).
    + exact (run_start missing_undertale_enemies).
    + exact run_used.
Defined.

Lemma final_globals s : globals (final_state s) = tables_after s.
Proof.
  assert (H : pyval_eqb (PDict (globals (final_state s))) (PDict (tables_after s)) = true)
    by (destruct s; vm_compute; reflexivity).
  apply pyval_eqb_eq in H. by inversion H.
Qed.

Lemma enemies_without_patterns :
  Forall (λ r, field r "attackPatterns" = None) (records enemies).
Proof.
  apply (forallb_Forall (λ r, match field r "attackPatterns" with
                              | None => true
                              | Some _ => false
                              end)).
  - intros r. by destruct (field r "attackPatterns").
  - vm_compute. reflexivity.
Qed.

(** C9, as amended: dumping an object never changes it, and after a run of
    generate_bosses_old.py, generate_deltarune_bosses.py,
    generate_deltarune_enemies.py or generate_missing_undertale_enemies.py
    the tables are the literals they were built from.  generate_enemies.py
    changes its table before it dumps: create_enemy_json adds the default
    attackPatterns, as last field, to each record that has none, which is
    every record of the table; the other fields stay as constructed. *)
Theorem tables_after_run s m g m' :
  run (body s) m = Finished g m' →
  g = tables_after s
  ∧ (s ≠ enemies → g = tables s)
  ∧ Forall (λ r, field r "attackPatterns" = None) (records enemies).
Proof.
  intros [-> _]%run_finished. split_and!.
  - apply final_globals.
  - intros Hs. rewrite final_globals. by destruct s.
  - apply enemies_without_patterns.
Qed.

Lemma tables_after_run_witness :
  run (body enemies) enemies_machine
  = Finished (globals (final_state enemies)) (finish enemies)
  ∧ (globals (final_state enemies) = tables_after enemies
     ∧ (enemies ≠ enemies → globals (final_state enemies) = tables enemies)
     ∧ Forall (λ r, field r "attackPatterns" = None) (records enemies)).
Proof.
  split; [|apply (tables_after_run enemies enemies_machine
                    (globals (final_state enemies)) (finish enemies))];
    exact (run_start enemies).
Defined.

(** The claim fails on generate_enemies.py, run where its output directory
    exists: the record of Froggit has eleven fields as constructed and
    twelve after the run. *)
Lemma tables_untouched_fails : ¬ tables_untouched.
Proof.
  intros H. specialize (H enemies _ _ _ (run_start enemies)).
  apply (f_equal (λ g, length (keys_of (default PNone
           (field (default PNone (dict_get g "ENEMIES")) "froggit"))))) in H.
  vm_compute in H. discriminate.
Qed.

(** generate_enemies.py first prints, then dumps the record of Froggit. *)
Lemma enemies_first_calls :
  issued enemies
  = Print "Generating 25 enemy files..."
      :: Dump froggit_path (default PNone (snd <$> head (dumped enemies))) 4
      :: drop 2 (issued enemies).
Proof. vm_compute. reflexivity. Qed.

(** C2 fails on generate_enemies.py, which never calls os.makedirs: on a
    machine where its output directory does not exist, the run crashes at
    the first record, having printed one line and written no file. *)
Theorem enemies_needs_directory m :
  isdir m generate_enemies.OUTPUT_DIR = false →
  ∃ e, run (body enemies) m
       = Crashed e (Machine (dirs m) (files m)
                      (stdout m ++ ["Generating 25 enemy files..."]))
       ∧ e ∈ [IsADirectoryError froggit_path; NotADirectoryError froggit_path;
              FileNotFoundError froggit_path].
Proof.
  intros Hd. rewrite run_exec, enemies_first_calls.
  cbn [exec perform print_line].
  set (m1 := Machine (dirs m) (files m) (stdout m ++ _)).
  unfold write_file.
  change (dirname froggit_path) with generate_enemies.OUTPUT_DIR.
  assert (isdir m1 generate_enemies.OUTPUT_DIR = false) as -> by exact Hd.
  destruct (isdir m1 froggit_path); [|destruct (isfile m1 _)]; simpl;
    eexists; (split; [reflexivity|]); set_solver.
Qed.

Lemma enemies_needs_directory_witness :
  isdir empty_machine generate_enemies.OUTPUT_DIR = false
  ∧ ∃ e, run (body enemies) empty_machine
         = Crashed e (Machine (dirs empty_machine) (files empty_machine)
                        (stdout empty_machine ++ ["Generating 25 enemy files..."]))
         ∧ e ∈ [IsADirectoryError froggit_path; NotADirectoryError froggit_path;
                FileNotFoundError froggit_path].
Proof.
  split; [vm_compute; reflexivity|].
  apply (enemies_needs_directory empty_machine). vm_compute. reflexivity.
Defined.

(** On the empty machine the exception is FileNotFoundError, while the four
    other scripts, which call os.makedirs, finish. *)
Lemma enemies_on_empty_machine :
  run (body enemies) empty_machine
  = Crashed (FileNotFoundError froggit_path)
      (Machine ∅ ∅ ["Generating 25 enemy files..."]).
Proof.
  rewrite run_exec, enemies_first_calls. reflexivity.
Qed.

Lemma others_on_empty_machine s :
  s ≠ enemies → ∃ g m', run (body s) empty_machine = Finished g m'.
Proof.
  intros Hs. exists (globals (final_state s)), (finish s).
  rewrite <- (run_start s). by destruct s.
Qed.

Lemma dict_get_set_eq (d : pydict) k v : dict_get (dict_set d k v) k = Some v.
Proof.
  induction d as [|[k' v'] d IH]; simpl.
  - by rewrite String.eqb_refl.
  - destruct (String.eqb k' k) eqn:Hk; simpl; by rewrite Hk.
Qed.


Lemma dict_set_fresh (d : pydict) k v :
  dict_contains d k = false → dict_set d k v = d ++ [(k, v)].
Proof.
  induction d as [|[k' v'] d IH]; simpl; [done|].
  destruct (String.eqb k' k); [done|]. intros H. by rewrite IH.
Qed.


Lemma dict_get_contains (d : pydict) k v :
  dict_get d k = Some v → dict_contains d k = true.
Proof.
  induction d as [|[k' v'] d IH]; simpl; [done|].
  by destruct (String.eqb k' k).
Qed.

Lemma create_enemy_json_run (enemy_id : string) (t d : pydict) (g : pydict) (cs : list syscall) :
  dict_get g "ENEMIES" = Some (PDict t) →
  dict_get t enemy_id = Some (PDict d) →
  generate_enemies.create_enemy_json enemy_id (Ref "ENEMIES" enemy_id) (State g cs)
  = Done ()
      (State (if dict_contains d "attackPatterns" then g
              else dict_set g "ENEMIES" (PDict (dict_set t enemy_id (PDict (patched d)))))
             (cs ++ [Dump (enemy_path enemy_id) (PDict (patched d)) 4;
                     Print ("Created " +:+ enemy_path enemy_id)])).
Proof.
  intros Hg Ht.
  unfold generate_enemies.create_enemy_json, contains, setitem, deref, patched.
  unfold mbind, M_bind, bind, load_global, getitem, mret, M_ret, ret. simpl.
  rewrite Hg, Ht. simpl.
  destruct (dict_contains d "attackPatterns") eqn:Hc; simpl.
  - rewrite Hg, Ht. unfold dump_to, print, call. simpl.
    by rewrite <- app_assoc.
  - rewrite Hg, Ht. unfold store_global. simpl.
    rewrite !dict_get_set_eq. unfold dump_to, print, call. simpl.
    rewrite (dict_set_fresh d) by done.
    by rewrite <- app_assoc.
Qed.

Lemma patched_has_patterns d : dict_contains (patched d) "attackPatterns" = true.
Proof.
  unfold patched. destruct (dict_contains d "attackPatterns") eqn:Hc; [done|].
  rewrite <- (dict_set_fresh d _ _ Hc).
  eapply dict_get_contains, dict_get_set_eq.
Qed.


Lemma create_enemy_json_after (enemy_id : string) (t d g : pydict) (cs : list syscall) :
  dict_get g "ENEMIES" = Some (PDict t) →
  dict_get t enemy_id = Some (PDict d) →
  ∃ g' t',
    generate_enemies.create_enemy_json enemy_id (Ref "ENEMIES" enemy_id) (State g cs)
    = Done () (State g' (cs ++ [Dump (enemy_path enemy_id) (PDict (patched d)) 4;
                                Print ("Created " +:+ enemy_path enemy_id)]))
    ∧ dict_get g' "ENEMIES" = Some (PDict t')
    ∧ dict_get t' enemy_id = Some (PDict (patched d)).
Proof.
  intros Hg Ht. rewrite (create_enemy_json_run _ _ _ _ _ Hg Ht).
  destruct (dict_contains d "attackPatterns") eqn:Hc; eexists _, _.
  all: split_and!;
    first [ done | apply dict_get_set_eq | by (unfold patched; rewrite Hc) ].
Qed.



(** X2: a second call of generate_enemies.create_enemy_json on the same
    record changes nothing more: the table stays as the first call left it,
    and the same object goes to the same path. *)
Theorem create_enemy_json_twice (enemy_id : string) (t d g : pydict) (cs : list syscall) :
  dict_get g "ENEMIES" = Some (PDict t) →
  dict_get t enemy_id = Some (PDict d) →
  ∃ g' cs',
    generate_enemies.create_enemy_json enemy_id (Ref "ENEMIES" enemy_id) (State g cs)
    = Done () (State g' cs')
    ∧ generate_enemies.create_enemy_json enemy_id (Ref "ENEMIES" enemy_id) (State g' cs')
      = Done () (State g' (cs' ++ [Dump (enemy_path enemy_id) (PDict (patched d)) 4;
                                   Print ("Created " +:+ enemy_path enemy_id)]))
    ∧ dumps_of cs' = dumps_of cs ++ [(enemy_path enemy_id, PDict (patched d))].
Proof.
  intros Hg Ht.
  destruct (create_enemy_json_after enemy_id t d g cs Hg Ht)
    as (g' & t' & Hrun & Hg' & Ht').
  eexists _, _. split; [exact Hrun|]. split.
  - rewrite (create_enemy_json_run _ _ _ _ _ Hg' Ht').
    rewrite patched_has_patterns.
    assert (patched (patched d) = patched d) as ->; [|done].
    unfold patched at 1. by rewrite patched_has_patterns.
  - unfold dumps_of. rewrite flat_map_app. simpl. done.
Qed.

Lemma create_enemy_json_twice_witness :
  dict_get [("ENEMIES", PDict small_table)] "ENEMIES" = Some (PDict small_table)
  ∧ dict_get small_table "froggit"
    = Some (PDict [("name", PStr "Froggit"); ("hp", PInt 30)])
  ∧ ∃ g' cs',
      generate_enemies.create_enemy_json "froggit" (Ref "ENEMIES" "froggit")
        (State [("ENEMIES", PDict small_table)] [])
      = Done () (State g' cs')
      ∧ generate_enemies.create_enemy_json "froggit" (Ref "ENEMIES" "froggit")
          (State g' cs')
        = Done () (State g' (cs' ++ [Dump (enemy_path "froggit")
                                       (PDict (patched [("name", PStr "Froggit"); ("hp", PInt 30)])) 4;
                                     Print ("Created " +:+ enemy_path "froggit")]))
      ∧ dumps_of cs'
        = dumps_of [] ++ [(enemy_path "froggit",
                           PDict (patched [("name", PStr "Froggit"); ("hp", PInt 30)]))].
Proof.
  split; [reflexivity|]. split; [reflexivity|].
  apply (create_enemy_json_twice "froggit" small_table
           [("name", PStr "Froggit"); ("hp", PInt 30)]
           [("ENEMIES", PDict small_table)] []); reflexivity.
Defined.








Lemma patched_patched d : patched (patched d) = patched d.
Proof. unfold patched at 1. by rewrite patched_has_patterns. Qed.





















Lemma formats_exactly_scalar v : formats_exactly v = true → scalar v = true.
Proof. by destruct v. Qed.

Lemma ascii_onlyb_sound s : ascii_onlyb s = true → ascii_only s.
Proof.
  unfold ascii_onlyb, ascii_only. intros H. apply Forall_forall.
  intros c Hin%list_elem_of_In.
  by apply (proj1 (forallb_forall _ _) H), N.ltb_lt in Hin.
Qed.

Lemma format_scalar v st : scalar v = true → format v st = Done (text_of v) st.
Proof. by destruct v as [|[]| | | | |]. Qed.

Ltac run_monad :=
  unfold mbind, M_bind, bind, load_global, getitem, as_str, len, items, iter, mret,
    M_ret, ret, raise, dump_to, print, makedirs_, call;
  cbn [globals calls].

Lemma generate_boss_json_run (d : pydict) (output_dir : string) (st : state)
    name chapter folder hp attack defense dialogue checkText acts attackPatterns :
  dict_get d "name" = Some (PStr name) →
  dict_get d "chapter" = Some chapter → scalar chapter = true →
  dict_get d "folder" = Some folder → scalar folder = true →
  dict_get d "hp" = Some hp →
  dict_get d "attack" = Some attack →
  dict_get d "defense" = Some defense →
  dict_get d "dialogue" = Some dialogue →
  dict_get d "checkText" = Some checkText →
  dict_get d "acts" = Some acts →
  dict_get d "attackPatterns" = Some attackPatterns →
  generate_deltarune_bosses.generate_boss_json (PDict d) output_dir st
  = Done ()
      (State (globals st)
         (calls st ++
          [Dump (join output_dir (boss_file name))
             (PDict [("name", PStr name); ("hp", hp); ("attack", attack);
                     ("defense", defense); ("gold", PInt 0); ("exp", PInt 0);
                     ("spareThreshold", PInt 0); ("dialogue", dialogue);
                     ("checkText", checkText);
                     ("sprites", PDict [("idle", PStr (("Deltarune Sprites/Characters/Bosses/"
                        +:+ text_of chapter +:+ "/" +:+ text_of folder +:+ "/")
                        +:+ "idle_0.png"))]);
                     ("acts", acts); ("attackPatterns", attackPatterns)]) 4;
           Print ("Generated: " +:+ join output_dir (boss_file name))])).
Proof.
  intros Hn Hc Hcs Hf Hfs Hhp Hat Hde Hdi Hck Hac Hap.
  unfold generate_deltarune_bosses.generate_boss_json. run_monad.
  rewrite Hn. run_monad. rewrite Hc.
  unfold mbind, M_bind, bind. rewrite (format_scalar _ _ Hcs).
  run_monad. rewrite Hf.
  unfold mbind, M_bind, bind. rewrite (format_scalar _ _ Hfs).
  run_monad. rewrite Hhp, Hat, Hde, Hdi, Hck, Hac, Hap. run_monad.
  unfold boss_file. rewrite <- !app_assoc. reflexivity.
Qed.

Lemma format_done v st s st' : format v st = Done s st' → scalar v = true ∧ st' = st.
Proof.
  destruct v as [|[]| | | | |]; simpl; unfold mret, M_ret, ret, raise; intros H;
    by inversion H.
Qed.

(** A call that ends normally found every field it reads. *)
Lemma generate_boss_json_inv boss output_dir st st' :
  generate_deltarune_bosses.generate_boss_json boss output_dir st = Done () st' →
  ∃ d name chapter folder,
    boss = PDict d
    ∧ dict_get d "name" = Some (PStr name)
    ∧ dict_get d "chapter" = Some chapter ∧ scalar chapter = true
    ∧ dict_get d "folder" = Some folder ∧ scalar folder = true
    ∧ Forall (λ k, is_Some (dict_get d k)) boss_required.
Proof.
  unfold generate_deltarune_bosses.generate_boss_json. run_monad.
  destruct boss as [| | | | | |d]; try done.
  destruct (dict_get d "name") as [[| | | |name| |]|] eqn:Hn; try done.
  destruct (dict_get d "chapter") as [chapter|] eqn:Hc; [|done].
  unfold mbind, M_bind, bind.
  destruct (format chapter st) as [c st1|] eqn:Hfc; [|done].
  apply format_done in Hfc as [Hcs ->].
  run_monad.
  destruct (dict_get d "folder") as [folder|] eqn:Hf; [|done].
  unfold mbind, M_bind, bind.
  destruct (format folder st) as [f st1|] eqn:Hff; [|done].
  apply format_done in Hff as [Hfs ->].
  run_monad.
  destruct (dict_get d "hp") eqn:Hhp; [|done].
  destruct (dict_get d "attack") eqn:Hat; [|done].
  destruct (dict_get d "defense") eqn:Hde; [|done].
  destruct (dict_get d "dialogue") eqn:Hdi; [|done].
  destruct (dict_get d "checkText") eqn:Hck; [|done].
  destruct (dict_get d "acts") eqn:Hac; [|done].
  destruct (dict_get d "attackPatterns") eqn:Hap; [|done].
  intros _. exists d, name, chapter, folder. split_and!; try done.
  unfold boss_required. repeat constructor; by eexists.
Qed.

(** A call raises without having issued a call. *)
Lemma generate_boss_json_raised boss output_dir st e st' :
  generate_deltarune_bosses.generate_boss_json boss output_dir st = Raised e st' →
  st' = st.
Proof.
  unfold generate_deltarune_bosses.generate_boss_json. run_monad.
  destruct boss as [| | | | | |d]; try (intros H; by inversion H).
  destruct (dict_get d "name") as [[| | | |name| |]|] eqn:Hn;
    try (intros H; by inversion H).
  destruct (dict_get d "chapter") as [chapter|] eqn:Hc; [|intros H; by inversion H].
  unfold mbind, M_bind, bind.
  destruct (format chapter st) as [c st1|e1 st1] eqn:Hfc.
  2:{ intros H. inversion H; subst.
      destruct chapter as [|[]| | | | |]; simpl in Hfc; by inversion Hfc. }
  apply format_done in Hfc as [Hcs ->].
  run_monad.
  destruct (dict_get d "folder") as [folder|] eqn:Hf; [|intros H; by inversion H].
  unfold mbind, M_bind, bind.
  destruct (format folder st) as [f st1|e1 st1] eqn:Hff.
  2:{ intros H. inversion H; subst.
      destruct folder as [|[]| | | | |]; simpl in Hff; by inversion Hff. }
  apply format_done in Hff as [Hfs ->].
  run_monad.
  repeat (match goal with
          | |- context [dict_get d ?k] => destruct (dict_get d k); [|intros H; by inversion H]
          end).
  done.
Qed.

Lemma generate_boss_json_ok (d : pydict) (output_dir : string) (st : state)
    (name : string) (chapter folder : pyval) :
  dict_get d "name" = Some (PStr name) →
  dict_get d "chapter" = Some chapter → scalar chapter = true →
  dict_get d "folder" = Some folder → scalar folder = true →
  Forall (λ k, is_Some (dict_get d k)) boss_required →
  ∃ data,
    generate_deltarune_bosses.generate_boss_json (PDict d) output_dir st
    = Done () (State (globals st)
                 (calls st ++ [Dump (join output_dir (boss_file name)) data 4;
                               Print ("Generated: " +:+ join output_dir (boss_file name))]))
    ∧ keys_of data = descriptor_fields
    ∧ copied ["name"; "hp"; "attack"; "defense"; "dialogue"; "checkText"; "acts";
              "attackPatterns"] (PDict d) data
    ∧ field data "gold" = Some (PInt 0)
    ∧ field data "exp" = Some (PInt 0)
    ∧ field data "spareThreshold" = Some (PInt 0)
    ∧ field data "sprites"
      = Some (PDict [("idle", PStr (("Deltarune Sprites/Characters/Bosses/"
                                      +:+ text_of chapter +:+ "/" +:+ text_of folder +:+ "/")
                                     +:+ "idle_0.png"))]).
Proof.
  intros Hn Hc Hcs Hf Hfs Hall.
  unfold boss_required in Hall.
  repeat (apply Forall_cons in Hall as [[? ?] Hall]).
  eexists. split;
    [eapply (generate_boss_json_run d output_dir st name chapter folder); eassumption|].
  split; [done|]. split; [|by repeat split].
  unfold copied.
  repeat (apply Forall_cons; split; [split; simpl; [by eauto|congruence]|]).
  apply Forall_nil. exact I.
Qed.

(** X5: generate_deltarune_bosses.generate_boss_json on a record that has
    the ten fields it reads, an ASCII str for name, and for chapter and
    folder a str, a bool, None or an int of at most 4300 digits.  It leaves
    the globals as they are and issues two calls: the dump of a descriptor
    to output_dir/<file name>, and one line.  The descriptor has exactly the
    twelve documented fields in their order; name, hp, attack, defense,
    dialogue, checkText, acts and attackPatterns are the record's; gold, exp
    and spareThreshold are 0 whatever the record holds; sprites maps "idle"
    to one path built from chapter and folder; no other field of the record
    is written. *)
Theorem boss_descriptor (d : pydict) (output_dir : string) (st : state)
    (name : string) (chapter folder : pyval) :
  dict_get d "name" = Some (PStr name) → ascii_only name →
  dict_get d "chapter" = Some chapter → formats_exactly chapter = true →
  dict_get d "folder" = Some folder → formats_exactly folder = true →
  Forall (λ k, is_Some (dict_get d k)) boss_required →
  ∃ data,
    generate_deltarune_bosses.generate_boss_json (PDict d) output_dir st
    = Done () (State (globals st)
                 (calls st ++ [Dump (join output_dir (boss_file name)) data 4;
                               Print ("Generated: " +:+ join output_dir (boss_file name))]))
    ∧ keys_of data = descriptor_fields
    ∧ copied ["name"; "hp"; "attack"; "defense"; "dialogue"; "checkText"; "acts";
              "attackPatterns"] (PDict d) data
    ∧ field data "gold" = Some (PInt 0)
    ∧ field data "exp" = Some (PInt 0)
    ∧ field data "spareThreshold" = Some (PInt 0)
    ∧ field data "sprites"
      = Some (PDict [("idle", PStr (("Deltarune Sprites/Characters/Bosses/"
                                      +:+ text_of chapter +:+ "/" +:+ text_of folder +:+ "/")
                                     +:+ "idle_0.png"))]).
Proof.
  intros Hn _ Hc Hcs%formats_exactly_scalar Hf Hfs%formats_exactly_scalar Hall.
  by apply generate_boss_json_ok.
Qed.

(** X6: a record whose name is not a str makes generate_boss_json raise at
    its first statement, before the file is opened: run on any machine, the
    call crashes and leaves the machine as it was, with no file written and
    nothing printed. *)
Theorem boss_json_name_not_str (d : pydict) (v : pyval) (output_dir : string)
    (m : machine) :
  dict_get d "name" = Some v → (∀ name, v ≠ PStr name) →
  ∃ e, run (generate_deltarune_bosses.generate_boss_json (PDict d) output_dir) m
       = Crashed e m.
Proof.
  intros Hv Hns. unfold run.
  destruct (generate_deltarune_bosses.generate_boss_json (PDict d) output_dir (State [] []))
    as [[] st'|e st'] eqn:Hrun.
  - destruct (generate_boss_json_inv _ _ _ _ Hrun)
      as (d' & name & chapter & folder & Hb & Hn & _).
    injection Hb as <-. rewrite Hv in Hn. injection Hn as ->. by destruct (Hns name).
  - apply generate_boss_json_raised in Hrun as ->. by exists e.
Qed.

Lemma boss_json_name_not_str_witness :
  dict_get [("name", PInt 7); ("chapter", PStr "Ch1")] "name" = Some (PInt 7)
  ∧ (∀ name, PInt 7 ≠ PStr name)
  ∧ ∃ e, run (generate_deltarune_bosses.generate_boss_json
                (PDict [("name", PInt 7); ("chapter", PStr "Ch1")]) "out") empty_machine
         = Crashed e empty_machine.
Proof.
  assert (H : ∀ name, PInt 7 ≠ PStr name) by done.
  split; [reflexivity|]. split; [exact H|].
  apply (boss_json_name_not_str [("name", PInt 7); ("chapter", PStr "Ch1")] (PInt 7)
           "out" empty_machine); [reflexivity|exact H].
Defined.

(** X7: a record that lacks one of the fields generate_boss_json reads makes
    it raise before the file is opened: run on any machine, the call crashes
    and leaves the machine as it was, with no file written and nothing
    printed. *)
Theorem boss_json_missing_field (boss : pyval) (output_dir k : string) (m : machine) :
  k ∈ boss_required → field boss k = None →
  ∃ e, run (generate_deltarune_bosses.generate_boss_json boss output_dir) m = Crashed e m.
Proof.
  intros Hk Hmiss. unfold run.
  destruct (generate_deltarune_bosses.generate_boss_json boss output_dir (State [] []))
    as [[] st'|e st'] eqn:Hrun.
  - destruct (generate_boss_json_inv _ _ _ _ Hrun)
      as (d & name & chapter & folder & Hb & _ & _ & _ & _ & _ & Hall).
    subst boss. destruct (proj1 (Forall_forall _ _) Hall k Hk) as [v Hv].
    simpl in Hmiss. congruence.
  - apply generate_boss_json_raised in Hrun as ->. by exists e.
Qed.

Lemma boss_json_missing_field_witness :
  "hp" ∈ boss_required
  ∧ field (PDict [("name", PStr "Jevil"); ("chapter", PStr "Ch1")]) "hp" = None
  ∧ ∃ e, run (generate_deltarune_bosses.generate_boss_json
                (PDict [("name", PStr "Jevil"); ("chapter", PStr "Ch1")]) "out")
           empty_machine
         = Crashed e empty_machine.
Proof.
  assert (H : "hp" ∈ boss_required) by (apply (bool_decide_unpack _); vm_compute; exact I).
  split; [exact H|]. split; [reflexivity|].
  apply (boss_json_missing_field _ "out" "hp" empty_machine H). reflexivity.
Defined.

Lemma boss_descriptor_witness :
  dict_get sample_boss "name" = Some (PStr "Sweet Cap'n Cakes")
  ∧ ascii_only "Sweet Cap'n Cakes"
  ∧ dict_get sample_boss "chapter" = Some (PStr "Ch2")
  ∧ formats_exactly (PStr "Ch2") = true
  ∧ dict_get sample_boss "folder" = Some (PStr "Sweet")
  ∧ formats_exactly (PStr "Sweet") = true
  ∧ Forall (λ k, is_Some (dict_get sample_boss k)) boss_required
  ∧ ∃ data,
      generate_deltarune_bosses.generate_boss_json (PDict sample_boss) "out" (State [] [])
      = Done () (State (globals (State [] []))
                   (calls (State [] [])
                    ++ [Dump (join "out" (boss_file "Sweet Cap'n Cakes")) data 4;
                        Print ("Generated: " +:+ join "out" (boss_file "Sweet Cap'n Cakes"))]))
      ∧ keys_of data = descriptor_fields
      ∧ copied ["name"; "hp"; "attack"; "defense"; "dialogue"; "checkText"; "acts";
                "attackPatterns"] (PDict sample_boss) data
      ∧ field data "gold" = Some (PInt 0)
      ∧ field data "exp" = Some (PInt 0)
      ∧ field data "spareThreshold" = Some (PInt 0)
      ∧ field data "sprites"
        = Some (PDict [("idle", PStr (("Deltarune Sprites/Characters/Bosses/"
                                        +:+ text_of (PStr "Ch2") +:+ "/"
                                        +:+ text_of (PStr "Sweet") +:+ "/")
                                       +:+ "idle_0.png"))]).
Proof.
  assert (H : Forall (λ k, is_Some (dict_get sample_boss k)) boss_required)
    by (repeat (apply Forall_cons; split; [by eexists|]); by apply Forall_nil).
  assert (Ha : ascii_only "Sweet Cap'n Cakes")
    by (apply ascii_onlyb_sound; vm_compute; reflexivity).
  split; [reflexivity|]. split; [exact Ha|].
  split; [reflexivity|]. split; [reflexivity|].
  split; [reflexivity|]. split; [reflexivity|]. split; [exact H|].
  apply (boss_descriptor sample_boss "out" (State [] []) "Sweet Cap'n Cakes"
           (PStr "Ch2") (PStr "Sweet")); try reflexivity; [exact Ha|exact H].
Defined.

Lemma not_capitalb_sound c : not_capitalb c = true → not_capital c.
Proof.
  unfold not_capitalb, not_capital.
  intros [H|H]%orb_true_iff; [left|right]; by apply N.ltb_lt.
Qed.

Lemma ascii_lower_not_capital c : not_capital (ascii_lower c).
Proof.
  apply not_capitalb_sound.
  destruct c as [[] [] [] [] [] [] [] []]; vm_compute; reflexivity.
Qed.

Lemma substitute_bosses_chars name :
  Forall (λ c, c ≠ " "%char ∧ c ≠ "'"%char ∧ c ≠ "-"%char ∧ not_capital c)
    (list_ascii_of_string (substitute bosses_rule (lower name))).
Proof.
  assert (Hu : not_capital "_") by (apply not_capitalb_sound; reflexivity).
  induction name as [|c name IH]; [constructor|].
  cbn [lower substitute].
  pose proof (ascii_lower_not_capital c) as Hc.
  destruct (Ascii.eqb_spec (ascii_lower c) " ") as [Hs|Hs].
  { change (Forall (λ c, c ≠ " "%char ∧ c ≠ "'"%char ∧ c ≠ "-"%char ∧ not_capital c)
              ("_"%char :: list_ascii_of_string (substitute bosses_rule (lower name)))).
    by constructor. }
  destruct (Ascii.eqb_spec (ascii_lower c) "'") as [Ha|Ha]; [exact IH|].
  destruct (Ascii.eqb_spec (ascii_lower c) "-") as [Hh|Hh].
  { change (Forall (λ c, c ≠ " "%char ∧ c ≠ "'"%char ∧ c ≠ "-"%char ∧ not_capital c)
              ("_"%char :: list_ascii_of_string (substitute bosses_rule (lower name)))).
    by constructor. }
  cbn [list_ascii_of_string]. by constructor.
Qed.

Lemma substitute_enemies_chars name :
  Forall (λ c, c ≠ " "%char ∧ c ≠ "-"%char ∧ not_capital c)
    (list_ascii_of_string (substitute enemies_rule (lower name))).
Proof.
  assert (Hu : not_capital "_") by (apply not_capitalb_sound; reflexivity).
  assert (Hq : not_capital "'") by (apply not_capitalb_sound; reflexivity).
  induction name as [|c name IH]; [constructor|].
  cbn [lower substitute].
  pose proof (ascii_lower_not_capital c) as Hc.
  destruct (Ascii.eqb_spec (ascii_lower c) " ") as [Hs|Hs].
  { change (Forall (λ c, c ≠ " "%char ∧ c ≠ "-"%char ∧ not_capital c)
              ("_"%char :: list_ascii_of_string (substitute enemies_rule (lower name)))).
    by constructor. }
  destruct (Ascii.eqb_spec (ascii_lower c) "'") as [Ha|Ha].
  { change (Forall (λ c, c ≠ " "%char ∧ c ≠ "-"%char ∧ not_capital c)
              ("'"%char :: list_ascii_of_string (substitute enemies_rule (lower name)))).
    by constructor. }
  destruct (Ascii.eqb_spec (ascii_lower c) "-") as [Hh|Hh].
  { change (Forall (λ c, c ≠ " "%char ∧ c ≠ "-"%char ∧ not_capital c)
              ("_"%char :: list_ascii_of_string (substitute enemies_rule (lower name)))).
    by constructor. }
  cbn [list_ascii_of_string]. by constructor.
Qed.

(** X8: whatever the record, the file generate_boss_json dumps to is named
    <clean>.json in output_dir's terms, where <clean> holds no space, no
    apostrophe, no hyphen and no capital ASCII letter. *)
Theorem boss_file_name_is_clean (boss : pyval) (output_dir : string) (st st' : state) :
  generate_deltarune_bosses.generate_boss_json boss output_dir st = Done () st' →
  ∃ clean data,
    calls st' = calls st ++ [Dump (join output_dir (clean +:+ ".json")) data 4;
                             Print ("Generated: " +:+ join output_dir (clean +:+ ".json"))]
    ∧ Forall (λ c, c ≠ " "%char ∧ c ≠ "'"%char ∧ c ≠ "-"%char ∧ not_capital c)
        (list_ascii_of_string clean).
Proof.
  intros Hrun.
  destruct (generate_boss_json_inv _ _ _ _ Hrun)
    as (d & name & chapter & folder & -> & Hn & Hc & Hcs & Hf & Hfs & Hall).
  destruct (generate_boss_json_ok d output_dir st name chapter folder Hn Hc Hcs Hf Hfs Hall)
    as (data & Hrun' & _).
  rewrite Hrun' in Hrun. inversion Hrun; subst; clear Hrun.
  exists (substitute bosses_rule (lower name)), data. split.
  - simpl. unfold boss_file. by rewrite replace_bosses_rule.
  - apply substitute_bosses_chars.
Qed.

Lemma boss_file_name_is_clean_witness :
  generate_deltarune_bosses.generate_boss_json (PDict sample_boss) "out" (State [] [])
  = Done () (match generate_deltarune_bosses.generate_boss_json (PDict sample_boss) "out"
                     (State [] []) with
             | Done _ st' => st'
             | Raised _ st' => st'
             end)
  ∧ ∃ clean data,
      calls (match generate_deltarune_bosses.generate_boss_json (PDict sample_boss) "out"
                     (State [] []) with
             | Done _ st' => st'
             | Raised _ st' => st'
             end)
      = calls (State [] [])
        ++ [Dump (join "out" (clean +:+ ".json")) data 4;
            Print ("Generated: " +:+ join "out" (clean +:+ ".json"))]
      ∧ Forall (λ c, c ≠ " "%char ∧ c ≠ "'"%char ∧ c ≠ "-"%char ∧ not_capital c)
          (list_ascii_of_string clean).
Proof.
  split; [reflexivity|].
  apply (boss_file_name_is_clean (PDict sample_boss) "out" (State [] [])). reflexivity.
Defined.

Lemma generate_enemy_json_run (d : pydict) (chapter output_dir : string) (st : state)
    name folder hp attack defense dialogue acts :
  dict_get d "name" = Some (PStr name) →
  dict_get d "folder" = Some folder → scalar folder = true →
  dict_get d "hp" = Some hp →
  dict_get d "attack" = Some attack → scalar attack = true →
  dict_get d "defense" = Some defense → scalar defense = true →
  dict_get d "dialogue" = Some dialogue →
  dict_get d "acts" = Some acts →
  generate_deltarune_enemies.generate_enemy_json (PDict d) chapter output_dir st
  = Done ()
      (State (globals st)
         (calls st ++
          [Dump (join output_dir (enemy_file name))
             (PDict [("name", PStr name); ("hp", hp); ("attack", attack);
                     ("defense", defense); ("gold", PInt 10); ("exp", PInt 15);
                     ("spareThreshold", PInt 100); ("dialogue", dialogue);
                     ("checkText", PStr ("ATK " +:+ text_of attack +:+ " DEF "
                        +:+ text_of defense +:+ lit "\\n* A Darkner from "
                        +:+ upper chapter +:+ "."));
                     ("sprites", PDict [("idle", PStr (enemy_sprite_base chapter (text_of folder)
                                                       +:+ "idle_0.png"))]);
                     ("acts", acts);
                     ("attackPatterns", deltarune_default_patterns)]) 4;
           Print ("Generated: " +:+ join output_dir (enemy_file name))])).
Proof.
  intros Hn Hf Hfs Hhp Hat Hats Hde Hdes Hdi Hac.
  unfold generate_deltarune_enemies.generate_enemy_json. run_monad.
  rewrite Hn. run_monad. rewrite Hf.
  unfold mbind, M_bind, bind. rewrite (format_scalar _ _ Hfs).
  run_monad. rewrite Hhp, Hat, Hde, Hdi.
  unfold mbind, M_bind, bind. rewrite (format_scalar _ _ Hats), (format_scalar _ _ Hdes).
  run_monad. rewrite Hac. run_monad.
  unfold enemy_file, enemy_sprite_base. rewrite <- !app_assoc.
  by destruct (String.eqb chapter "ch1").
Qed.

Lemma generate_enemy_json_inv enemy chapter output_dir st st' :
  generate_deltarune_enemies.generate_enemy_json enemy chapter output_dir st = Done () st' →
  ∃ d name folder attack defense,
    enemy = PDict d
    ∧ dict_get d "name" = Some (PStr name)
    ∧ dict_get d "folder" = Some folder ∧ scalar folder = true
    ∧ dict_get d "attack" = Some attack ∧ scalar attack = true
    ∧ dict_get d "defense" = Some defense ∧ scalar defense = true
    ∧ Forall (λ k, is_Some (dict_get d k)) enemy_required.
Proof.
  unfold generate_deltarune_enemies.generate_enemy_json. run_monad.
  destruct enemy as [| | | | | |d]; try done.
  destruct (dict_get d "name") as [[| | | |name| |]|] eqn:Hn; try done.
  destruct (dict_get d "folder") as [folder|] eqn:Hf; [|done].
  unfold mbind, M_bind, bind.
  destruct (format folder st) as [f st1|] eqn:Hff; [|done].
  apply format_done in Hff as [Hfs ->].
  run_monad.
  destruct (dict_get d "hp") eqn:Hhp; [|done].
  destruct (dict_get d "attack") as [attack|] eqn:Hat; [|done].
  destruct (dict_get d "defense") as [defense|] eqn:Hde; [|done].
  destruct (dict_get d "dialogue") eqn:Hdi; [|done].
  unfold mbind, M_bind, bind.
  destruct (format attack st) as [a st1|] eqn:Hfa; [|done].
  apply format_done in Hfa as [Hats ->].
  destruct (format defense st) as [a' st1|] eqn:Hfd; [|done].
  apply format_done in Hfd as [Hdes ->].
  run_monad.
  destruct (dict_get d "acts") eqn:Hac; [|done].
  intros _. exists d, name, folder, attack, defense. split_and!; try done.
  unfold enemy_required. repeat (apply Forall_cons; split; [by eexists|]).
  by apply Forall_nil.
Qed.

Lemma generate_enemy_json_ok (d : pydict) (chapter output_dir : string) (st : state)
    (name : string) (folder attack defense : pyval) :
  dict_get d "name" = Some (PStr name) →
  dict_get d "folder" = Some folder → scalar folder = true →
  dict_get d "attack" = Some attack → scalar attack = true →
  dict_get d "defense" = Some defense → scalar defense = true →
  Forall (λ k, is_Some (dict_get d k)) enemy_required →
  ∃ data,
    generate_deltarune_enemies.generate_enemy_json (PDict d) chapter output_dir st
    = Done () (State (globals st)
                 (calls st ++ [Dump (join output_dir (enemy_file name)) data 4;
                               Print ("Generated: " +:+ join output_dir (enemy_file name))]))
    ∧ keys_of data = descriptor_fields
    ∧ copied ["name"; "hp"; "attack"; "defense"; "dialogue"; "acts"] (PDict d) data
    ∧ field data "gold" = Some (PInt 10)
    ∧ field data "exp" = Some (PInt 15)
    ∧ field data "spareThreshold" = Some (PInt 100)
    ∧ field data "checkText"
      = Some (PStr ("ATK " +:+ text_of attack +:+ " DEF " +:+ text_of defense
                    +:+ lit "\\n* A Darkner from " +:+ upper chapter +:+ "."))
    ∧ field data "sprites"
      = Some (PDict [("idle", PStr (enemy_sprite_base chapter (text_of folder)
                                    +:+ "idle_0.png"))])
    ∧ field data "attackPatterns" = Some deltarune_default_patterns.
Proof.
  intros Hn Hf Hfs Hat Hats Hde Hdes Hall.
  unfold enemy_required in Hall.
  repeat (apply Forall_cons in Hall as [[? ?] Hall]).
  eexists. split;
    [eapply (generate_enemy_json_run d chapter output_dir st name folder _ attack defense);
     eassumption|].
  split; [done|]. split; [|by repeat split].
  unfold copied.
  repeat (apply Forall_cons; split; [split; simpl; [by eauto|congruence]|]).
  by apply Forall_nil.
Qed.

(** X9: generate_deltarune_enemies.generate_enemy_json on a record that has
    the seven fields it reads, an ASCII str for name, and for folder, attack
    and defense a str, a bool, None or an int of at most 4300 digits, and
    for any ASCII chapter.  It leaves the globals as they are and issues the
    dump of a descriptor and one line.  The descriptor has the twelve
    documented fields in their order; name, hp, attack, defense, dialogue
    and acts are the record's; gold, exp, spareThreshold, checkText and
    attackPatterns are the same constants and the same formula for every
    enemy, whatever the record holds under those names; and the sprite
    directory is Ch1 for the chapter "ch1" and Ch2 for every other chapter. *)
Theorem enemy_descriptor (d : pydict) (chapter output_dir : string) (st : state)
    (name : string) (folder attack defense : pyval) :
  dict_get d "name" = Some (PStr name) → ascii_only name → ascii_only chapter →
  dict_get d "folder" = Some folder → formats_exactly folder = true →
  dict_get d "attack" = Some attack → formats_exactly attack = true →
  dict_get d "defense" = Some defense → formats_exactly defense = true →
  Forall (λ k, is_Some (dict_get d k)) enemy_required →
  ∃ data,
    generate_deltarune_enemies.generate_enemy_json (PDict d) chapter output_dir st
    = Done () (State (globals st)
                 (calls st ++ [Dump (join output_dir (enemy_file name)) data 4;
                               Print ("Generated: " +:+ join output_dir (enemy_file name))]))
    ∧ keys_of data = descriptor_fields
    ∧ copied ["name"; "hp"; "attack"; "defense"; "dialogue"; "acts"] (PDict d) data
    ∧ field data "gold" = Some (PInt 10)
    ∧ field data "exp" = Some (PInt 15)
    ∧ field data "spareThreshold" = Some (PInt 100)
    ∧ field data "checkText"
      = Some (PStr ("ATK " +:+ text_of attack +:+ " DEF " +:+ text_of defense
                    +:+ lit "\\n* A Darkner from " +:+ upper chapter +:+ "."))
    ∧ field data "sprites"
      = Some (PDict [("idle", PStr (enemy_sprite_base chapter (text_of folder)
                                    +:+ "idle_0.png"))])
    ∧ field data "attackPatterns" = Some deltarune_default_patterns.
Proof.
  intros Hn _ _ Hf Hfs%formats_exactly_scalar Ha Has%formats_exactly_scalar
    Hd Hds%formats_exactly_scalar Hall.
  by apply generate_enemy_json_ok.
Qed.

Lemma enemy_descriptor_witness :
  dict_get sample_enemy "name" = Some (PStr "Ambyu-Lance")
  ∧ ascii_only "Ambyu-Lance" ∧ ascii_only "ch3"
  ∧ dict_get sample_enemy "folder" = Some (PStr "Ambyu Lance")
  ∧ formats_exactly (PStr "Ambyu Lance") = true
  ∧ dict_get sample_enemy "attack" = Some (PInt 9) ∧ formats_exactly (PInt 9) = true
  ∧ dict_get sample_enemy "defense" = Some (PInt 2) ∧ formats_exactly (PInt 2) = true
  ∧ Forall (λ k, is_Some (dict_get sample_enemy k)) enemy_required
  ∧ ∃ data,
      generate_deltarune_enemies.generate_enemy_json (PDict sample_enemy) "ch3" "out"
        (State [] [])
      = Done () (State (globals (State [] []))
                   (calls (State [] [])
                    ++ [Dump (join "out" (enemy_file "Ambyu-Lance")) data 4;
                        Print ("Generated: " +:+ join "out" (enemy_file "Ambyu-Lance"))]))
      ∧ keys_of data = descriptor_fields
      ∧ copied ["name"; "hp"; "attack"; "defense"; "dialogue"; "acts"]
          (PDict sample_enemy) data
      ∧ field data "gold" = Some (PInt 10)
      ∧ field data "exp" = Some (PInt 15)
      ∧ field data "spareThreshold" = Some (PInt 100)
      ∧ field data "checkText"
        = Some (PStr ("ATK " +:+ text_of (PInt 9) +:+ " DEF " +:+ text_of (PInt 2)
                      +:+ lit "\\n* A Darkner from " +:+ upper "ch3" +:+ "."))
      ∧ field data "sprites"
        = Some (PDict [("idle", PStr (enemy_sprite_base "ch3" (text_of (PStr "Ambyu Lance"))
                                      +:+ "idle_0.png"))])
      ∧ field data "attackPatterns" = Some deltarune_default_patterns.
Proof.
  assert (H : Forall (λ k, is_Some (dict_get sample_enemy k)) enemy_required)
    by (repeat (apply Forall_cons; split; [by eexists|]); by apply Forall_nil).
  assert (Hn : ascii_only "Ambyu-Lance")
    by (apply ascii_onlyb_sound; vm_compute; reflexivity).
  assert (Hc : ascii_only "ch3") by (apply ascii_onlyb_sound; vm_compute; reflexivity).
  split; [reflexivity|]. split; [exact Hn|]. split; [exact Hc|].
  split; [reflexivity|]. split; [reflexivity|].
  split; [reflexivity|]. split; [vm_compute; reflexivity|].
  split; [reflexivity|]. split; [vm_compute; reflexivity|]. split; [exact H|].
  apply (enemy_descriptor sample_enemy "ch3" "out" (State [] []) "Ambyu-Lance"
           (PStr "Ambyu Lance") (PInt 9) (PInt 2));
    first [exact Hn | exact Hc | exact H | reflexivity | (vm_compute; reflexivity)].
Defined.

(** X10: whatever the record, the file generate_enemy_json dumps to is
    named <clean>.json, where <clean> holds no space, no hyphen and no
    capital ASCII letter (an apostrophe stays). *)
Theorem enemy_file_name_is_clean (enemy : pyval) (chapter output_dir : string)
    (st st' : state) :
  generate_deltarune_enemies.generate_enemy_json enemy chapter output_dir st = Done () st' →
  ∃ clean data,
    calls st' = calls st ++ [Dump (join output_dir (clean +:+ ".json")) data 4;
                             Print ("Generated: " +:+ join output_dir (clean +:+ ".json"))]
    ∧ Forall (λ c, c ≠ " "%char ∧ c ≠ "-"%char ∧ not_capital c)
        (list_ascii_of_string clean).
Proof.
  intros Hrun.
  destruct (generate_enemy_json_inv _ _ _ _ _ Hrun)
    as (d & name & folder & attack & defense & -> & Hn & Hf & Hfs & Hat & Hats
        & Hde & Hdes & Hall).
  destruct (generate_enemy_json_ok d chapter output_dir st name folder attack defense
              Hn Hf Hfs Hat Hats Hde Hdes Hall) as (data & Hrun' & _).
  rewrite Hrun' in Hrun. inversion Hrun; subst; clear Hrun.
  exists (substitute enemies_rule (lower name)), data. split.
  - simpl. unfold enemy_file. by rewrite replace_enemies_rule.
  - apply substitute_enemies_chars.
Qed.

Lemma enemy_file_name_is_clean_witness :
  generate_deltarune_enemies.generate_enemy_json (PDict sample_enemy) "ch2" "out" (State [] [])
  = Done () (match generate_deltarune_enemies.generate_enemy_json (PDict sample_enemy)
                     "ch2" "out" (State [] []) with
             | Done _ st' => st'
             | Raised _ st' => st'
             end)
  ∧ ∃ clean data,
      calls (match generate_deltarune_enemies.generate_enemy_json (PDict sample_enemy)
                     "ch2" "out" (State [] []) with
             | Done _ st' => st'
             | Raised _ st' => st'
             end)
      = calls (State [] [])
        ++ [Dump (join "out" (clean +:+ ".json")) data 4;
            Print ("Generated: " +:+ join "out" (clean +:+ ".json"))]
      ∧ Forall (λ c, c ≠ " "%char ∧ c ≠ "-"%char ∧ not_capital c)
          (list_ascii_of_string clean).
Proof.
  split; [reflexivity|].
  apply (enemy_file_name_is_clean (PDict sample_enemy) "ch2" "out" (State [] [])).
  reflexivity.
Defined.




Lemma isfile_add_dir m q p :
  isfile (Machine ({[q]} ∪ dirs m) (files m) (stdout m)) p = isfile m p.
Proof. done. Qed.




Lemma substitute_fold_name name :
  substitute bosses_rule (lower name) = substitute bosses_rule (fold_name name).
Proof.
  unfold fold_name. induction name as [|c name IH]; [done|].
  cbn [replace]. destruct (Ascii.eqb_spec c "-") as [->|Hc].
  - change (" " +:+ replace "-" " " name) with (String " " (replace "-" " " name)).
    change (lower (String "-" name)) with (String "-" (lower name)).
    change (lower (String " " (replace "-" " " name)))
      with (String " " (lower (replace "-" " " name))).
    replace_step. f_equal. exact IH.
  - cbn [lower substitute]. by rewrite IH.
Qed.

Lemma boss_file_fold_name name1 name2 :
  fold_name name1 = fold_name name2 → boss_file name1 = boss_file name2.
Proof.
  intros H. unfold boss_file.
  by rewrite !replace_bosses_rule, (substitute_fold_name name1),
             (substitute_fold_name name2), H.
Qed.

(** X12: generate_deltarune_bosses.generate_boss_json does not tell apart
    two display names that differ only in letter case or in a hyphen for a
    space.  Two calls that end normally on such records dump to the same
    path, each descriptor carrying its own name; performed on any machine on
    which they go through, the file holds the JSON text of the second
    descriptor: the first boss is overwritten. *)
Theorem boss_names_collide (boss1 boss2 : pyval) (output_dir name1 name2 : string)
    (st st1 st2 : state) :
  field boss1 "name" = Some (PStr name1) →
  field boss2 "name" = Some (PStr name2) →
  fold_name name1 = fold_name name2 →
  generate_deltarune_bosses.generate_boss_json boss1 output_dir st = Done () st1 →
  generate_deltarune_bosses.generate_boss_json boss2 output_dir st1 = Done () st2 →
  ∃ p data1 data2,
    calls st2 = calls st ++ [Dump p data1 4; Print ("Generated: " +:+ p);
                             Dump p data2 4; Print ("Generated: " +:+ p)]
    ∧ field data1 "name" = Some (PStr name1)
    ∧ field data2 "name" = Some (PStr name2)
    ∧ ∀ m m', exec [Dump p data1 4; Print ("Generated: " +:+ p);
                    Dump p data2 4; Print ("Generated: " +:+ p)] m = inr m' →
              files m' !! p = Some (Json.dumps data2 4).
Proof.
  intros Hn1 Hn2 Hfold Hrun1 Hrun2.
  destruct (generate_boss_json_inv _ _ _ _ Hrun1)
    as (d1 & n1 & c1 & f1 & -> & Hd1 & Hc1 & Hcs1 & Hf1 & Hfs1 & Hall1).
  destruct (generate_boss_json_inv _ _ _ _ Hrun2)
    as (d2 & n2 & c2 & f2 & -> & Hd2 & Hc2 & Hcs2 & Hf2 & Hfs2 & Hall2).
  cbn [field] in Hn1, Hn2.
  assert (n1 = name1) as -> by congruence.
  assert (n2 = name2) as -> by congruence.
  destruct (generate_boss_json_ok d1 output_dir st name1 c1 f1 Hd1 Hc1 Hcs1 Hf1 Hfs1 Hall1)
    as (data1 & Hok1 & _ & Hcp1 & _).
  destruct (generate_boss_json_ok d2 output_dir st1 name2 c2 f2 Hd2 Hc2 Hcs2 Hf2 Hfs2 Hall2)
    as (data2 & Hok2 & _ & Hcp2 & _).
  rewrite Hok1 in Hrun1. injection Hrun1 as <-.
  rewrite Hok2 in Hrun2. injection Hrun2 as <-.
  rewrite <- (boss_file_fold_name _ _ Hfold).
  exists (join output_dir (boss_file name1)), data1, data2.
  split; [cbn [calls]; by rewrite <- app_assoc|].
  apply Forall_cons in Hcp1 as [[_ Hcp1] _].
  apply Forall_cons in Hcp2 as [[_ Hcp2] _].
  split; [by rewrite Hcp1|]. split; [by rewrite Hcp2|].
  intros m m' He. rewrite (exec_files _ _ _ He).
  cbn [writes flat_map app apply_writes foldl fst snd].
  apply lookup_insert_eq.
Qed.

Lemma boss_names_collide_witness :
  let st1 := state_after (generate_deltarune_bosses.generate_boss_json
                            (PDict sample_boss_spaced) "out" (State [] [])) in
  let st2 := state_after (generate_deltarune_bosses.generate_boss_json
                            (PDict sample_boss_hyphen) "out" st1) in
  (field (PDict sample_boss_spaced) "name" = Some (PStr "Tasque Manager")
   ∧ field (PDict sample_boss_hyphen) "name" = Some (PStr "tasque-manager")
   ∧ fold_name "Tasque Manager" = fold_name "tasque-manager"
   ∧ generate_deltarune_bosses.generate_boss_json (PDict sample_boss_spaced) "out"
       (State [] []) = Done () st1
   ∧ generate_deltarune_bosses.generate_boss_json (PDict sample_boss_hyphen) "out" st1
     = Done () st2)
  ∧ ∃ p data1 data2,
      calls st2 = calls (State [] []) ++ [Dump p data1 4; Print ("Generated: " +:+ p);
                                          Dump p data2 4; Print ("Generated: " +:+ p)]
      ∧ field data1 "name" = Some (PStr "Tasque Manager")
      ∧ field data2 "name" = Some (PStr "tasque-manager")
      ∧ ∀ m m', exec [Dump p data1 4; Print ("Generated: " +:+ p);
                      Dump p data2 4; Print ("Generated: " +:+ p)] m = inr m' →
                files m' !! p = Some (Json.dumps data2 4).
Proof.
  intros st1 st2.
  split; [repeat split; vm_compute; reflexivity|].
  apply (boss_names_collide (PDict sample_boss_spaced) (PDict sample_boss_hyphen) "out"
           "Tasque Manager" "tasque-manager" (State [] []) st1 st2);
    vm_compute; reflexivity.
Defined.
